(** * Product catalogue core: Price, ProductCode, Product and the use cases

    A shallow embedding of the domain and application layers of the
    product catalogue service (TypeScript, NestJS, hexagonal layout) and
    the properties its specification states about them.

    Layout: the JavaScript values the code manipulates ([JS]), the error
    classes ([Errors]), the runtime state that the code reads and writes
    ([Runtime]), then one module per source class, then the lemmas. *)

From Stdlib Require Import ZArith QArith Qround String Ascii List Bool Floats Lia.
From Stdlib Require Uint63.
From stdpp Require Import base option list gmap strings.

Local Open Scope string_scope.
Local Open Scope bool_scope.
Local Open Scope Z_scope.

(* ================================================================== *)
(** ** JavaScript values *)
(* ================================================================== *)

Module JS.

(** *** Strings

    A string is a sequence of characters of one byte.  On ASCII text
    (every character below 128) the functions below are the methods of
    the runtime: the white space of ASCII is TAB, LF, VT, FF, CR and
    SPACE, and the only letters that [toUpperCase] changes are [a-z].
    Outside ASCII the runtime knows more white space (U+00A0, U+FEFF
    and others) and more letters, which a byte cannot carry; the
    characters above 127 are carried along unchanged here.  A property
    that rests on [trim], [isBlank] or [toUpperCase] is therefore
    stated for ASCII text ([Range.isASCII]). *)

Definition code (c : ascii) : nat := nat_of_ascii c.

Definition between (lo hi : nat) (c : ascii) : bool :=
  (lo <=? code c)%nat && (code c <=? hi)%nat.

(** White space as [String.prototype.trim] sees it: TAB, LF, VT, FF, CR
    and SPACE. *)
Definition isWhiteSpace (c : ascii) : bool :=
  between 9 13 c || (code c =? 32)%nat.

Definition isDigit (c : ascii) : bool := between 48 57 c.
Definition isUpper (c : ascii) : bool := between 65 90 c.
Definition isLower (c : ascii) : bool := between 97 122 c.

(** The character class [[A-Z0-9]]. *)
Definition isUpperAlnum (c : ascii) : bool := isUpper c || isDigit c.

Definition toUpperChar (c : ascii) : ascii :=
  if isLower c then ascii_of_nat (code c - 32) else c.

Fixpoint map_chars (f : ascii -> ascii) (s : string) : string :=
  match s with
  | EmptyString => EmptyString
  | String c r => String (f c) (map_chars f r)
  end.

(** [s.toUpperCase()] *)
Definition toUpperCase (s : string) : string := map_chars toUpperChar s.

Fixpoint trimStart (s : string) : string :=
  match s with
  | EmptyString => EmptyString
  | String c r => if isWhiteSpace c then trimStart r else s
  end.

Fixpoint trimEnd (s : string) : string :=
  match s with
  | EmptyString => EmptyString
  | String c r =>
      match trimEnd r with
      | EmptyString => if isWhiteSpace c then EmptyString else String c EmptyString
      | r' => String c r'
      end
  end.

(** [s.trim()] *)
Definition trim (s : string) : string := trimEnd (trimStart s).

(** [s.length] *)
Definition length (s : string) : nat := String.length s.

(** Truthiness of a string: only the empty string is falsy. *)
Definition truthy (s : string) : bool :=
  match s with EmptyString => false | String _ _ => true end.

(** The test [!s || s.trim().length === 0] that the entity and
    [ProductCode.generate] apply to their string arguments. *)
Definition isBlank (s : string) : bool :=
  negb (truthy s) || (length (trim s) =? 0)%nat.

(** [s.substring(start, end)]: the two indices are swapped when they
    come in the wrong order and clamped to the length of [s]. *)
Definition substring (start stop : nat) (s : string) : string :=
  String.substring (Nat.min start stop) (Nat.max start stop - Nat.min start stop) s.

(** The filler of [padStart] and [padEnd]: [n] characters taken from
    [fill] repeated as often as needed. *)
Fixpoint filler (n : nat) (rest fill : string) : string :=
  match n with
  | O => EmptyString
  | S n' =>
      match rest with
      | String c r => String c (filler n' r fill)
      | EmptyString =>
          match fill with
          | String c r => String c (filler n' r fill)
          | EmptyString => EmptyString
          end
      end
  end.

(** [s.padStart(target, fill)] *)
Definition padStart (target : nat) (fill : string) (s : string) : string :=
  if (target <=? length s)%nat then s
  else filler (target - length s) fill fill ++ s.

(** [s.padEnd(target, fill)] *)
Definition padEnd (target : nat) (fill : string) (s : string) : string :=
  if (target <=? length s)%nat then s
  else s ++ filler (target - length s) fill fill.

(** [s.replace(/[cls]/g, '')]: every character of the class is
    dropped. *)
Fixpoint removeAll (cls : ascii -> bool) (s : string) : string :=
  match s with
  | EmptyString => EmptyString
  | String c r => if cls c then removeAll cls r else String c (removeAll cls r)
  end.

(** [s.split(sep)] for a separator of one character.  The result has
    at least one element. *)
Fixpoint split (sep : ascii) (s : string) : list string :=
  match s with
  | EmptyString => [EmptyString]
  | String c r =>
      if Ascii.eqb c sep then EmptyString :: split sep r
      else match split sep r with
           | h :: t => String c h :: t
           | [] => [String c EmptyString]
           end
  end.

(** [s.startsWith(p)] *)
Fixpoint startsWith (p s : string) : bool :=
  match p, s with
  | EmptyString, _ => true
  | String a p', String b s' => Ascii.eqb a b && startsWith p' s'
  | String _ _, EmptyString => false
  end.

(** [list.includes(x)] on a list of strings. *)
Definition includes (l : list string) (x : string) : bool :=
  existsb (String.eqb x) l.

(** [list.join(sep)] *)
Fixpoint join (sep : string) (l : list string) : string :=
  match l with
  | [] => EmptyString
  | [x] => x
  | x :: r => x ++ sep ++ join sep r
  end.

(** *** Numbers that count

    Stock levels, quantities and sequence numbers are integers or
    [NaN], which [parseInt] produces and which every comparison
    rejects.  The sum and the difference below are the mathematical
    ones; those of the runtime are the same as long as the operands
    and the result are safe integers (of magnitude below 2^53,
    [Range.isSafeInteger]), and round beyond.  A property that
    names a sum or a difference is stated within that range. *)

Inductive number : Type :=
| Int (z : Z)
| NaN.

Definition add (a b : number) : number :=
  match a, b with Int x, Int y => Int (x + y) | _, _ => NaN end.

Definition sub (a b : number) : number :=
  match a, b with Int x, Int y => Int (x - y) | _, _ => NaN end.

Definition abs (a : number) : number :=
  match a with Int x => Int (Z.abs x) | NaN => NaN end.

(** [a < b], [a <= b], [a > b], [a >= b] and [a === b]: all false as
    soon as one side is [NaN]. *)
Definition lt (a b : number) : bool :=
  match a, b with Int x, Int y => x <? y | _, _ => false end.

Definition le (a b : number) : bool :=
  match a, b with Int x, Int y => x <=? y | _, _ => false end.

Definition gt (a b : number) : bool := lt b a.
Definition ge (a b : number) : bool := le b a.

Definition strictEq (a b : number) : bool :=
  match a, b with Int x, Int y => x =? y | _, _ => false end.

Definition digitChar (d : Z) : ascii := ascii_of_nat (48 + Z.to_nat d).

(** Decimal digits of a non-negative integer, most significant first. *)
Fixpoint digits (fuel : nat) (n : Z) (acc : string) : string :=
  match fuel with
  | O => acc
  | S f =>
      let acc' := String (digitChar (n mod 10)) acc in
      if n <? 10 then acc' else digits f (n / 10) acc'
  end.

(** A number of decimal digits never exceeds the number of bits. *)
Definition digitsFuel (n : Z) : nat := S (Z.to_nat (Z.log2 n)).

(** [n.toString()] for the numbers above.  The runtime prints an
    integer of less than 22 digits without an exponent, as here. *)
Definition toString (a : number) : string :=
  match a with
  | NaN => "NaN"
  | Int z =>
      if z <? 0 then String "-" (digits (digitsFuel (- z)) (- z) EmptyString)
      else digits (digitsFuel z) z EmptyString
  end.

Definition digitVal (c : ascii) : option Z :=
  if isDigit c then Some (Z.of_nat (code c) - 48) else None.

(** The longest run of decimal digits at the head of [s], as a number;
    [acc] is [None] until a digit has been read. *)
Fixpoint parseDigits (s : string) (acc : option Z) : option Z :=
  match s with
  | EmptyString => acc
  | String c r =>
      match digitVal c with
      | Some d => parseDigits r (Some (10 * default 0 acc + d))
      | None => acc
      end
  end.

(** [parseInt(s, 10)]: leading white space is skipped, a sign is read,
    then the longest run of digits; [NaN] when there is no digit.  The
    value is the mathematical one, which is the runtime's for a safe
    integer. *)
Definition parseInt (s : string) : number :=
  let s1 := trimStart s in
  let '(neg, s2) :=
    match s1 with
    | String c r =>
        if Ascii.eqb c "-" then (true, r)
        else if Ascii.eqb c "+" then (false, r)
        else (false, s1)
    | EmptyString => (false, s1)
    end in
  match parseDigits s2 None with
  | Some n => Int (if neg then - n else n)
  | None => NaN
  end.

(** *** Regular expressions

    The patterns of the code use character classes, literal characters,
    concatenation and bounded repetition, and are anchored at both
    ends. *)

Inductive regex : Type :=
| Eps
| Chr (c : ascii)
| Class (cls : ascii -> bool)
| Cat (r1 r2 : regex)
| Alt (r1 r2 : regex).

(** [r{n}] *)
Fixpoint times (n : nat) (r : regex) : regex :=
  match n with
  | O => Eps
  | S n' => Cat r (times n' r)
  end.

(** [r{0,n}] *)
Fixpoint upto (n : nat) (r : regex) : regex :=
  match n with
  | O => Eps
  | S n' => Alt (Cat r (upto n' r)) Eps
  end.

(** [r{lo,hi}] *)
Definition range (lo hi : nat) (r : regex) : regex :=
  Cat (times lo r) (upto (hi - lo) r).

(** The remainders of [s] after [r] has matched a prefix of it, one per
    way of matching. *)
Fixpoint residuals (r : regex) (s : string) : list string :=
  match r with
  | Eps => [s]
  | Chr c =>
      match s with
      | String d rest => if Ascii.eqb d c then [rest] else []
      | EmptyString => []
      end
  | Class cls =>
      match s with
      | String d rest => if cls d then [rest] else []
      | EmptyString => []
      end
  | Cat r1 r2 => flat_map (residuals r2) (residuals r1 s)
  | Alt r1 r2 => residuals r1 s ++ residuals r2 s
  end.

(** [/^r$/.test(s)] *)
Definition test (r : regex) (s : string) : bool :=
  existsb (String.eqb EmptyString) (residuals r s).

(** The language of a pattern: the strings it matches from end to
    end. *)
Fixpoint matches (r : regex) (s : string) : Prop :=
  match r with
  | Eps => s = EmptyString
  | Chr c => s = String c EmptyString
  | Class cls => exists d, cls d = true /\ s = String d EmptyString
  | Cat r1 r2 => exists s1 s2, s = s1 ++ s2 /\ matches r1 s1 /\ matches r2 s2
  | Alt r1 r2 => matches r1 s \/ matches r2 s
  end.

(** Every character of [s] is in the class. *)
Fixpoint all (cls : ascii -> bool) (s : string) : bool :=
  match s with
  | EmptyString => true
  | String c r => cls c && all cls r
  end.

(** *** Binary64 numbers

    Monetary amounts are binary64 floating-point numbers, as in
    JavaScript. *)

Definition two52 : float := 4503599627370496%float.

(** The integer nearest to a finite [x] with [0 <= x < 2^52] (ties to
    even), by the usual addition trick, then corrected downwards. *)
Definition floorSmall (x : float) : float :=
  let r := ((x + two52) - two52)%float in
  if PrimFloat.ltb x r then (r - 1)%float else r.

(** [Math.round(x)]: the nearest integer, a tie going towards positive
    infinity.  Values of magnitude 2^52 and above are integers already;
    [NaN], the infinities and the zeros are returned as they are. *)
Definition Math_round (x : float) : float :=
  if PrimFloat.is_nan x || PrimFloat.is_infinity x || PrimFloat.is_zero x then x
  else if PrimFloat.leb two52 (PrimFloat.abs x) then x
  else
    let a := PrimFloat.abs x in
    let f := floorSmall a in
    let frac := (a - f)%float in
    if PrimFloat.ltb x 0
    then PrimFloat.opp (if PrimFloat.ltb 0.5 frac then f + 1 else f)%float
    else (if PrimFloat.leb 0.5 frac then f + 1 else f)%float.

(** [Math.pow(b, n)] for a natural exponent. *)
Fixpoint Math_pow (b : float) (n : nat) : float :=
  match n with
  | O => 1%float
  | S n' => (b * Math_pow b n')%float
  end.

(** [Number.isFinite(x)] *)
Definition Number_isFinite (x : float) : bool :=
  negb (PrimFloat.is_nan x || PrimFloat.is_infinity x).

(** *** Text rendered by the runtime

    Template literals interpolate numbers and dates; their rendering
    ([Number::toString], [toFixed], [toISOString]) belongs to the
    JavaScript runtime, so a text keeps the interpolated value next to
    the literal pieces. *)

Definition Date : Type := Z.

Inductive piece : Type :=
| Lit (s : string)
| Num (x : float)                (* `${x}` *)
| Fixed (x : float) (d : nat)    (* x.toFixed(d) *)
| Iso (t : Date).                (* t.toISOString() *)

Definition text : Type := list piece.

Definition lit (s : string) : text := [Lit s].

(** *** Truthiness and defaults

    [v || d] on a string or a number that may be [undefined] ([None]):
    the empty string, [0], [NaN] and [undefined] are falsy. *)

Definition orString (v : option string) (d : string) : string :=
  match v with
  | Some s => if truthy s then s else d
  | None => d
  end.



(** The double-quote character of a message. *)
Definition dquote : string := String (ascii_of_nat 34) EmptyString.

End JS.

(* ================================================================== *)
(** ** The error classes of [domain/errors] *)
(* ================================================================== *)

Module Errors.

(** The [unknown] payload of [InvalidProductDataError.value]. *)
Inductive unknown : Type :=
| UNumber (n : JS.number)
| UString (s : string).

(** A thrown value: a plain [Error] or one of the [DomainError]
    subclasses, with the arguments of its constructor. *)
Inductive Exn : Type :=
| Error (message : JS.text)
| ProductNotFoundError (identifier identifierType : string)
| DuplicateProductCodeError (code codeType : string)
| InvalidProductDataError (message : string) (field : option string) (value : option unknown)
| InsufficientStockError (productId : string) (requestedQuantity availableStock : JS.number)
| ProductNotAvailableError (productId reason : string)
| ValidationError (message : string) (field : option string)
| NotFoundError (resource identifier : string).

(** [e instanceof DomainError] *)
Definition isDomainError (e : Exn) : bool :=
  match e with Error _ => false | _ => true end.

(** [e instanceof InsufficientStockError] *)
Definition isInsufficientStockError (e : Exn) : bool :=
  match e with InsufficientStockError _ _ _ => true | _ => false end.

(** [e instanceof InvalidProductDataError] *)
Definition isInvalidProductDataError (e : Exn) : bool :=
  match e with InvalidProductDataError _ _ _ => true | _ => false end.

(** [e instanceof DuplicateProductCodeError] *)
Definition isDuplicateProductCodeError (e : Exn) : bool :=
  match e with DuplicateProductCodeError _ _ => true | _ => false end.

(** [e instanceof ProductNotFoundError] *)
Definition isProductNotFoundError (e : Exn) : bool :=
  match e with ProductNotFoundError _ _ => true | _ => false end.

(** [InvalidProductDataError.forEmptyField] *)
Definition forEmptyField (field : string) : Exn :=
  InvalidProductDataError (field ++ " cannot be empty") (Some field) None.

(** [InvalidProductDataError.forNegativeValue] *)
Definition forNegativeValue (field : string) (value : JS.number) : Exn :=
  InvalidProductDataError
    (field ++ " cannot be negative. Received: " ++ JS.toString value)
    (Some field) (Some (UNumber value)).

(** [InvalidProductDataError.forInvalidFormat], for a value that is a
    string. *)
Definition forInvalidFormat (field expectedFormat value : string) : Exn :=
  InvalidProductDataError
    ("Invalid " ++ field ++ " format. Expected: " ++ expectedFormat
     ++ ". Received: " ++ value)
    (Some field) (Some (UString value)).

(** [InvalidProductDataError.forField] *)
Definition forField (field reason : string) (value : option unknown) : Exn :=
  InvalidProductDataError ("Invalid " ++ field ++ ": " ++ reason) (Some field) value.

(** [InsufficientStockError.getMissingQuantity] *)
Definition getMissingQuantity (requestedQuantity availableStock : JS.number) : JS.number :=
  JS.sub requestedQuantity availableStock.

(** The outcome of a call that may throw. *)
Inductive Outcome (A : Type) : Type :=
| Return (a : A)
| Throw (e : Exn).

Arguments Return {A} a.
Arguments Throw {A} e.

Definition bindO {A B : Type} (m : Outcome A) (k : A -> Outcome B) : Outcome B :=
  match m with
  | Return a => k a
  | Throw e => Throw e
  end.

(** [if (c) throw e;] *)
Definition throwIfO (c : bool) (e : Exn) : Outcome unit :=
  if c then Throw e else Return tt.


(** [e instanceof ProductNotAvailableError] *)
Definition isProductNotAvailableError (e : Exn) : bool :=
  match e with ProductNotAvailableError _ _ => true | _ => false end.

(** [e.message]: the text that the constructor of each class passes to
    [super]. *)
Definition message (e : Exn) : JS.text :=
  match e with
  | Error m => m
  | ProductNotFoundError identifier identifierType =>
      JS.lit ("Product with " ++ identifierType ++ " '" ++ identifier ++ "' not found")
  | DuplicateProductCodeError code codeType =>
      JS.lit ("Product " ++ codeType ++ " '" ++ code ++ "' already exists")
  | InvalidProductDataError m _ _ => JS.lit m
  | InsufficientStockError productId requestedQuantity availableStock =>
      JS.lit ("Insufficient stock for product '" ++ productId ++ "'. Requested: "
              ++ JS.toString requestedQuantity ++ ", Available: "
              ++ JS.toString availableStock)
  | ProductNotAvailableError productId reason =>
      JS.lit ("Product '" ++ productId ++ "' is not available: " ++ reason)
  | ValidationError m _ => JS.lit m
  | NotFoundError resource identifier =>
      JS.lit (resource ++ " with identifier '" ++ identifier ++ "' not found")
  end.

End Errors.

Declare Scope outcome_scope.
Delimit Scope outcome_scope with outcome.
Notation "x <- m ;; k" := (Errors.bindO m (fun x => k))
  (at level 100, m at next level, right associativity) : outcome_scope.
Notation "m ;; k" := (Errors.bindO m (fun _ => k))
  (at level 100, right associativity) : outcome_scope.

(* ================================================================== *)
(** ** The records that cross the layers *)
(* ================================================================== *)

(** [IProductSchema], the state of a [Product]. *)
Module IProductSchema.
Record t : Type := mk {
  id : string;
  name : string;
  description : string;
  price : float;
  stock : JS.number;
  sku : string;
  categoryId : string;
  isActive : bool;
  createdAt : JS.Date;
  updatedAt : JS.Date
}.

(** [{...e, name: v, updatedAt: now}] and its siblings. *)
Definition withName (e : t) (v : string) (now : JS.Date) : t :=
  mk (id e) v (description e) (price e) (stock e) (sku e) (categoryId e)
     (isActive e) (createdAt e) now.
Definition withDescription (e : t) (v : string) (now : JS.Date) : t :=
  mk (id e) (name e) v (price e) (stock e) (sku e) (categoryId e)
     (isActive e) (createdAt e) now.
Definition withPrice (e : t) (v : float) (now : JS.Date) : t :=
  mk (id e) (name e) (description e) v (stock e) (sku e) (categoryId e)
     (isActive e) (createdAt e) now.
Definition withStock (e : t) (v : JS.number) (now : JS.Date) : t :=
  mk (id e) (name e) (description e) (price e) v (sku e) (categoryId e)
     (isActive e) (createdAt e) now.
Definition withCategoryId (e : t) (v : string) (now : JS.Date) : t :=
  mk (id e) (name e) (description e) (price e) (stock e) (sku e) v
     (isActive e) (createdAt e) now.
Definition withIsActive (e : t) (v : bool) (now : JS.Date) : t :=
  mk (id e) (name e) (description e) (price e) (stock e) (sku e) (categoryId e)
     v (createdAt e) now.
End IProductSchema.

(** [ProductEntity], a row of the [products] table. *)
Module ProductEntity.
Record t : Type := mk {
  id : string;
  name : string;
  description : string;
  price : float;
  stock : JS.number;
  sku : string;
  categoryId : string;
  isActive : bool;
  createdAt : JS.Date;
  updatedAt : JS.Date
}.
End ProductEntity.

(** Modelled from the spec: [ICreateProductDTO], whose declaration
    (domain/contracts/dtos/create-product.dto.ts) is not among the
    sources.  The create input contract
    [{name, description, price, stock, sku, categoryId}], all required;
    the class [CreateProductDto] that implements it has the same
    fields. *)
Module ICreateProductDTO.
Record t : Type := mk {
  name : string;
  description : string;
  price : float;
  stock : JS.number;
  sku : string;
  categoryId : string
}.
End ICreateProductDTO.

(** Modelled from the spec: [IUpdateProductDTO], whose declaration
    (domain/contracts/dtos/update-product.dto.ts) is not among the
    sources.  The update input contract
    [{name?, description?, price?, stock?, categoryId?, isActive?}]:
    every field may be left [undefined]; the class [UpdateProductDto]
    that implements it has the same fields. *)
Module IUpdateProductDTO.
Record t : Type := mk {
  name : option string;
  description : option string;
  price : option float;
  stock : option JS.number;
  categoryId : option string;
  isActive : option bool
}.
End IUpdateProductDTO.

(** [IUpdateProductInput] *)
Module IUpdateProductInput.
Record t : Type := mk {
  id : string;
  data : IUpdateProductDTO.t
}.
End IUpdateProductInput.

(** [IUpdateStockInput] *)
Module IUpdateStockInput.
Inductive Operation : Type := increment | decrement.
Record t : Type := mk {
  productId : string;
  quantity : JS.number;
  operation : Operation
}.
End IUpdateStockInput.

(** [IProductResponseDTO] *)
Module IProductResponseDTO.
Record t : Type := mk {
  id : string;
  name : string;
  description : string;
  price : float;
  formattedPrice : JS.text;
  stock : JS.number;
  sku : string;
  categoryId : string;
  isActive : bool;
  isInStock : bool;
  isLowStock : bool;
  createdAt : JS.text;
  updatedAt : JS.text
}.
End IProductResponseDTO.

(** [IProductFiltersDTO] *)
Module IProductFiltersDTO.
Inductive SortBy : Type := name | price | createdAt | stock.
Inductive SortOrder : Type := ASC | DESC.
Record t : Type := mk {
  search : option string;
  categoryId : option string;
  minPrice : option float;
  maxPrice : option float;
  isActive : option bool;
  inStock : option bool;
  page : option JS.number;
  pageSize : option JS.number;
  sortBy : option SortBy;
  sortOrder : option SortOrder
}.
End IProductFiltersDTO.

(** [IPaginationMetaDTO] *)
Module IPaginationMetaDTO.
Record t : Type := mk {
  page : Z;
  pageSize : Z;
  totalItems : Z;
  totalPages : Z;
  hasNextPage : bool;
  hasPreviousPage : bool
}.
End IPaginationMetaDTO.

(** [IPaginationResultDTO<IProductResponseDTO>] *)
Module IPaginationResultDTO.
Record t : Type := mk {
  data : list IProductResponseDTO.t;
  meta : IPaginationMetaDTO.t
}.
End IPaginationResultDTO.

(* ================================================================== *)
(** ** The runtime: clock, identifiers, database, constructed entities *)
(* ================================================================== *)

Module Runtime.
Import Errors.

(** A call received by the repository port. *)
Inductive RepositoryCall : Type :=
| CallCreate (id : string)
| CallFindById (id : string)
| CallUpdate (id : string)
| CallDelete (id : string)
| CallExistsBySku (sku : string)
| CallUpdateStock (id : string) (quantity : JS.number).

(** What the code can observe and change while it runs.  [clock] and
    [uuids] give the successive answers of [new Date()] and
    [crypto.randomUUID()]; [products] is the products table, keyed by
    its primary key; [constructed] lists the state of every [Product]
    instance built so far, oldest first; [calls] lists the calls made
    to the repository, oldest first. *)
Record World : Type := mkWorld {
  clock : nat -> JS.Date;
  clockReads : nat;
  uuids : nat -> string;
  uuidReads : nat;
  products : gmap string ProductEntity.t;
  constructed : list IProductSchema.t;
  calls : list RepositoryCall
}.

(** A computation that reads and writes the world and may throw. *)
Definition M (A : Type) : Type := World -> World * Outcome A.

Definition ret {A : Type} (a : A) : M A := fun w => (w, Return a).

Definition throw {A : Type} (e : Exn) : M A := fun w => (w, Throw e).

Definition bind {A B : Type} (m : M A) (k : A -> M B) : M B :=
  fun w =>
    match m w with
    | (w', Return a) => k a w'
    | (w', Throw e) => (w', Throw e)
    end.

(** [if (c) throw e;] *)
Definition throwIf (c : bool) (e : Exn) : M unit :=
  if c then throw e else ret tt.

(** [try { m } catch (error) { h error }] *)
Definition tryCatch {A : Type} (m : M A) (h : Exn -> M A) : M A :=
  fun w =>
    match m w with
    | (w', Return a) => (w', Return a)
    | (w', Throw e) => h e w'
    end.

(** A call that may throw, run inside a computation. *)
Definition lift {A : Type} (o : Outcome A) : M A := fun w => (w, o).

(** [new Date()] *)
Definition newDate : M JS.Date :=
  fun w =>
    (mkWorld (clock w) (S (clockReads w)) (uuids w) (uuidReads w)
             (products w) (constructed w) (calls w),
     Return (clock w (clockReads w))).

(** [crypto.randomUUID()] *)
Definition randomUUID : M string :=
  fun w =>
    (mkWorld (clock w) (clockReads w) (uuids w) (S (uuidReads w))
             (products w) (constructed w) (calls w),
     Return (uuids w (uuidReads w))).

(** The table, read and replaced. *)
Definition getProducts : M (gmap string ProductEntity.t) :=
  fun w => (w, Return (products w)).

Definition putProducts (t : gmap string ProductEntity.t) : M unit :=
  fun w =>
    (mkWorld (clock w) (clockReads w) (uuids w) (uuidReads w)
             t (constructed w) (calls w),
     Return tt).

(** A [Product] instance comes into being. *)
Definition recordConstructed (e : IProductSchema.t) : M unit :=
  fun w =>
    (mkWorld (clock w) (clockReads w) (uuids w) (uuidReads w)
             (products w) (constructed w ++ [e]) (calls w),
     Return tt).

(** The repository receives a call. *)
Definition recordCall (c : RepositoryCall) : M unit :=
  fun w =>
    (mkWorld (clock w) (clockReads w) (uuids w) (uuidReads w)
             (products w) (constructed w) (calls w ++ [c]),
     Return tt).

(** [list.map(f)] for an [f] that acts on the world: the elements are
    visited in order. *)
Fixpoint mapM {A B : Type} (f : A -> M B) (l : list A) : M (list B) :=
  match l with
  | [] => ret []
  | x :: r =>
      bind (f x) (fun y => bind (mapM f r) (fun ys => ret (y :: ys)))
  end.

End Runtime.

Declare Scope js_scope.
Delimit Scope js_scope with js.
Notation "x <- m ;; k" := (Runtime.bind m (fun x => k))
  (at level 100, m at next level, right associativity) : js_scope.
Notation "m ;; k" := (Runtime.bind m (fun _ => k))
  (at level 100, right associativity) : js_scope.

(* ================================================================== *)
(** ** [Price], the value object of a monetary amount *)
(* ================================================================== *)

Module IPriceSchemaValueObject.
Record t : Type := mk {
  amount : float;
  currency : string
}.
End IPriceSchemaValueObject.

Module Price.
Import Errors.
Local Open Scope outcome_scope.

Record t : Type := new { _entity : IPriceSchemaValueObject.t }.

Definition SUPPORTED_CURRENCIES : list string :=
  ["USD"; "EUR"; "GBP"; "MXN"; "CAD"; "AUD"].

Definition MAX_DECIMALS : nat := 2.
Definition MIN_AMOUNT : float := 0%float.

Definition amount (p : t) : float := IPriceSchemaValueObject.amount (_entity p).
Definition currency (p : t) : string := IPriceSchemaValueObject.currency (_entity p).

Definition roundToDecimals (value : float) (decimals : nat) : float :=
  let factor := JS.Math_pow 10%float decimals in
  (JS.Math_round (value * factor) / factor)%float.

(** [Price.create(amount, currency = 'USD')]; [None] is an omitted
    second argument. *)
Definition create (amount : float) (currency : option string) : Outcome t :=
  let currency := default "USD" currency in
  let normalizedCurrency := JS.toUpperCase currency in
  Errors.throwIfO (negb (JS.includes SUPPORTED_CURRENCIES normalizedCurrency))
    (Error [JS.Lit ("Invalid currency: " ++ currency ++ ". Supported currencies: "
                    ++ JS.join ", " SUPPORTED_CURRENCIES)]) ;;
  Errors.throwIfO (PrimFloat.ltb amount MIN_AMOUNT)
    (Error [JS.Lit "Price amount cannot be negative. Received: "; JS.Num amount]) ;;
  Errors.throwIfO (negb (JS.Number_isFinite amount))
    (Error [JS.Lit "Price amount must be a valid number. Received: "; JS.Num amount]) ;;
  let roundedAmount := roundToDecimals amount MAX_DECIMALS in
  Return (new (IPriceSchemaValueObject.mk roundedAmount normalizedCurrency)).

Definition createFromPersistence (schema : IPriceSchemaValueObject.t) : t := new schema.

Definition zero (currency : option string) : Outcome t := create 0%float currency.

Definition equals (this other : t) : bool :=
  PrimFloat.eqb (amount this) (amount other) && String.eqb (currency this) (currency other).

Definition validateSameCurrency (this other : t) : Outcome unit :=
  Errors.throwIfO (negb (String.eqb (currency this) (currency other)))
    (Error (JS.lit ("Cannot compare prices with different currencies: "
                    ++ currency this ++ " vs " ++ currency other))).

Definition isGreaterThan (this other : t) : Outcome bool :=
  validateSameCurrency this other ;; Return (PrimFloat.ltb (amount other) (amount this)).

Definition isGreaterThanOrEqual (this other : t) : Outcome bool :=
  validateSameCurrency this other ;; Return (PrimFloat.leb (amount other) (amount this)).

Definition isLessThan (this other : t) : Outcome bool :=
  validateSameCurrency this other ;; Return (PrimFloat.ltb (amount this) (amount other)).

Definition isLessThanOrEqual (this other : t) : Outcome bool :=
  validateSameCurrency this other ;; Return (PrimFloat.leb (amount this) (amount other)).

Definition isZero (this : t) : bool := PrimFloat.eqb (amount this) 0%float.
Definition isPositive (this : t) : bool := PrimFloat.ltb 0%float (amount this).

Definition add (this other : t) : Outcome t :=
  validateSameCurrency this other ;;
  create (amount this + amount other)%float (Some (currency this)).

Definition subtract (this other : t) : Outcome t :=
  validateSameCurrency this other ;;
  let newAmount := (amount this - amount other)%float in
  Errors.throwIfO (PrimFloat.ltb newAmount 0%float)
    (Error (JS.lit "Subtraction would result in negative price")) ;;
  create newAmount (Some (currency this)).

Definition multiply (this : t) (factor : float) : Outcome t :=
  Errors.throwIfO (PrimFloat.ltb factor 0%float)
    (Error (JS.lit "Multiplication factor cannot be negative")) ;;
  Errors.throwIfO (negb (JS.Number_isFinite factor))
    (Error (JS.lit "Multiplication factor must be a valid number")) ;;
  create (amount this * factor)%float (Some (currency this)).

Definition divide (this : t) (divisor : float) : Outcome t :=
  Errors.throwIfO (PrimFloat.leb divisor 0%float)
    (Error (JS.lit "Divisor must be greater than zero")) ;;
  Errors.throwIfO (negb (JS.Number_isFinite divisor))
    (Error (JS.lit "Divisor must be a valid number")) ;;
  create (amount this / divisor)%float (Some (currency this)).

Definition applyDiscount (this : t) (percentage : float) : Outcome t :=
  Errors.throwIfO (PrimFloat.ltb percentage 0%float || PrimFloat.ltb 100%float percentage)
    (Error (JS.lit "Discount percentage must be between 0 and 100")) ;;
  let discountFactor := (1 - percentage / 100)%float in
  multiply this discountFactor.

Definition applyTax (this : t) (percentage : float) : Outcome t :=
  Errors.throwIfO (PrimFloat.ltb percentage 0%float)
    (Error (JS.lit "Tax percentage cannot be negative")) ;;
  let taxFactor := (1 + percentage / 100)%float in
  multiply this taxFactor.

Definition toJSON (this : t) : IPriceSchemaValueObject.t := _entity this.

End Price.

(* ================================================================== *)
(** ** [ProductCode], the value object of a product code *)
(* ================================================================== *)

Module IProductCodeSchemaValueObject.
Record t : Type := mk { code : string }.
End IProductCodeSchemaValueObject.

Module ProductCode.
Import Errors.
Local Open Scope outcome_scope.

Record t : Type := new { _entity : IProductCodeSchemaValueObject.t }.

Definition alnum : JS.regex := JS.Class JS.isUpperAlnum.

(** [/^[A-Z0-9]{3,4}-[A-Z0-9]{3,6}$/] *)
Definition CODE_PATTERN : JS.regex :=
  JS.Cat (JS.range 3 4 alnum) (JS.Cat (JS.Chr "-") (JS.range 3 6 alnum)).

(** [/^[A-Z0-9]{3,4}$/] *)
Definition PREFIX_PATTERN : JS.regex := JS.range 3 4 alnum.

(** [/^[A-Z0-9]{3,6}$/] *)
Definition SUFFIX_PATTERN : JS.regex := JS.range 3 6 alnum.

Definition MIN_LENGTH : nat := 7.
Definition MAX_LENGTH : nat := 11.

Definition showNat (n : nat) : string := JS.toString (JS.Int (Z.of_nat n)).

Definition value (this : t) : string := IProductCodeSchemaValueObject.code (_entity this).

Definition create (code : string) : Outcome t :=
  let normalizedCode := JS.toUpperCase (JS.trim code) in
  Errors.throwIfO (JS.length normalizedCode <? MIN_LENGTH)%nat
    (Error (JS.lit ("Product code is too short. Minimum length: " ++ showNat MIN_LENGTH))) ;;
  Errors.throwIfO (MAX_LENGTH <? JS.length normalizedCode)%nat
    (Error (JS.lit ("Product code is too long. Maximum length: " ++ showNat MAX_LENGTH))) ;;
  Errors.throwIfO (negb (JS.test CODE_PATTERN normalizedCode))
    (Error (JS.lit ("Invalid product code format. Expected format: XXX-XXXX or XXXX-XXXXXX (alphanumeric). Received: "
                    ++ code))) ;;
  Return (new (IProductCodeSchemaValueObject.mk normalizedCode)).

Definition createFromParts (prefix suffix : string) : Outcome t :=
  let normalizedPrefix := JS.toUpperCase (JS.trim prefix) in
  let normalizedSuffix := JS.toUpperCase (JS.trim suffix) in
  Errors.throwIfO (negb (JS.test PREFIX_PATTERN normalizedPrefix))
    (Error (JS.lit ("Invalid prefix format. Expected 3-4 alphanumeric characters. Received: "
                    ++ prefix))) ;;
  Errors.throwIfO (negb (JS.test SUFFIX_PATTERN normalizedSuffix))
    (Error (JS.lit ("Invalid suffix format. Expected 3-6 alphanumeric characters. Received: "
                    ++ suffix))) ;;
  let fullCode := normalizedPrefix ++ "-" ++ normalizedSuffix in
  Return (new (IProductCodeSchemaValueObject.mk fullCode)).

Definition generatePrefix (category : string) : string :=
  let sanitized := JS.removeAll (fun c => negb (JS.isUpperAlnum c)) category in
  if (JS.length sanitized =? 0)%nat then "PROD"
  else if (4 <=? JS.length sanitized)%nat then JS.substring 0 4 sanitized
  else JS.padEnd 4 "X" sanitized.

Definition generate (category : string) (sequence : JS.number) : Outcome t :=
  Errors.throwIfO (JS.isBlank category) (Error (JS.lit "Category cannot be empty")) ;;
  Errors.throwIfO (JS.lt sequence (JS.Int 0))
    (Error (JS.lit "Sequence number cannot be negative")) ;;
  Errors.throwIfO (JS.gt sequence (JS.Int 999999))
    (Error (JS.lit "Sequence number cannot exceed 999999")) ;;
  let normalizedCategory := JS.toUpperCase (JS.trim category) in
  let prefix := generatePrefix normalizedCategory in
  let suffix := JS.padStart 6 "0" (JS.toString sequence) in
  createFromParts prefix suffix.

Definition createFromPersistence (schema : IProductCodeSchemaValueObject.t) : t := new schema.

(** [code.split('-')[0]] *)
Definition getPrefix (this : t) : string :=
  List.hd EmptyString (JS.split "-" (value this)).

(** [code.split('-')[1]], [None] when it is [undefined]. *)
Definition getSuffix (this : t) : option string :=
  List.nth_error (JS.split "-" (value this)) 1.

Definition getCategory (this : t) : string := getPrefix this.

(** [parseInt(suffix, 10)]; an [undefined] suffix parses to [NaN]. *)
Definition getSequence (this : t) : JS.number :=
  match getSuffix this with
  | Some suffix => JS.parseInt suffix
  | None => JS.NaN
  end.

Definition equals (this other : t) : bool := String.eqb (value this) (value other).

Definition startsWith (this : t) (prefix : string) : bool :=
  let normalizedPrefix := JS.toUpperCase (JS.trim prefix) in
  JS.startsWith normalizedPrefix (value this).

Definition belongsToCategory (this : t) (category : string) : bool :=
  let normalizedCategory := JS.toUpperCase (JS.trim category) in
  let categoryPrefix := generatePrefix normalizedCategory in
  String.eqb (getPrefix this) categoryPrefix.

Definition isSequential (this other : t) : bool :=
  if negb (String.eqb (getPrefix this) (getPrefix other)) then false
  else
    let thisSequence := getSequence this in
    let otherSequence := getSequence other in
    JS.strictEq (JS.abs (JS.sub thisSequence otherSequence)) (JS.Int 1).

Definition next (this : t) : Outcome t :=
  let currentSequence := getSequence this in
  generate (getPrefix this) (JS.add currentSequence (JS.Int 1)).

Definition previous (this : t) : Outcome t :=
  let currentSequence := getSequence this in
  Errors.throwIfO (JS.strictEq currentSequence (JS.Int 0))
    (Error (JS.lit "Cannot get previous code for sequence 0")) ;;
  generate (getPrefix this) (JS.sub currentSequence (JS.Int 1)).

Definition toString (this : t) : string := value this.

Definition toJSON (this : t) : IProductCodeSchemaValueObject.t := _entity this.

End ProductCode.

(* ================================================================== *)
(** ** [Product], the entity *)
(* ================================================================== *)

Module Product.
Import Errors Runtime.
Local Open Scope js_scope.

Record t : Type := mk { _entity : IProductSchema.t }.

(** [new Product(schema)], the private constructor. *)
Definition new (schema : IProductSchema.t) : M t :=
  recordConstructed schema ;; ret (mk schema).

Definition create (id name description : string) (price : float) (stock : JS.number)
    (sku categoryId : string) : M t :=
  throwIf (JS.isBlank name) (Error (JS.lit "Product name cannot be empty")) ;;
  throwIf (PrimFloat.ltb price 0%float) (Error (JS.lit "Product price cannot be negative")) ;;
  throwIf (JS.lt stock (JS.Int 0)) (Error (JS.lit "Product stock cannot be negative")) ;;
  throwIf (JS.isBlank sku) (Error (JS.lit "Product SKU cannot be empty")) ;;
  now <- newDate ;;
  new (IProductSchema.mk id (JS.trim name) (JS.trim description) price stock
         (JS.toUpperCase (JS.trim sku)) categoryId true now now).

Definition createFromPersistence (schema : IProductSchema.t) : M t := new schema.

Definition id (this : t) : string := IProductSchema.id (_entity this).
Definition name (this : t) : string := IProductSchema.name (_entity this).
Definition description (this : t) : string := IProductSchema.description (_entity this).
Definition price (this : t) : float := IProductSchema.price (_entity this).
Definition stock (this : t) : JS.number := IProductSchema.stock (_entity this).
Definition sku (this : t) : string := IProductSchema.sku (_entity this).
Definition categoryId (this : t) : string := IProductSchema.categoryId (_entity this).
Definition isActive (this : t) : bool := IProductSchema.isActive (_entity this).
Definition createdAt (this : t) : JS.Date := IProductSchema.createdAt (_entity this).
Definition updatedAt (this : t) : JS.Date := IProductSchema.updatedAt (_entity this).

Definition updateName (this : t) (newName : string) : M t :=
  throwIf (JS.isBlank newName) (Error (JS.lit "Product name cannot be empty")) ;;
  now <- newDate ;;
  new (IProductSchema.withName (_entity this) (JS.trim newName) now).

Definition updateDescription (this : t) (newDescription : string) : M t :=
  now <- newDate ;;
  new (IProductSchema.withDescription (_entity this) (JS.trim newDescription) now).

Definition updatePrice (this : t) (newPrice : float) : M t :=
  throwIf (PrimFloat.ltb newPrice 0%float) (Error (JS.lit "Product price cannot be negative")) ;;
  now <- newDate ;;
  new (IProductSchema.withPrice (_entity this) newPrice now).

Definition updateStock (this : t) (newStock : JS.number) : M t :=
  throwIf (JS.lt newStock (JS.Int 0)) (Error (JS.lit "Product stock cannot be negative")) ;;
  now <- newDate ;;
  new (IProductSchema.withStock (_entity this) newStock now).

Definition incrementStock (this : t) (amount : JS.number) : M t :=
  throwIf (JS.le amount (JS.Int 0)) (Error (JS.lit "Stock increment amount must be positive")) ;;
  updateStock this (JS.add (stock this) amount).

Definition decrementStock (this : t) (amount : JS.number) : M t :=
  throwIf (JS.le amount (JS.Int 0)) (Error (JS.lit "Stock decrement amount must be positive")) ;;
  let newStock := JS.sub (stock this) amount in
  throwIf (JS.lt newStock (JS.Int 0)) (Error (JS.lit "Insufficient stock")) ;;
  updateStock this newStock.

Definition updateCategory (this : t) (newCategoryId : string) : M t :=
  throwIf (JS.isBlank newCategoryId) (Error (JS.lit "Category ID cannot be empty")) ;;
  now <- newDate ;;
  new (IProductSchema.withCategoryId (_entity this) (JS.trim newCategoryId) now).

Definition activate (this : t) : M t :=
  if isActive this then ret this
  else
    now <- newDate ;;
    new (IProductSchema.withIsActive (_entity this) true now).

Definition deactivate (this : t) : M t :=
  if negb (isActive this) then ret this
  else
    now <- newDate ;;
    new (IProductSchema.withIsActive (_entity this) false now).

Definition getFormattedPrice (this : t) : JS.text :=
  [JS.Lit "$"; JS.Fixed (price this) 2].

(** [isExpensive(threshold = 1000)] *)
Definition isExpensive (this : t) (threshold : option float) : bool :=
  PrimFloat.ltb (default 1000%float threshold) (price this).

Definition isInStock (this : t) : bool := JS.gt (stock this) (JS.Int 0).

(** [isLowStock(threshold = 10)] *)
Definition isLowStock (this : t) (threshold : option JS.number) : bool :=
  JS.gt (stock this) (JS.Int 0) && JS.le (stock this) (default (JS.Int 10) threshold).

Definition isOutOfStock (this : t) : bool := JS.strictEq (stock this) (JS.Int 0).

Definition canBePurchased (this : t) (quantity : JS.number) : bool :=
  isActive this && JS.ge (stock this) quantity.

Definition toJSON (this : t) : IProductSchema.t := _entity this.

End Product.

(* ================================================================== *)
(** ** [ProductRepository], the adapter behind the repository port *)
(* ================================================================== *)

(** The methods the use cases call.  The table keeps the values it is
    given and answers for every key.  The database engine does so for
    the values that its columns hold as they are ([Range.fitsColumns]:
    [varchar] widths, [decimal(10,2)], [int]) and for a key that is the
    text of a [uuid] ([Range.isUUID]); for other values it rounds or
    refuses the query, which is outside this description, except for
    the unique index on [sku].  A property of the table is stated for
    values and keys within that range. *)

Module ProductRepository.
Import Errors Runtime.
Local Open Scope js_scope.

Definition rows (table : gmap string ProductEntity.t) : list ProductEntity.t :=
  snd <$> map_to_list table.

(** [count({ where: { sku } })] *)
Definition countBySku (sku : string) (table : gmap string ProductEntity.t) : nat :=
  List.length (List.filter (fun e => String.eqb (ProductEntity.sku e) sku) (rows table)).

(** Does a row other than [id] carry [sku]? *)
Definition skuTakenByOther (id sku : string) (table : gmap string ProductEntity.t) : bool :=
  List.existsb
    (fun e => String.eqb (ProductEntity.sku e) sku && negb (String.eqb (ProductEntity.id e) id))
    (rows table).

Definition toDomain (entity : ProductEntity.t) : M Product.t :=
  Product.createFromPersistence
    (IProductSchema.mk (ProductEntity.id entity) (ProductEntity.name entity)
       (ProductEntity.description entity) (ProductEntity.price entity)
       (ProductEntity.stock entity) (ProductEntity.sku entity)
       (ProductEntity.categoryId entity) (ProductEntity.isActive entity)
       (ProductEntity.createdAt entity) (ProductEntity.updatedAt entity)).

(** [create(product)]: [save] inserts the row, or updates the row that
    has the same primary key; the database stamps the dates. *)
Definition create (product : Product.t) : M Product.t :=
  recordCall (CallCreate (Product.id product)) ;;
  table <- getProducts ;;
  throwIf (skuTakenByOther (Product.id product) (Product.sku product) table)
    (Error (JS.lit "duplicate key value violates unique constraint")) ;;
  now <- newDate ;;
  let createdAt :=
    match table !! Product.id product with
    | Some old => ProductEntity.createdAt old
    | None => now
    end in
  let saved :=
    ProductEntity.mk (Product.id product) (Product.name product)
      (Product.description product) (Product.price product) (Product.stock product)
      (Product.sku product) (Product.categoryId product) (Product.isActive product)
      createdAt now in
  putProducts (<[Product.id product := saved]> table) ;;
  toDomain saved.

Definition findById (id : string) : M (option Product.t) :=
  recordCall (CallFindById id) ;;
  table <- getProducts ;;
  match table !! id with
  | Some entity => p <- toDomain entity ;; ret (Some p)
  | None => ret None
  end.

Definition update (id : string) (product : Product.t) : M Product.t :=
  recordCall (CallUpdate id) ;;
  now <- newDate ;;
  table <- getProducts ;;
  match table !! id with
  | Some e =>
      putProducts
        (<[id := ProductEntity.mk (ProductEntity.id e) (Product.name product)
                   (Product.description product) (Product.price product)
                   (Product.stock product) (ProductEntity.sku e)
                   (Product.categoryId product) (Product.isActive product)
                   (ProductEntity.createdAt e) now]> table)
  | None => ret tt
  end ;;
  table' <- getProducts ;;
  match table' !! id with
  | Some updated => toDomain updated
  | None => throw (Error (JS.lit ("Product with id " ++ id ++ " not found after update")))
  end.

Definition delete (id : string) : M unit :=
  recordCall (CallDelete id) ;;
  table <- getProducts ;;
  putProducts (base.delete id table).

Definition existsBySku (sku : string) : M bool :=
  recordCall (CallExistsBySku sku) ;;
  table <- getProducts ;;
  let count := countBySku (JS.toUpperCase sku) table in
  ret (0 <? count)%nat.

Definition updateStock (productId : string) (newStock : JS.number) : M Product.t :=
  recordCall (CallUpdateStock productId newStock) ;;
  now <- newDate ;;
  table <- getProducts ;;
  match table !! productId with
  | Some e =>
      putProducts
        (<[productId := ProductEntity.mk (ProductEntity.id e) (ProductEntity.name e)
                   (ProductEntity.description e) (ProductEntity.price e)
                   newStock (ProductEntity.sku e)
                   (ProductEntity.categoryId e) (ProductEntity.isActive e)
                   (ProductEntity.createdAt e) now]> table)
  | None => ret tt
  end ;;
  table' <- getProducts ;;
  match table' !! productId with
  | Some updated => toDomain updated
  | None =>
      throw (Error (JS.lit ("Product with id " ++ productId ++ " not found after stock update")))
  end.

(** *** The other methods of the adapter

    No use case calls them; they are not entered in [calls]. *)





(** The rows selected by [where: { categoryId }]. *)
Definition inCategory (categoryId : string) (table : gmap string ProductEntity.t)
    : list ProductEntity.t :=
  List.filter (fun e => String.eqb (ProductEntity.categoryId e) categoryId) (rows table).

Definition findByCategory (categoryId : string) : M (list Product.t) :=
  table <- getProducts ;;
  mapM toDomain (inCategory categoryId table).

Definition countByCategory (categoryId : string) : M nat :=
  table <- getProducts ;;
  ret (List.length (inCategory categoryId table)).

Definition countActiveProducts : M nat :=
  table <- getProducts ;;
  ret (List.length (List.filter ProductEntity.isActive (rows table))).




(** [repository.update(id, partial)]: the row [id], when there is one,
    is replaced by [change] of it. *)
Definition updateRow (id : string) (change : ProductEntity.t -> ProductEntity.t) : M unit :=
  table <- getProducts ;;
  match table !! id with
  | Some e => putProducts (<[id := change e]> table)
  | None => ret tt
  end.

(** [findOne({ where: { id } })] after a change, or the [Error] that
    names the change. *)
Definition reload (productId after : string) : M Product.t :=
  table <- getProducts ;;
  match table !! productId with
  | Some updated => toDomain updated
  | None =>
      throw (Error (JS.lit ("Product with id " ++ productId ++ " not found after " ++ after)))
  end.

Definition withStock (v : JS.number) (e : ProductEntity.t) : ProductEntity.t :=
  ProductEntity.mk (ProductEntity.id e) (ProductEntity.name e) (ProductEntity.description e)
    (ProductEntity.price e) v (ProductEntity.sku e) (ProductEntity.categoryId e)
    (ProductEntity.isActive e) (ProductEntity.createdAt e) (ProductEntity.updatedAt e).

Definition withIsActive (v : bool) (e : ProductEntity.t) : ProductEntity.t :=
  ProductEntity.mk (ProductEntity.id e) (ProductEntity.name e) (ProductEntity.description e)
    (ProductEntity.price e) (ProductEntity.stock e) (ProductEntity.sku e)
    (ProductEntity.categoryId e) v (ProductEntity.createdAt e) (ProductEntity.updatedAt e).

Definition withUpdatedAt (v : JS.Date) (e : ProductEntity.t) : ProductEntity.t :=
  ProductEntity.mk (ProductEntity.id e) (ProductEntity.name e) (ProductEntity.description e)
    (ProductEntity.price e) (ProductEntity.stock e) (ProductEntity.sku e)
    (ProductEntity.categoryId e) (ProductEntity.isActive e) (ProductEntity.createdAt e) v.

(** [repository.increment] and [repository.decrement] refuse a value
    that is not a number before any statement is issued. *)
Definition notANumber (amount : JS.number) : Exn :=
  Error (JS.lit ("Value " ++ JS.dquote ++ JS.toString amount ++ JS.dquote
                 ++ " is not a number."))%string.

Definition isNaN (amount : JS.number) : bool :=
  match amount with JS.NaN => true | JS.Int _ => false end.

(** [incrementStock(productId, amount)]: the stock is raised in the
    table, then [updatedAt] is set; nothing is checked. *)
Definition incrementStock (productId : string) (amount : JS.number) : M Product.t :=
  throwIf (isNaN amount) (notANumber amount) ;;
  updateRow productId (fun e => withStock (JS.add (ProductEntity.stock e) amount) e) ;;
  now <- newDate ;;
  updateRow productId (withUpdatedAt now) ;;
  reload productId "increment".

(** [decrementStock(productId, amount)]: likewise, the stock lowered. *)
Definition decrementStock (productId : string) (amount : JS.number) : M Product.t :=
  throwIf (isNaN amount) (notANumber amount) ;;
  updateRow productId (fun e => withStock (JS.sub (ProductEntity.stock e) amount) e) ;;
  now <- newDate ;;
  updateRow productId (withUpdatedAt now) ;;
  reload productId "decrement".

Definition activateProduct (productId : string) : M Product.t :=
  now <- newDate ;;
  updateRow productId (fun e => withUpdatedAt now (withIsActive true e)) ;;
  reload productId "activation".

Definition deactivateProduct (productId : string) : M Product.t :=
  now <- newDate ;;
  updateRow productId (fun e => withUpdatedAt now (withIsActive false e)) ;;
  reload productId "deactivation".

End ProductRepository.

(* ================================================================== *)
(** ** The use cases *)
(* ================================================================== *)

(** [mapToDTO], the private method that every use case repeats. *)
Definition mapToDTO (product : Product.t) : IProductResponseDTO.t :=
  IProductResponseDTO.mk
    (Product.id product)
    (Product.name product)
    (Product.description product)
    (Product.price product)
    (Product.getFormattedPrice product)
    (Product.stock product)
    (Product.sku product)
    (Product.categoryId product)
    (Product.isActive product)
    (Product.isInStock product)
    (Product.isLowStock product None)
    [JS.Iso (Product.createdAt product)]
    [JS.Iso (Product.updatedAt product)].

Module GetProductByIdUseCase.
Import Errors Runtime.
Local Open Scope js_scope.

Definition execute (id : string) : M IProductResponseDTO.t :=
  product <- ProductRepository.findById id ;;
  match product with
  | None => throw (ProductNotFoundError id "id")
  | Some product => ret (mapToDTO product)
  end.

End GetProductByIdUseCase.

(** The [CreateProductUseCase] that works on the primitives of
    [ICreateProductDTO], the one that fits the [Product] entity. *)
Module CreateProductUseCase.
Import Errors Runtime.
Local Open Scope js_scope.

Definition execute (input : ICreateProductDTO.t) : M IProductResponseDTO.t :=
  skuExists <- ProductRepository.existsBySku (ICreateProductDTO.sku input) ;;
  throwIf skuExists (DuplicateProductCodeError (ICreateProductDTO.sku input) "sku") ;;
  uuid <- randomUUID ;;
  product <- Product.create uuid
               (ICreateProductDTO.name input)
               (ICreateProductDTO.description input)
               (ICreateProductDTO.price input)
               (ICreateProductDTO.stock input)
               (ICreateProductDTO.sku input)
               (ICreateProductDTO.categoryId input) ;;
  savedProduct <- ProductRepository.create product ;;
  ret (mapToDTO savedProduct).

End CreateProductUseCase.

Module UpdateProductUseCase.
Import Errors Runtime.
Local Open Scope js_scope.

(** [if (v !== undefined) { p = f(p, v) }] *)
Definition ifDefined {A : Type} (v : option A) (f : Product.t -> A -> M Product.t)
    (p : Product.t) : M Product.t :=
  match v with
  | Some x => f p x
  | None => ret p
  end.

Definition execute (input : IUpdateProductInput.t) : M IProductResponseDTO.t :=
  let data := IUpdateProductInput.data input in
  existingProduct <- ProductRepository.findById (IUpdateProductInput.id input) ;;
  match existingProduct with
  | None => throw (ProductNotFoundError (IUpdateProductInput.id input) "id")
  | Some existingProduct =>
      let updatedProduct := existingProduct in
      updatedProduct <- ifDefined (IUpdateProductDTO.name data) Product.updateName updatedProduct ;;
      updatedProduct <- ifDefined (IUpdateProductDTO.description data)
                          Product.updateDescription updatedProduct ;;
      updatedProduct <- ifDefined (IUpdateProductDTO.price data) Product.updatePrice updatedProduct ;;
      updatedProduct <- ifDefined (IUpdateProductDTO.stock data) Product.updateStock updatedProduct ;;
      updatedProduct <- ifDefined (IUpdateProductDTO.categoryId data)
                          Product.updateCategory updatedProduct ;;
      savedProduct <- ProductRepository.update (IUpdateProductInput.id input) updatedProduct ;;
      ret (mapToDTO savedProduct)
  end.

End UpdateProductUseCase.

Module DeleteProductUseCase.
Import Errors Runtime.
Local Open Scope js_scope.

Definition execute (id : string) : M unit :=
  product <- ProductRepository.findById id ;;
  match product with
  | None => throw (ProductNotFoundError id "id")
  | Some _ => ProductRepository.delete id
  end.

End DeleteProductUseCase.

Module UpdateStockUseCase.
Import Errors Runtime.
Local Open Scope js_scope.

Definition execute (input : IUpdateStockInput.t) : M IProductResponseDTO.t :=
  product <- ProductRepository.findById (IUpdateStockInput.productId input) ;;
  match product with
  | None => throw (ProductNotFoundError (IUpdateStockInput.productId input) "id")
  | Some product =>
      throwIf (JS.le (IUpdateStockInput.quantity input) (JS.Int 0))
        (forNegativeValue "quantity" (IUpdateStockInput.quantity input)) ;;
      updatedProduct <-
        tryCatch
          (match IUpdateStockInput.operation input with
           | IUpdateStockInput.increment =>
               Product.incrementStock product (IUpdateStockInput.quantity input)
           | IUpdateStockInput.decrement =>
               Product.decrementStock product (IUpdateStockInput.quantity input)
           end)
          (fun error =>
             if isInsufficientStockError error then throw error
             else throw error) ;;
      savedProduct <- ProductRepository.updateStock
                        (IUpdateStockInput.productId input) (Product.stock updatedProduct) ;;
      ret (mapToDTO savedProduct)
  end.

End UpdateStockUseCase.

(* ================================================================== *)
(** ** [ProductController], the HTTP adapter *)
(* ================================================================== *)

(** [UpdateStockDto], the body of [PATCH :id/stock]. *)
Module UpdateStockDto.
Record t : Type := mk {
  quantity : JS.number;
  operation : IUpdateStockInput.Operation
}.
End UpdateStockDto.

(** The handlers, wired to the use cases as [ProductModule] binds
    them.  The request bodies have the fields of the contracts
    ([CreateProductDto] those of [ICreateProductDTO], [UpdateProductDto]
    those of [IUpdateProductDTO]); their validation by the pipe happens
    before a handler runs and is not part of it. *)
Module ProductController.
Import Errors Runtime.

(** The members of [HttpStatus] that the controller names. *)
Inductive HttpStatus : Type :=
| OK | CREATED | NO_CONTENT | BAD_REQUEST | NOT_FOUND | CONFLICT.

(** What a handler throws: an [HttpException] of its own, or the error
    it caught, thrown again. *)
Inductive Thrown : Type :=
| HttpException (response : JS.text) (status : HttpStatus)
| Rethrown (error : Exn).

Inductive Answer (A : Type) : Type :=
| Sent (a : A)
| Failed (t : Thrown).

Arguments Sent {A} a.
Arguments Failed {A} t.

Definition Handler (A : Type) : Type := World -> World * Answer A.

(** [try { return await m; } catch (error) { throw h(error); }] *)
Definition handle {A : Type} (m : M A) (h : Exn -> Thrown) : Handler A :=
  fun w =>
    match m w with
    | (w', Return a) => (w', Sent a)
    | (w', Throw error) => (w', Failed (h error))
    end.

Definition create (createProductDto : ICreateProductDTO.t)
    : Handler IProductResponseDTO.t :=
  let domainDto :=
    ICreateProductDTO.mk
      (ICreateProductDTO.name createProductDto)
      (ICreateProductDTO.description createProductDto)
      (ICreateProductDTO.price createProductDto)
      (ICreateProductDTO.stock createProductDto)
      (ICreateProductDTO.sku createProductDto)
      (ICreateProductDTO.categoryId createProductDto) in
  handle (CreateProductUseCase.execute domainDto)
    (fun error =>
       if isDuplicateProductCodeError error then HttpException (message error) CONFLICT
       else if isInvalidProductDataError error
       then HttpException (message error) BAD_REQUEST
       else Rethrown error).

Definition findOne (id : string) : Handler IProductResponseDTO.t :=
  handle (GetProductByIdUseCase.execute id)
    (fun error =>
       if isProductNotFoundError error then HttpException (message error) NOT_FOUND
       else Rethrown error).

Definition update (id : string) (updateProductDto : IUpdateProductDTO.t)
    : Handler IProductResponseDTO.t :=
  let domainDto :=
    IUpdateProductDTO.mk
      (IUpdateProductDTO.name updateProductDto)
      (IUpdateProductDTO.description updateProductDto)
      (IUpdateProductDTO.price updateProductDto)
      (IUpdateProductDTO.stock updateProductDto)
      (IUpdateProductDTO.categoryId updateProductDto)
      (IUpdateProductDTO.isActive updateProductDto) in
  handle (UpdateProductUseCase.execute (IUpdateProductInput.mk id domainDto))
    (fun error =>
       if isProductNotFoundError error then HttpException (message error) NOT_FOUND
       else if isInvalidProductDataError error
       then HttpException (message error) BAD_REQUEST
       else Rethrown error).

Definition remove (id : string) : Handler unit :=
  handle (DeleteProductUseCase.execute id)
    (fun error =>
       if isProductNotFoundError error then HttpException (message error) NOT_FOUND
       else Rethrown error).

Definition updateStock (id : string) (updateStockDto : UpdateStockDto.t)
    : Handler IProductResponseDTO.t :=
  handle
    (UpdateStockUseCase.execute
       (IUpdateStockInput.mk id (UpdateStockDto.quantity updateStockDto)
          (UpdateStockDto.operation updateStockDto)))
    (fun error =>
       if isProductNotFoundError error then HttpException (message error) NOT_FOUND
       else if isInvalidProductDataError error || isInsufficientStockError error
               || isProductNotAvailableError error
       then HttpException (message error) BAD_REQUEST
       else Rethrown error).

End ProductController.

(* ================================================================== *)
(** ** [NestConfigEnvironmentService] *)
(* ================================================================== *)

Module NestConfigEnvironmentService.

(** [ConfigService]: the configuration, a string per key that is
    set; [get] answers [undefined] for the other keys. *)
Definition ConfigService : Type := gmap string string.

Definition getNodeEnv (configService : ConfigService) : string :=
  JS.orString (configService !! "NODE_ENV") "development".

Definition getPort (configService : ConfigService) : JS.number :=
  match configService !! "PORT" with
  | Some port => if JS.truthy port then JS.parseInt port else JS.Int 3000
  | None => JS.Int 3000
  end.

Definition isDevelopment (configService : ConfigService) : bool :=
  String.eqb (getNodeEnv configService) "development".

Definition isProduction (configService : ConfigService) : bool :=
  String.eqb (getNodeEnv configService) "production".

Definition isTest (configService : ConfigService) : bool :=
  String.eqb (getNodeEnv configService) "test".

End NestConfigEnvironmentService.

(* ================================================================== *)
(** ** Notions used to state the properties *)
(* ================================================================== *)

Definition notWhite (c : ascii) : bool := negb (JS.isWhiteSpace c).

(** The characters of a product code: [[A-Z0-9]] and the dash. *)
Definition isCodeChar (c : ascii) : bool := JS.isUpperAlnum c || Ascii.eqb c "-".

(** [n] copies of the character [c]. *)
Fixpoint copies (n : nat) (c : ascii) : string :=
  match n with
  | O => EmptyString
  | S n' => String c (copies n' c)
  end.

(** The first [n] characters of [s]. *)
Fixpoint firstChars (n : nat) (s : string) : string :=
  match n, s with
  | S n', String c r => String c (firstChars n' r)
  | _, _ => EmptyString
  end.

(** The last character of [String c s]. *)
Fixpoint lastChar (c : ascii) (s : string) : ascii :=
  match s with
  | EmptyString => c
  | String d r => lastChar d r
  end.

(** A text that starts and ends with a character that is not white
    space. *)
Definition isCore (s : string) : bool :=
  match s with
  | EmptyString => false
  | String c r => notWhite c && notWhite (lastChar c r)
  end.

(** The characters of [s] that are in the class, in their order. *)
Fixpoint keep (cls : ascii -> bool) (s : string) : string :=
  match s with
  | EmptyString => EmptyString
  | String c r => if cls c then String c (keep cls r) else keep cls r
  end.

Module Spec.

(** The prefix of a generated code, in the words of the specification:
    the category sanitized to alphanumerics, then truncated to 4
    characters or right-padded with [X] to length 4; the literal [PROD]
    when nothing is left of the category. *)
Definition sanitized (category : string) : string :=
  keep JS.isUpperAlnum (JS.toUpperCase (JS.trim category)).

Definition prefixOf (category : string) : string :=
  match sanitized category with
  | EmptyString => "PROD"
  | s => firstChars 4 (s ++ copies 4 "X")
  end.

(** A sequence number zero-padded to 6 digits: six decimal digits
    whose value is the number. *)
Definition isPadded6 (z : Z) (suffix : string) : Prop :=
  JS.length suffix = 6%nat /\ JS.all JS.isDigit suffix = true /\
  JS.parseInt suffix = JS.Int z.



(** The entity invariant on the stock: it is not negative. *)
Definition stockValid (stock : JS.number) : Prop := JS.lt stock (JS.Int 0) = false.

(** A code of the form [{3-4 alphanumeric}-{3-6 alphanumeric}]. *)
Definition wellFormed (code : string) : Prop :=
  exists p q : string,
    code = (p ++ "-" ++ q)%string /\
    (3 <= JS.length p <= 4)%nat /\ JS.all JS.isUpperAlnum p = true /\
    (3 <= JS.length q <= 6)%nat /\ JS.all JS.isUpperAlnum q = true.

End Spec.

(** *** The values on which the description computes what the code
    computes *)

Module Range.

Definition isASCIIChar (c : ascii) : bool := (JS.code c <? 128)%nat.

(** ASCII text. *)
Definition isASCII (s : string) : bool := JS.all isASCIIChar s.

(** [Number.MAX_SAFE_INTEGER], 2^53 - 1. *)
Definition MAX_SAFE_INTEGER : Z := 9007199254740991.

(** [Number.isSafeInteger(a)] *)
Definition isSafeInteger (a : JS.number) : bool :=
  match a with
  | JS.Int z => (- MAX_SAFE_INTEGER <=? z) && (z <=? MAX_SAFE_INTEGER)
  | JS.NaN => false
  end.

Definition isHexDigit (c : ascii) : bool := JS.isDigit c || JS.between 97 102 c.

Fixpoint uuidFrom (i : nat) (s : string) : bool :=
  match s with
  | EmptyString => (i =? 36)%nat
  | String c r =>
      (if (i =? 8)%nat || (i =? 13)%nat || (i =? 18)%nat || (i =? 23)%nat
       then Ascii.eqb c "-"
       else isHexDigit c)
      && uuidFrom (S i) r
  end.

(** The text of a [uuid] as the database prints it and
    [crypto.randomUUID()] returns it: 8-4-4-4-12 hexadecimal digits in
    lower case. *)
Definition isUUID (s : string) : bool := uuidFrom 0 s.

(** A value that an [int] column holds. *)
Definition isInt4 (a : JS.number) : bool :=
  match a with
  | JS.Int z => (-2147483648 <=? z) && (z <=? 2147483647)
  | JS.NaN => false
  end.

Definition isColumnChar (c : ascii) : bool := (1 <=? JS.code c)%nat && (JS.code c <? 128)%nat.

(** A value that a [text] column holds as it is: ASCII text without
    the character of code 0. *)
Definition fitsText (s : string) : bool := JS.all isColumnChar s.

(** A value that a [varchar(n)] column holds as it is: such a text of
    at most [n] characters. *)
Definition fitsVarchar (n : nat) (s : string) : bool :=
  fitsText s && (JS.length s <=? n)%nat.

(** The binary64 number of an integer of magnitude below 2^53. *)
Definition ofInt (k : Z) : float :=
  if k <? 0 then PrimFloat.opp (PrimFloat.of_uint63 (Uint63.of_Z (- k)))
  else PrimFloat.of_uint63 (Uint63.of_Z k).

(** The binary64 number nearest to [k / 100] and to [k / 1000]: the
    numbers that the decimal literals of two and of three fractional
    digits denote. *)
Definition cents (k : Z) : float := (ofInt k / 100)%float.

(** A value that a [decimal(10,2)] column holds as it is and that
    reads back as the same number. *)
Definition isDecimal (x : float) : Prop :=
  exists k : Z, -10000000000 < k < 10000000000 /\ x = cents k.

(** The fields of a creation that the columns hold as they are. *)
Definition fitsColumns (input : ICreateProductDTO.t) : Prop :=
  fitsVarchar 255 (ICreateProductDTO.name input) = true /\
  fitsText (ICreateProductDTO.description input) = true /\
  isDecimal (ICreateProductDTO.price input) /\
  isInt4 (ICreateProductDTO.stock input) = true /\
  fitsVarchar 100 (ICreateProductDTO.sku input) = true /\
  fitsVarchar 100 (ICreateProductDTO.categoryId input) = true.

(** The same for the state of a product that the adapter is given to
    write. *)
Definition productFits (product : Product.t) : Prop :=
  fitsVarchar 255 (Product.name product) = true /\
  fitsText (Product.description product) = true /\
  isDecimal (Product.price product) /\
  isInt4 (Product.stock product) = true /\
  fitsVarchar 100 (Product.categoryId product) = true.

(** The same for the fields of an update that are present. *)
Definition fitsColumnsWhenPresent (data : IUpdateProductDTO.t) : Prop :=
  from_option (fun v => fitsVarchar 255 v = true) True (IUpdateProductDTO.name data) /\
  from_option (fun v => fitsText v = true) True (IUpdateProductDTO.description data) /\
  from_option isDecimal True (IUpdateProductDTO.price data) /\
  from_option (fun v => isInt4 v = true) True (IUpdateProductDTO.stock data) /\
  from_option (fun v => fitsVarchar 100 v = true) True (IUpdateProductDTO.categoryId data).


End Range.


(** The next answer of [new Date()]. *)
Definition nowOf (w : Runtime.World) : JS.Date :=
  Runtime.clock w (Runtime.clockReads w).

(** The world after one more reading of the clock and one more
    [Product] instance. *)
Definition afterConstruction (w : Runtime.World) (e : IProductSchema.t) : Runtime.World :=
  Runtime.mkWorld (Runtime.clock w) (S (Runtime.clockReads w))
    (Runtime.uuids w) (Runtime.uuidReads w)
    (Runtime.products w) (Runtime.constructed w ++ [e]) (Runtime.calls w).

(** The state of the [Product] that the repository builds from a row. *)
Definition schemaOf (row : ProductEntity.t) : IProductSchema.t :=
  IProductSchema.mk (ProductEntity.id row) (ProductEntity.name row)
    (ProductEntity.description row) (ProductEntity.price row)
    (ProductEntity.stock row) (ProductEntity.sku row)
    (ProductEntity.categoryId row) (ProductEntity.isActive row)
    (ProductEntity.createdAt row) (ProductEntity.updatedAt row).

(** The world after [findById] has found [row]. *)
Definition afterFind (w : Runtime.World) (id : string) (row : ProductEntity.t) : Runtime.World :=
  Runtime.mkWorld (Runtime.clock w) (Runtime.clockReads w)
    (Runtime.uuids w) (Runtime.uuidReads w)
    (Runtime.products w) (Runtime.constructed w ++ [schemaOf row])
    (Runtime.calls w ++ [Runtime.CallFindById id]).

(** The world after the repository has received [call]. *)
Definition afterCall (w : Runtime.World) (call : Runtime.RepositoryCall) : Runtime.World :=
  Runtime.mkWorld (Runtime.clock w) (Runtime.clockReads w)
    (Runtime.uuids w) (Runtime.uuidReads w)
    (Runtime.products w) (Runtime.constructed w) (Runtime.calls w ++ [call]).

(** Was the repository asked to update the stock? *)
Definition isCallUpdateStock (call : Runtime.RepositoryCall) : bool :=
  match call with Runtime.CallUpdateStock _ _ => true | _ => false end.

(** Was the repository asked to create a product? *)
Definition isCallCreate (call : Runtime.RepositoryCall) : bool :=
  match call with Runtime.CallCreate _ => true | _ => false end.

(** The row that [ProductRepository.update] writes over [row] for
    [product] at time [now]: key, code and creation date stay. *)
Definition updatedRow (row : ProductEntity.t) (product : Product.t) (now : JS.Date)
    : ProductEntity.t :=
  ProductEntity.mk (ProductEntity.id row) (Product.name product)
    (Product.description product) (Product.price product)
    (Product.stock product) (ProductEntity.sku row)
    (Product.categoryId product) (Product.isActive product)
    (ProductEntity.createdAt row) now.

(** The row after a partial update of the five fields that the use
    case reads: a field that is present replaces the stored one
    (strings trimmed), an absent field stays.  [isActive] stays too:
    the use case does not read it. *)
Definition patchedRow (data : IUpdateProductDTO.t) (row : ProductEntity.t) (now : JS.Date)
    : ProductEntity.t :=
  ProductEntity.mk (ProductEntity.id row)
    (from_option JS.trim (ProductEntity.name row) (IUpdateProductDTO.name data))
    (from_option JS.trim (ProductEntity.description row) (IUpdateProductDTO.description data))
    (default (ProductEntity.price row) (IUpdateProductDTO.price data))
    (default (ProductEntity.stock row) (IUpdateProductDTO.stock data))
    (ProductEntity.sku row)
    (from_option JS.trim (ProductEntity.categoryId row) (IUpdateProductDTO.categoryId data))
    (ProductEntity.isActive row)
    (ProductEntity.createdAt row) now.

(** The present fields pass the checks of the entity. *)
Definition acceptable (data : IUpdateProductDTO.t) : bool :=
  from_option (fun v => negb (JS.isBlank v)) true (IUpdateProductDTO.name data) &&
  from_option (fun v => negb (PrimFloat.ltb v 0%float)) true (IUpdateProductDTO.price data) &&
  from_option (fun v => negb (JS.lt v (JS.Int 0))) true (IUpdateProductDTO.stock data) &&
  from_option (fun v => negb (JS.isBlank v)) true (IUpdateProductDTO.categoryId data).

(** The code that [ProductCode.generate] builds for a category and a
    sequence number in range. *)
Definition generated (category : string) (z : Z) : ProductCode.t :=
  ProductCode.new (IProductCodeSchemaValueObject.mk
    (Spec.prefixOf category ++ "-" ++ JS.padStart 6 "0" (JS.toString (JS.Int z)))).

(** The arithmetic methods of [Price], with their arguments. *)
Inductive PriceOperation : Type :=
| Add (other : Price.t)
| Subtract (other : Price.t)
| Multiply (factor : float)
| Divide (divisor : float)
| ApplyDiscount (percentage : float)
| ApplyTax (percentage : float).

(** The call of the method on [this]. *)
Definition calculate (op : PriceOperation) (this : Price.t) : Errors.Outcome Price.t :=
  match op with
  | Add other => Price.add this other
  | Subtract other => Price.subtract this other
  | Multiply factor => Price.multiply this factor
  | Divide divisor => Price.divide this divisor
  | ApplyDiscount percentage => Price.applyDiscount this percentage
  | ApplyTax percentage => Price.applyTax this percentage
  end.

(** The amount that the method computes before it hands it to
    [Price.create]. *)
Definition rawAmount (op : PriceOperation) (this : Price.t) : float :=
  match op with
  | Add other => (Price.amount this + Price.amount other)%float
  | Subtract other => (Price.amount this - Price.amount other)%float
  | Multiply factor => (Price.amount this * factor)%float
  | Divide divisor => (Price.amount this / divisor)%float
  | ApplyDiscount percentage => (Price.amount this * (1 - percentage / 100))%float
  | ApplyTax percentage => (Price.amount this * (1 + percentage / 100))%float
  end.

(** What [Product.create] checks, as a property of the state of a
    product. *)
Definition passesChecks (e : IProductSchema.t) : Prop :=
  JS.isBlank (IProductSchema.name e) = false /\
  PrimFloat.ltb (IProductSchema.price e) 0%float = false /\
  JS.lt (IProductSchema.stock e) (JS.Int 0) = false /\
  JS.isBlank (IProductSchema.sku e) = false.

(** The methods of [Product] that return a changed product, with
    their arguments. *)
Inductive Mutation : Type :=
| UpdateName (newName : string)
| UpdateDescription (newDescription : string)
| UpdatePrice (newPrice : float)
| UpdateStock (newStock : JS.number)
| IncrementStock (amount : JS.number)
| DecrementStock (amount : JS.number)
| UpdateCategory (newCategoryId : string)
| Activate
| Deactivate.

(** The call of the method on [this]. *)
Definition mutate (m : Mutation) (this : Product.t) : Runtime.M Product.t :=
  match m with
  | UpdateName newName => Product.updateName this newName
  | UpdateDescription newDescription => Product.updateDescription this newDescription
  | UpdatePrice newPrice => Product.updatePrice this newPrice
  | UpdateStock newStock => Product.updateStock this newStock
  | IncrementStock amount => Product.incrementStock this amount
  | DecrementStock amount => Product.decrementStock this amount
  | UpdateCategory newCategoryId => Product.updateCategory this newCategoryId
  | Activate => Product.activate this
  | Deactivate => Product.deactivate this
  end.

(** The stock that [UpdateStockUseCase] asks for. *)
Definition stockAfter (operation : IUpdateStockInput.Operation) (stock quantity : JS.number)
    : JS.number :=
  match operation with
  | IUpdateStockInput.increment => JS.add stock quantity
  | IUpdateStockInput.decrement => JS.sub stock quantity
  end.

(** The stored stock, the quantity and the stock asked for are values
    that the [int] column holds. *)
Definition stockChangeFits (operation : IUpdateStockInput.Operation)
    (stock quantity : JS.number) : bool :=
  Range.isInt4 stock && Range.isInt4 quantity
  && Range.isInt4 (stockAfter operation stock quantity).

(** The row that [ProductRepository.updateStock] writes over [row]. *)
Definition restockedRow (row : ProductEntity.t) (newStock : JS.number) (now : JS.Date)
    : ProductEntity.t :=
  ProductEntity.mk (ProductEntity.id row) (ProductEntity.name row)
    (ProductEntity.description row) (ProductEntity.price row) newStock
    (ProductEntity.sku row) (ProductEntity.categoryId row) (ProductEntity.isActive row)
    (ProductEntity.createdAt row) now.

(** The row that [ProductRepository.create] saves for [product] at
    time [now]: a row already stored under the identifier keeps its
    creation date. *)
Definition savedRow (product : Product.t) (table : gmap string ProductEntity.t)
    (now : JS.Date) : ProductEntity.t :=
  ProductEntity.mk (Product.id product) (Product.name product)
    (Product.description product) (Product.price product) (Product.stock product)
    (Product.sku product) (Product.categoryId product) (Product.isActive product)
    (match table !! Product.id product with
     | Some old => ProductEntity.createdAt old
     | None => now
     end)
    now.

(** The input of [CreateProductUseCase] passes the checks of
    [Product.create]. *)
Definition creatable (input : ICreateProductDTO.t) : bool :=
  negb (JS.isBlank (ICreateProductDTO.name input)) &&
  negb (PrimFloat.ltb (ICreateProductDTO.price input) 0%float) &&
  negb (JS.lt (ICreateProductDTO.stock input) (JS.Int 0)) &&
  negb (JS.isBlank (ICreateProductDTO.sku input)).

(** The product that [Product.create] builds from the input of the
    use case, under the identifier [id] at time [now]. *)
Definition createdProduct (input : ICreateProductDTO.t) (id : string) (now : JS.Date)
    : Product.t :=
  Product.mk
    (IProductSchema.mk id (JS.trim (ICreateProductDTO.name input))
       (JS.trim (ICreateProductDTO.description input))
       (ICreateProductDTO.price input) (ICreateProductDTO.stock input)
       (JS.toUpperCase (JS.trim (ICreateProductDTO.sku input)))
       (ICreateProductDTO.categoryId input) true now now).

(** The message of the first check of [Product.create] that the input
    fails. *)
Definition firstFailure (input : ICreateProductDTO.t) : string :=
  if JS.isBlank (ICreateProductDTO.name input) then "Product name cannot be empty"
  else if PrimFloat.ltb (ICreateProductDTO.price input) 0%float
  then "Product price cannot be negative"
  else if JS.lt (ICreateProductDTO.stock input) (JS.Int 0)
  then "Product stock cannot be negative"
  else "Product SKU cannot be empty".

(** The next answer of [crypto.randomUUID()]. *)
Definition nextUUID (w : Runtime.World) : string :=
  Runtime.uuids w (Runtime.uuidReads w).

(** A table in good order: each row is stored under its own
    identifier, and no two rows carry the same SKU. *)
Definition tableConsistent (table : gmap string ProductEntity.t) : Prop :=
  (forall (key : string) (row : ProductEntity.t),
     table !! key = Some row -> ProductEntity.id row = key) /\
  (forall (k1 k2 : string) (r1 r2 : ProductEntity.t),
     table !! k1 = Some r1 -> table !! k2 = Some r2 ->
     ProductEntity.sku r1 = ProductEntity.sku r2 -> k1 = k2).

(** Every stored product is active. *)
Definition allActive (table : gmap string ProductEntity.t) : Prop :=
  forall (key : string) (row : ProductEntity.t),
    table !! key = Some row -> ProductEntity.isActive row = true.

(** A call of one of the use cases that [ProductModule] provides over
    this repository. *)
Inductive Request : Type :=
| CreateRequest (input : ICreateProductDTO.t)
| GetRequest (id : string)
| UpdateRequest (input : IUpdateProductInput.t)
| DeleteRequest (id : string)
| StockRequest (input : IUpdateStockInput.t).

(** The world after the use case has run, whether it returned or
    threw. *)
Definition serve (w : Runtime.World) (request : Request) : Runtime.World :=
  match request with
  | CreateRequest input => fst (CreateProductUseCase.execute input w)
  | GetRequest id => fst (GetProductByIdUseCase.execute id w)
  | UpdateRequest input => fst (UpdateProductUseCase.execute input w)
  | DeleteRequest id => fst (DeleteProductUseCase.execute id w)
  | StockRequest input => fst (UpdateStockUseCase.execute input w)
  end.

(** A world to run the code in: a clock that ticks once per reading, a
    table with one product stored at time 0, no call made yet. *)
Module Example.

Definition mouse : ProductEntity.t :=
  ProductEntity.mk "p-1" "Mouse" "x" 20%float (JS.Int 5) "MSE-001" "electronics" true 0 0.

Definition world : Runtime.World :=
  Runtime.mkWorld (fun n => Z.of_nat (S n)) 0
    (fun _ => "3f2c1d7e-8a4b-4c6d-9e0f-1a2b3c4d5e6f") 0
    (<["p-1" := mouse]> ∅) [] [].

(** The same with a table keyed as the database keys it. *)
Definition keyboardId : string := "0b9f5c1e-6d2a-4f3b-8c7d-1e2f3a4b5c6d".

Definition keyboard : ProductEntity.t :=
  ProductEntity.mk keyboardId "Keyboard" "x" 45.5%float (JS.Int 7) "KEY-001" "peripherals"
    true 0 0.

Definition shop : Runtime.World :=
  Runtime.mkWorld (fun n => Z.of_nat (S n)) 0
    (fun _ => "3f2c1d7e-8a4b-4c6d-9e0f-1a2b3c4d5e6f") 0
    (<[keyboardId := keyboard]> ∅) [] [].

(** An identifier that is not in the table. *)
Definition absentId : string := "7a1d3e5f-9b2c-4d6e-8f0a-2b4c6d8e0f1a".

End Example.

(* ================================================================== *)
(** ** Facts about strings, numbers and patterns *)
(* ================================================================== *)

Section StringFacts.

Lemma app_nil_s (s : string) : ("" ++ s)%string = s.
Proof. reflexivity. Qed.

Lemma app_cons_s (c : ascii) (s t : string) :
  (String c s ++ t)%string = String c (s ++ t)%string.
Proof. reflexivity. Qed.

Lemma app_s_nil (s : string) : (s ++ "")%string = s.
Proof. induction s as [|c s IH]; [reflexivity|]. rewrite app_cons_s, IH. reflexivity. Qed.

Lemma app_s_assoc (s t u : string) : ((s ++ t) ++ u)%string = (s ++ (t ++ u))%string.
Proof.
  induction s as [|c s IH]; [reflexivity|].
  rewrite !app_cons_s, IH. reflexivity.
Qed.

Lemma length_app_s (s t : string) :
  JS.length (s ++ t)%string = (JS.length s + JS.length t)%nat.
Proof.
  unfold JS.length. induction s as [|c s IH]; [reflexivity|].
  rewrite app_cons_s. simpl. rewrite IH. reflexivity.
Qed.

Lemma length_zero_s (s : string) : JS.length s = 0%nat -> s = "".
Proof. destruct s; [reflexivity|discriminate]. Qed.

Lemma all_app (cls : ascii -> bool) (s t : string) :
  JS.all cls (s ++ t)%string = JS.all cls s && JS.all cls t.
Proof.
  induction s as [|c s IH]; [reflexivity|].
  rewrite app_cons_s. simpl. rewrite IH. apply andb_assoc.
Qed.

Lemma all_impl (P Q : ascii -> bool) (s : string) :
  (forall c, P c = true -> Q c = true) -> JS.all P s = true -> JS.all Q s = true.
Proof.
  intros HPQ. induction s as [|c s IH]; simpl; [reflexivity|].
  intros [Hc Hs]%andb_true_iff. rewrite (HPQ _ Hc), (IH Hs). reflexivity.
Qed.

(** Splitting a string after its first [n] characters. *)
Lemma split_at (n : nat) (s : string) :
  (n <= JS.length s)%nat ->
  exists s1 s2, s = (s1 ++ s2)%string /\ JS.length s1 = n.
Proof.
  revert s. induction n as [|n IH]; intros s Hn.
  - exists "", s. split; reflexivity.
  - destruct s as [|c s]; [simpl in Hn; lia|].
    destruct (IH s) as (s1 & s2 & -> & Hlen); [unfold JS.length in *; simpl in Hn; lia|].
    exists (String c s1), s2. split; [reflexivity|].
    unfold JS.length in *. simpl. rewrite Hlen. reflexivity.
Qed.

End StringFacts.

Section CharacterFacts.

Ltac by_cases_on c :=
  destruct c as [[] [] [] [] [] [] [] []]; vm_compute; congruence.

Lemma upperAlnum_not_white (c : ascii) :
  JS.isUpperAlnum c = true -> JS.isWhiteSpace c = false.
Proof. by_cases_on c. Qed.

Lemma upperAlnum_toUpper (c : ascii) :
  JS.isUpperAlnum c = true -> JS.toUpperChar c = c.
Proof. by_cases_on c. Qed.

Lemma upperAlnum_not_dash (c : ascii) :
  JS.isUpperAlnum c = true -> Ascii.eqb c "-" = false.
Proof. by_cases_on c. Qed.

Lemma digit_upperAlnum (c : ascii) : JS.isDigit c = true -> JS.isUpperAlnum c = true.
Proof. by_cases_on c. Qed.

Lemma toUpper_white (c : ascii) : JS.isWhiteSpace (JS.toUpperChar c) = JS.isWhiteSpace c.
Proof. destruct c as [[] [] [] [] [] [] [] []]; vm_compute; reflexivity. Qed.

Lemma toUpper_idem (c : ascii) : JS.toUpperChar (JS.toUpperChar c) = JS.toUpperChar c.
Proof. destruct c as [[] [] [] [] [] [] [] []]; vm_compute; reflexivity. Qed.

End CharacterFacts.

Section TrimFacts.

Lemma codeChar_notWhite (c : ascii) : isCodeChar c = true -> notWhite c = true.
Proof. destruct c as [[] [] [] [] [] [] [] []]; vm_compute; congruence. Qed.

Lemma codeChar_toUpper (c : ascii) : isCodeChar c = true -> JS.toUpperChar c = c.
Proof. destruct c as [[] [] [] [] [] [] [] []]; vm_compute; congruence. Qed.

Lemma upperAlnum_codeChar (c : ascii) : JS.isUpperAlnum c = true -> isCodeChar c = true.
Proof. unfold isCodeChar. intros ->. reflexivity. Qed.

Lemma trimStart_notWhite (s : string) :
  JS.all notWhite s = true -> JS.trimStart s = s.
Proof.
  destruct s as [|c s]; [reflexivity|]. simpl.
  intros [Hc _]%andb_true_iff. unfold notWhite in Hc.
  apply negb_true_iff in Hc. rewrite Hc. reflexivity.
Qed.

Lemma trimEnd_notWhite (s : string) :
  JS.all notWhite s = true -> JS.trimEnd s = s.
Proof.
  induction s as [|c s IH]; [reflexivity|]. simpl.
  intros [Hc Hs]%andb_true_iff. rewrite (IH Hs).
  destruct s as [|d s]; [|reflexivity].
  unfold notWhite in Hc. apply negb_true_iff in Hc. rewrite Hc. reflexivity.
Qed.

Lemma trim_notWhite (s : string) : JS.all notWhite s = true -> JS.trim s = s.
Proof.
  intros H. unfold JS.trim. rewrite (trimStart_notWhite s H). apply trimEnd_notWhite, H.
Qed.

Lemma toUpperCase_fixed (P : ascii -> bool) (s : string) :
  (forall c, P c = true -> JS.toUpperChar c = c) ->
  JS.all P s = true -> JS.toUpperCase s = s.
Proof.
  intros HP. unfold JS.toUpperCase. induction s as [|c s IH]; [reflexivity|]. simpl.
  intros [Hc Hs]%andb_true_iff. rewrite (HP _ Hc), (IH Hs). reflexivity.
Qed.

(** A string made of code characters is its own normal form. *)
Lemma normalize_codeChars (s : string) :
  JS.all isCodeChar s = true -> JS.toUpperCase (JS.trim s) = s.
Proof.
  intros H. rewrite trim_notWhite.
  - apply (toUpperCase_fixed isCodeChar); [apply codeChar_toUpper|exact H].
  - apply (all_impl isCodeChar); [apply codeChar_notWhite|exact H].
Qed.

Lemma normalize_upperAlnum (s : string) :
  JS.all JS.isUpperAlnum s = true -> JS.toUpperCase (JS.trim s) = s.
Proof.
  intros H. apply normalize_codeChars.
  apply (all_impl JS.isUpperAlnum); [apply upperAlnum_codeChar|exact H].
Qed.

(** A non-empty string without white space is not blank. *)
Lemma notBlank_notWhite (s : string) :
  JS.all notWhite s = true -> s <> "" -> JS.isBlank s = false.
Proof.
  intros H Hne. unfold JS.isBlank. rewrite (trim_notWhite s H).
  destruct s as [|c s]; [congruence|reflexivity].
Qed.

End TrimFacts.

Section PatternFacts.

(** The matcher computes the language of the pattern. *)
Lemma residuals_spec (r : JS.regex) :
  forall s rest : string,
    In rest (JS.residuals r s) <->
    exists pre : string, s = (pre ++ rest)%string /\ JS.matches r pre.
Proof.
  induction r as [|c|cls|r1 IH1 r2 IH2|r1 IH1 r2 IH2]; intros s rest; simpl.
  - split.
    + intros [<-|[]]. exists "". split; reflexivity.
    + intros (pre & -> & ->). left. reflexivity.
  - split.
    + destruct s as [|d s']; [intros []|].
      destruct (Ascii.eqb_spec d c) as [->|Hne]; [|intros []].
      intros [<-|[]]. exists (String c ""). split; reflexivity.
    + intros (pre & -> & ->). rewrite app_cons_s, app_nil_s, Ascii.eqb_refl.
      left. reflexivity.
  - split.
    + destruct s as [|d s']; [intros []|].
      destruct (cls d) eqn:Hd; [|intros []].
      intros [<-|[]]. exists (String d ""). split; [reflexivity|].
      exists d. split; [exact Hd|reflexivity].
    + intros (pre & -> & d & Hd & ->). rewrite app_cons_s, app_nil_s, Hd.
      left. reflexivity.
  - rewrite in_flat_map. split.
    + intros (mid & Hmid & Hrest).
      apply IH1 in Hmid as (p1 & -> & Hp1). apply IH2 in Hrest as (p2 & -> & Hp2).
      exists (p1 ++ p2)%string. split; [symmetry; apply app_s_assoc|].
      exists p1, p2. auto.
    + intros (pre & -> & p1 & p2 & -> & Hp1 & Hp2).
      exists (p2 ++ rest)%string. split.
      * apply IH1. exists p1. split; [apply app_s_assoc|exact Hp1].
      * apply IH2. exists p2. split; [reflexivity|exact Hp2].
  - rewrite in_app_iff. split.
    + intros [H|H]; [apply IH1 in H|apply IH2 in H];
        destruct H as (pre & -> & Hpre); exists pre; auto.
    + intros (pre & -> & [H|H]); [left; apply IH1|right; apply IH2]; exists pre; auto.
Qed.

Lemma test_spec (r : JS.regex) (s : string) :
  JS.test r s = true <-> JS.matches r s.
Proof.
  unfold JS.test. rewrite existsb_exists. split.
  - intros (x & Hin & Hx). apply String.eqb_eq in Hx. subst x.
    apply residuals_spec in Hin as (pre & -> & Hpre). rewrite app_s_nil. exact Hpre.
  - intros H. exists "". split; [|reflexivity].
    apply residuals_spec. exists s. split; [symmetry; apply app_s_nil|exact H].
Qed.

(** Bounded repetition of one character class. *)
Variable cls : ascii -> bool.

Lemma times_spec (n : nat) (s : string) :
  JS.matches (JS.times n (JS.Class cls)) s <->
  JS.length s = n /\ JS.all cls s = true.
Proof.
  revert s. induction n as [|n IH]; intros s; simpl.
  - split.
    + intros ->. split; reflexivity.
    + intros [H _]. apply length_zero_s, H.
  - split.
    + intros (s1 & s2 & -> & (d & Hd & ->) & H2). apply IH in H2 as [Hlen Hall].
      rewrite app_cons_s, app_nil_s. unfold JS.length in *. simpl.
      rewrite Hlen, Hd, Hall. split; reflexivity.
    + destruct s as [|d s]; [intros [H _]; discriminate|].
      unfold JS.length. simpl. intros [Hlen [Hd Hs]%andb_true_iff].
      exists (String d ""), s. split; [reflexivity|]. split.
      * exists d. split; [exact Hd|reflexivity].
      * apply IH. split; [unfold JS.length; lia|exact Hs].
Qed.

Lemma upto_spec (n : nat) (s : string) :
  JS.matches (JS.upto n (JS.Class cls)) s <->
  (JS.length s <= n)%nat /\ JS.all cls s = true.
Proof.
  revert s. induction n as [|n IH]; intros s; simpl.
  - split.
    + intros ->. split; [unfold JS.length; simpl; lia|reflexivity].
    + intros [H _]. apply length_zero_s. lia.
  - split.
    + intros [(s1 & s2 & -> & (d & Hd & ->) & H2)| ->].
      * apply IH in H2 as [Hlen Hall].
        rewrite app_cons_s, app_nil_s. unfold JS.length in *. simpl.
        rewrite Hd, Hall. split; [lia|reflexivity].
      * split; [unfold JS.length; simpl; lia|reflexivity].
    + destruct s as [|d s]; [intros _; right; reflexivity|].
      unfold JS.length. simpl. intros [Hlen [Hd Hs]%andb_true_iff].
      left. exists (String d ""), s. split; [reflexivity|]. split.
      * exists d. split; [exact Hd|reflexivity].
      * apply IH. split; [unfold JS.length; lia|exact Hs].
Qed.

Lemma range_spec (lo hi : nat) (s : string) :
  (lo <= hi)%nat ->
  JS.matches (JS.range lo hi (JS.Class cls)) s <->
  (lo <= JS.length s <= hi)%nat /\ JS.all cls s = true.
Proof.
  intros Hle. unfold JS.range. simpl. split.
  - intros (s1 & s2 & -> & [L1 A1]%times_spec & [L2 A2]%upto_spec).
    rewrite length_app_s, all_app, A1, A2. split; [lia|reflexivity].
  - intros [Hlen Hall].
    destruct (split_at lo s) as (s1 & s2 & -> & L1); [lia|].
    rewrite length_app_s in Hlen. rewrite all_app in Hall.
    apply andb_true_iff in Hall as [A1 A2].
    exists s1, s2. split; [reflexivity|]. split.
    + apply times_spec. auto.
    + apply upto_spec. split; [lia|exact A2].
Qed.

End PatternFacts.

(* ================================================================== *)
(** ** [ProductCode]: the patterns and [create] *)
(* ================================================================== *)

Section CodePattern.

Lemma CODE_PATTERN_spec (s : string) :
  JS.test ProductCode.CODE_PATTERN s = true <-> Spec.wellFormed s.
Proof.
  rewrite test_spec. unfold ProductCode.CODE_PATTERN, ProductCode.alnum, Spec.wellFormed.
  split.
  - intros (p & rest & -> & Hp & d & q & -> & -> & Hq).
    apply range_spec in Hp as [Lp Ap]; [|lia]. apply range_spec in Hq as [Lq Aq]; [|lia].
    exists p, q. rewrite app_cons_s, app_nil_s. auto.
  - intros (p & q & -> & Lp & Ap & Lq & Aq).
    exists p, ("-" ++ q)%string. split; [reflexivity|]. split.
    + apply range_spec; [lia|auto].
    + exists "-"%string, q. split; [reflexivity|]. split; [reflexivity|].
      apply range_spec; [lia|auto].
Qed.

Lemma PREFIX_PATTERN_spec (s : string) :
  JS.test ProductCode.PREFIX_PATTERN s = true <->
  (3 <= JS.length s <= 4)%nat /\ JS.all JS.isUpperAlnum s = true.
Proof.
  rewrite test_spec. unfold ProductCode.PREFIX_PATTERN, ProductCode.alnum.
  apply range_spec. lia.
Qed.

Lemma SUFFIX_PATTERN_spec (s : string) :
  JS.test ProductCode.SUFFIX_PATTERN s = true <->
  (3 <= JS.length s <= 6)%nat /\ JS.all JS.isUpperAlnum s = true.
Proof.
  rewrite test_spec. unfold ProductCode.SUFFIX_PATTERN, ProductCode.alnum.
  apply range_spec. lia.
Qed.

Lemma wellFormed_codeChars (s : string) :
  Spec.wellFormed s -> JS.all isCodeChar s = true.
Proof.
  intros (p & q & -> & _ & Ap & _ & Aq).
  rewrite !all_app.
  rewrite (all_impl _ _ p upperAlnum_codeChar Ap), (all_impl _ _ q upperAlnum_codeChar Aq).
  reflexivity.
Qed.

Lemma wellFormed_length (s : string) :
  Spec.wellFormed s -> (7 <= JS.length s <= 11)%nat.
Proof.
  intros (p & q & -> & Lp & _ & Lq & _). rewrite !length_app_s.
  change (JS.length "-") with 1%nat. lia.
Qed.

End CodePattern.

Section ProductCodeCreate.
Import Errors.

Lemma create_wellFormed (code : string) :
  Spec.wellFormed (JS.toUpperCase (JS.trim code)) ->
  ProductCode.create code
  = Return (ProductCode.new (IProductCodeSchemaValueObject.mk (JS.toUpperCase (JS.trim code)))).
Proof.
  intros Hwf. unfold ProductCode.create.
  pose proof (wellFormed_length _ Hwf) as [Hlo Hhi].
  apply CODE_PATTERN_spec in Hwf.
  unfold ProductCode.MIN_LENGTH, ProductCode.MAX_LENGTH.
  destruct (Nat.ltb_spec (JS.length (JS.toUpperCase (JS.trim code))) 7); [lia|].
  destruct (Nat.ltb_spec 11 (JS.length (JS.toUpperCase (JS.trim code)))); [lia|].
  rewrite Hwf. reflexivity.
Qed.

Lemma create_not_wellFormed (code : string) :
  ~ Spec.wellFormed (JS.toUpperCase (JS.trim code)) ->
  exists message, ProductCode.create code = Throw (Error message).
Proof.
  intros Hnwf. unfold ProductCode.create.
  destruct (JS.length (JS.toUpperCase (JS.trim code)) <? ProductCode.MIN_LENGTH)%nat;
    [eexists; reflexivity|].
  destruct (ProductCode.MAX_LENGTH <? JS.length (JS.toUpperCase (JS.trim code)))%nat;
    [eexists; reflexivity|].
  destruct (JS.test ProductCode.CODE_PATTERN (JS.toUpperCase (JS.trim code))) eqn:Htest.
  - exfalso. apply Hnwf, CODE_PATTERN_spec, Htest.
  - eexists. reflexivity.
Qed.

Lemma wellFormed_dec (s : string) : Spec.wellFormed s \/ ~ Spec.wellFormed s.
Proof.
  destruct (JS.test ProductCode.CODE_PATTERN s) eqn:H.
  - left. apply CODE_PATTERN_spec, H.
  - right. intros Hwf%CODE_PATTERN_spec. congruence.
Qed.

End ProductCodeCreate.

(** C8, as the code has it.  [ProductCode.create] trims and upper-cases
    its input.  For ASCII input it returns a code exactly when the
    normalized string has the form {3-4 alphanumeric}-{3-6
    alphanumeric} (hence a length between 7 and 11); [toString] of that
    code is the normalized string, and creating a code from it again
    gives the same code.  Otherwise it throws a plain [Error], which is
    none of the domain error classes.  [create("lap-hp001")] gives the
    code ["LAP-HP001"]. *)
Theorem C8_create_normalizes_or_throws_plain_error :
  forall code : string,
    Range.isASCII code = true ->
    match ProductCode.create code with
    | Errors.Return c =>
        Spec.wellFormed (JS.toUpperCase (JS.trim code)) /\
        (7 <= JS.length (JS.toUpperCase (JS.trim code)) <= 11)%nat /\
        ProductCode.toString c = JS.toUpperCase (JS.trim code) /\
        ProductCode.create (ProductCode.toString c) = Errors.Return c
    | Errors.Throw e =>
        ~ ((7 <= JS.length (JS.toUpperCase (JS.trim code)) <= 11)%nat /\
           Spec.wellFormed (JS.toUpperCase (JS.trim code))) /\
        Errors.isDomainError e = false /\
        exists message, e = Errors.Error message
    end /\
    Errors.bindO (ProductCode.create "lap-hp001")
      (fun c => Errors.Return (ProductCode.toString c))
    = Errors.Return "LAP-HP001".
Proof.
  intros code _. split; [|reflexivity].
  - destruct (wellFormed_dec (JS.toUpperCase (JS.trim code))) as [Hwf|Hnwf].
    + rewrite (create_wellFormed code Hwf).
      split; [exact Hwf|]. split; [apply wellFormed_length, Hwf|]. split; [reflexivity|].
      unfold ProductCode.toString, ProductCode.value. simpl.
      pose proof (normalize_codeChars _ (wellFormed_codeChars _ Hwf)) as Hn.
      rewrite create_wellFormed; rewrite Hn; [reflexivity|exact Hwf].
    + destruct (create_not_wellFormed code Hnwf) as (message & ->).
      split; [intros [_ Hwf]; exact (Hnwf Hwf)|]. split; [reflexivity|].
      exists message. reflexivity.
Qed.

(** A code written in lower case between spaces is accepted in its
    normal form; a code with too many characters after the dash is
    refused. *)
Lemma C8_witness :
  Range.isASCII "  lap-hp001 " = true /\
  (exists c : ProductCode.t,
     ProductCode.create "  lap-hp001 " = Errors.Return c /\
     ProductCode.toString c = "LAP-HP001" /\
     ProductCode.create "LAP-HP001" = Errors.Return c) /\
  Range.isASCII "lap-hp0010000" = true /\
  (exists message : JS.text,
     ProductCode.create "lap-hp0010000" = Errors.Throw (Errors.Error message)).
Proof.
  assert (Range.isASCII "  lap-hp001 " = true) as H1 by reflexivity.
  assert (Range.isASCII "lap-hp0010000" = true) as H2 by reflexivity.
  pose proof (C8_create_normalizes_or_throws_plain_error "  lap-hp001 " H1) as [T1 _].
  pose proof (C8_create_normalizes_or_throws_plain_error "lap-hp0010000" H2) as [T2 _].
  split; [exact H1|]. split.
  - destruct (ProductCode.create "  lap-hp001 ") as [c|e] eqn:E; [|vm_compute in E; discriminate E].
    destruct T1 as (_ & _ & Hs & Hr). exists c. split; [reflexivity|].
    assert (ProductCode.toString c = "LAP-HP001") as Hc by (rewrite Hs; reflexivity).
    split; [exact Hc|]. rewrite <- Hc. exact Hr.
  - split; [exact H2|].
    destruct (ProductCode.create "lap-hp0010000") as [c|e] eqn:E; [vm_compute in E; discriminate E|].
    destruct T2 as (_ & _ & message & ->). exists message. reflexivity.
Defined.

(** C8 as stated fails: the error of [create] on a code that is too
    short is a plain [Error], not one of the domain error classes. *)
Lemma C8_counterexample_plain_error :
  ProductCode.create "AB-1"
  = Errors.Throw (Errors.Error [JS.Lit "Product code is too short. Minimum length: 7"]) /\
  ~ (exists e, ProductCode.create "AB-1" = Errors.Throw e /\ Errors.isDomainError e = true).
Proof.
  split; [reflexivity|].
  intros (e & He & Hd). vm_compute in He. injection He as <-. discriminate.
Qed.

(* ================================================================== *)
(** ** [ProductCode]: [generate] and [next] *)
(* ================================================================== *)

Section NumberFacts.

Lemma digitVal_digitChar (d : Z) :
  0 <= d <= 9 -> JS.digitVal (JS.digitChar d) = Some d.
Proof.
  intros Hd.
  assert (d = 0 \/ d = 1 \/ d = 2 \/ d = 3 \/ d = 4 \/ d = 5 \/ d = 6 \/ d = 7 \/ d = 8 \/ d = 9)
    as H by lia.
  repeat (destruct H as [->|H]; [reflexivity|]). subst d. reflexivity.
Qed.

Lemma digitVal_isDigit (c : ascii) (d : Z) : JS.digitVal c = Some d -> JS.isDigit c = true.
Proof. unfold JS.digitVal. destruct (JS.isDigit c); [reflexivity|discriminate]. Qed.

Lemma isDigit_digitVal (c : ascii) : JS.isDigit c = true -> exists d, JS.digitVal c = Some d.
Proof. unfold JS.digitVal. intros ->. eexists. reflexivity. Qed.

Lemma isDigit_digitChar (d : Z) : 0 <= d <= 9 -> JS.isDigit (JS.digitChar d) = true.
Proof. intros Hd. apply (digitVal_isDigit _ d), digitVal_digitChar, Hd. Qed.

(** Reading a run of digits, then what follows it. *)
Lemma parseDigits_app (D rest : string) (acc : option Z) :
  JS.all JS.isDigit D = true ->
  JS.parseDigits (D ++ rest)%string acc = JS.parseDigits rest (JS.parseDigits D acc).
Proof.
  revert acc. induction D as [|c D IH]; intros acc H; [reflexivity|].
  simpl in H. apply andb_true_iff in H as [Hc HD]. rewrite app_cons_s. simpl.
  destruct (isDigit_digitVal c Hc) as (d & ->). apply IH, HD.
Qed.

Lemma parseDigits_start (D : string) :
  D <> "" -> JS.all JS.isDigit D = true ->
  JS.parseDigits D None = JS.parseDigits D (Some 0).
Proof.
  destruct D as [|c D]; [congruence|]. intros _. simpl.
  intros [Hc _]%andb_true_iff. destruct (isDigit_digitVal c Hc) as (d & ->). reflexivity.
Qed.

(** Leading zeros do not change the value. *)
Lemma parseDigits_zeros (n : nat) (D : string) :
  JS.parseDigits (copies n "0" ++ D)%string (Some 0) = JS.parseDigits D (Some 0).
Proof.
  induction n as [|n IH]; [reflexivity|].
  change (copies (S n) "0" ++ D)%string with (String "0" (copies n "0" ++ D)%string).
  simpl. exact IH.
Qed.

Lemma all_cons (cls : ascii -> bool) (c : ascii) (s : string) :
  JS.all cls (String c s) = cls c && JS.all cls s.
Proof. reflexivity. Qed.

Lemma parseDigits_cons (c : ascii) (r : string) (acc : option Z) (d : Z) :
  JS.digitVal c = Some d ->
  JS.parseDigits (String c r) acc = JS.parseDigits r (Some (10 * default 0 acc + d)).
Proof. intros H. cbn [JS.parseDigits]. rewrite H. reflexivity. Qed.

Lemma digits_step (fuel : nat) (n : Z) (acc : string) :
  JS.digits (S fuel) n acc
  = if n <? 10 then String (JS.digitChar (n mod 10)) acc
    else JS.digits fuel (n / 10) (String (JS.digitChar (n mod 10)) acc).
Proof. reflexivity. Qed.

(** The decimal digits of [n]: a run of digits in front of [acc], of
    at most [k] characters when [n < 10^k], whose value is [n]. *)
Lemma digits_spec (fuel : nat) :
  forall (k : nat) (n : Z) (acc : string),
    0 <= n < 10 ^ Z.of_nat k -> (1 <= k <= fuel)%nat ->
    exists D : string,
      JS.digits fuel n acc = (D ++ acc)%string /\
      JS.all JS.isDigit D = true /\
      (1 <= JS.length D <= k)%nat /\
      forall a : Z, JS.parseDigits D (Some a) = Some (a * 10 ^ Z.of_nat (JS.length D) + n).
Proof.
  induction fuel as [|fuel IH]; intros k n acc Hn Hk; [lia|].
  rewrite digits_step. destruct (Z.ltb_spec n 10) as [Hlt|Hge].
  - exists (String (JS.digitChar (n mod 10)) "").
    rewrite Z.mod_small by lia.
    split; [reflexivity|].
    split; [rewrite all_cons, isDigit_digitChar by lia; reflexivity|].
    split; [change (JS.length (String (JS.digitChar n) "")) with 1%nat; lia|].
    intros a. rewrite (parseDigits_cons _ _ _ n) by (apply digitVal_digitChar; lia).
    change (JS.length (String (JS.digitChar n) "")) with 1%nat.
    change (JS.parseDigits "" (Some (10 * default 0 (Some a) + n)))
      with (Some (10 * a + n)).
    f_equal. change (10 ^ Z.of_nat 1) with 10. lia.
  - destruct k as [|k]; [lia|]. destruct k as [|k].
    { change (10 ^ Z.of_nat 1) with 10 in Hn. lia. }
    assert (0 <= n / 10 < 10 ^ Z.of_nat (S k)) as Hq.
    { split; [apply Z.div_pos; lia|].
      apply Z.div_lt_upper_bound; [lia|].
      replace (Z.of_nat (S (S k))) with (Z.succ (Z.of_nat (S k))) in Hn by lia.
      rewrite Z.pow_succ_r in Hn by lia. lia. }
    destruct (IH (S k) (n / 10) (String (JS.digitChar (n mod 10)) acc) Hq)
      as (D & HD & Hall & Hlen & Hval); [lia|].
    exists (D ++ String (JS.digitChar (n mod 10)) "")%string.
    pose proof (Z.mod_pos_bound n 10 ltac:(lia)) as Hmod.
    assert (JS.length (D ++ String (JS.digitChar (n mod 10)) "")%string
            = S (JS.length D)) as Hlen'.
    { rewrite length_app_s.
      change (JS.length (String (JS.digitChar (n mod 10)) "")) with 1%nat. lia. }
    split; [rewrite HD, app_s_assoc; reflexivity|].
    split; [rewrite all_app, Hall, all_cons, isDigit_digitChar by lia; reflexivity|].
    split; [lia|].
    intros a. rewrite parseDigits_app by exact Hall. rewrite Hval.
    rewrite (parseDigits_cons _ _ _ (n mod 10)) by (apply digitVal_digitChar; lia).
    change (JS.parseDigits "" ?x) with x. cbn [default]. f_equal.
    rewrite Hlen'.
    replace (Z.of_nat (S (JS.length D))) with (Z.succ (Z.of_nat (JS.length D))) by lia.
    rewrite Z.pow_succ_r by lia.
    pose proof (Z.div_mod n 10 ltac:(lia)). unfold id. lia.
Qed.

(** The fuel of [toString] is enough. *)
Lemma digitsFuel_enough (n : Z) : 0 <= n -> n < 10 ^ Z.of_nat (JS.digitsFuel n).
Proof.
  intros Hn. unfold JS.digitsFuel.
  destruct (Z.eq_dec n 0) as [->|Hne]; [reflexivity|].
  pose proof (Z.log2_spec n ltac:(lia)) as [_ Hup].
  pose proof (Z.log2_nonneg n) as Hlog.
  replace (Z.of_nat (S (Z.to_nat (Z.log2 n)))) with (Z.succ (Z.log2 n)) by lia.
  eapply Z.lt_le_trans; [exact Hup|].
  apply Z.pow_le_mono_l. lia.
Qed.

End NumberFacts.

Section PrefixFacts.

Lemma removeAll_keep (cls : ascii -> bool) (s : string) :
  JS.removeAll (fun c => negb (cls c)) s = keep cls s.
Proof.
  induction s as [|c s IH]; [reflexivity|].
  cbn [JS.removeAll keep]. rewrite IH. destruct (cls c); reflexivity.
Qed.

Lemma all_keep (cls : ascii -> bool) (s : string) : JS.all cls (keep cls s) = true.
Proof.
  induction s as [|c s IH]; [reflexivity|].
  cbn [keep]. destruct (cls c) eqn:Hc; [|exact IH].
  rewrite all_cons, Hc, IH. reflexivity.
Qed.

Lemma substring_firstChars (n : nat) (s : string) :
  JS.substring 0 n s = firstChars n s.
Proof.
  unfold JS.substring. rewrite Nat.min_0_l, Nat.max_0_l, Nat.sub_0_r.
  revert s. induction n as [|n IH]; intros [|c s]; try reflexivity.
  cbn [String.substring firstChars]. rewrite IH. reflexivity.
Qed.

Lemma filler_copies (n : nat) (c : ascii) (rest : string) :
  rest = "" \/ rest = String c "" ->
  JS.filler n rest (String c "") = copies n c.
Proof.
  revert rest. induction n as [|n IH]; intros rest Hrest; [reflexivity|].
  destruct Hrest as [-> | ->]; cbn [JS.filler copies]; rewrite IH by (left; reflexivity);
    reflexivity.
Qed.

Lemma length_copies (n : nat) (c : ascii) : JS.length (copies n c) = n.
Proof.
  unfold JS.length. induction n as [|n IH]; [reflexivity|].
  cbn [copies String.length]. rewrite IH. reflexivity.
Qed.

Lemma all_copies (cls : ascii -> bool) (n : nat) (c : ascii) :
  cls c = true -> JS.all cls (copies n c) = true.
Proof.
  intros Hc. induction n as [|n IH]; [reflexivity|].
  cbn [copies]. rewrite all_cons, Hc, IH. reflexivity.
Qed.

Lemma firstChars_all (s : string) : firstChars (JS.length s) s = s.
Proof.
  unfold JS.length. induction s as [|c s IH]; [reflexivity|].
  cbn [String.length firstChars]. rewrite IH. reflexivity.
Qed.

Lemma firstChars_app_long (n : nat) (s t : string) :
  (n <= JS.length s)%nat -> firstChars n (s ++ t)%string = firstChars n s.
Proof.
  unfold JS.length. revert s. induction n as [|n IH]; intros s Hn.
  - destruct s; reflexivity.
  - destruct s as [|c s]; [cbn [String.length] in Hn; lia|].
    rewrite app_cons_s. cbn [firstChars]. rewrite IH; [reflexivity|].
    cbn [String.length] in Hn. lia.
Qed.

Lemma firstChars_app_short (n m : nat) (c : ascii) (s : string) :
  (JS.length s <= n)%nat -> (n - JS.length s <= m)%nat ->
  firstChars n (s ++ copies m c)%string = (s ++ copies (n - JS.length s) c)%string.
Proof.
  unfold JS.length. revert n m. induction s as [|d s IH]; intros n m Hn Hm.
  - rewrite !app_nil_s. cbn [String.length] in *. rewrite Nat.sub_0_r in *.
    revert m Hm. induction n as [|n IHn]; intros m Hm; [destruct m; reflexivity|].
    destruct m as [|m]; [lia|]. cbn [copies firstChars]. rewrite IHn by lia. reflexivity.
  - cbn [String.length] in *. destruct n as [|n]; [lia|].
    rewrite !app_cons_s. cbn [firstChars]. rewrite (IH n m) by lia.
    replace (S n - S (String.length s))%nat with (n - String.length s)%nat by lia.
    reflexivity.
Qed.

Lemma length_firstChars (n : nat) (s : string) :
  (n <= JS.length s)%nat -> JS.length (firstChars n s) = n.
Proof.
  unfold JS.length. revert s. induction n as [|n IH]; intros s Hn.
  - destruct s; reflexivity.
  - destruct s as [|c s]; [cbn [String.length] in Hn; lia|].
    cbn [firstChars String.length]. rewrite IH; [reflexivity|].
    cbn [String.length] in Hn. lia.
Qed.

Lemma all_firstChars (cls : ascii -> bool) (n : nat) (s : string) :
  JS.all cls s = true -> JS.all cls (firstChars n s) = true.
Proof.
  revert s. induction n as [|n IH]; intros s Hs.
  - destruct s; reflexivity.
  - destruct s as [|c s]; [reflexivity|].
    rewrite all_cons in Hs. apply andb_true_iff in Hs as [Hc Hs].
    cbn [firstChars]. rewrite all_cons, Hc, (IH s Hs). reflexivity.
Qed.

(** The prefix that the code derives is the prefix of the
    specification. *)
Lemma generatePrefix_prefixOf (category : string) :
  ProductCode.generatePrefix (JS.toUpperCase (JS.trim category)) = Spec.prefixOf category.
Proof.
  unfold ProductCode.generatePrefix, Spec.prefixOf, Spec.sanitized.
  rewrite removeAll_keep.
  generalize (keep JS.isUpperAlnum (JS.toUpperCase (JS.trim category))). intros s.
  destruct s as [|c s]; [reflexivity|].
  change (JS.length (String c s) =? 0)%nat with false. cbv iota.
  destruct (Nat.leb_spec 4 (JS.length (String c s))) as [H4|H4].
  - rewrite substring_firstChars, firstChars_app_long by exact H4. reflexivity.
  - unfold JS.padEnd. destruct (Nat.leb_spec 4 (JS.length (String c s))); [lia|].
    rewrite filler_copies by (right; reflexivity).
    rewrite firstChars_app_short by lia. reflexivity.
Qed.

Lemma prefixOf_shape (category : string) :
  JS.length (Spec.prefixOf category) = 4%nat /\
  JS.all JS.isUpperAlnum (Spec.prefixOf category) = true.
Proof.
  unfold Spec.prefixOf, Spec.sanitized.
  pose proof (all_keep JS.isUpperAlnum (JS.toUpperCase (JS.trim category))) as Hall.
  set (s := keep JS.isUpperAlnum (JS.toUpperCase (JS.trim category))) in *.
  assert (forall t, JS.all JS.isUpperAlnum t = true ->
            JS.length (firstChars 4 (t ++ copies 4 "X")%string) = 4%nat /\
            JS.all JS.isUpperAlnum (firstChars 4 (t ++ copies 4 "X")%string) = true) as H.
  { intros t Ht. split.
    - apply length_firstChars. rewrite length_app_s, length_copies. lia.
    - apply all_firstChars. rewrite all_app, Ht. apply all_copies. reflexivity. }
  destruct s as [|c s]; [split; reflexivity|]. apply H, Hall.
Qed.

End PrefixFacts.

Section SuffixFacts.

Lemma digit_facts (c : ascii) :
  JS.isDigit c = true ->
  JS.isWhiteSpace c = false /\ Ascii.eqb c "-" = false /\ Ascii.eqb c "+" = false.
Proof. destruct c as [[] [] [] [] [] [] [] []]; vm_compute; intuition congruence. Qed.

(** [parseInt] on a run of digits. *)
Lemma parseInt_digits (s : string) (n : Z) :
  s <> "" -> JS.all JS.isDigit s = true ->
  JS.parseDigits s (Some 0) = Some n ->
  JS.parseInt s = JS.Int n.
Proof.
  intros Hne Hall Hval. unfold JS.parseInt.
  destruct s as [|c s]; [congruence|].
  pose proof Hall as Hall'. rewrite all_cons in Hall'.
  apply andb_true_iff in Hall' as [Hc _].
  destruct (digit_facts c Hc) as (Hw & Hminus & Hplus).
  cbn [JS.trimStart]. rewrite Hw, Hminus, Hplus.
  rewrite parseDigits_start by (congruence || exact Hall). rewrite Hval. reflexivity.
Qed.

Lemma isPadded6_padStart (z : Z) :
  0 <= z <= 999999 -> Spec.isPadded6 z (JS.padStart 6 "0" (JS.toString (JS.Int z))).
Proof.
  intros Hz. unfold JS.toString. destruct (Z.ltb_spec z 0) as [|_]; [lia|].
  pose proof (digitsFuel_enough z ltac:(lia)) as Hfuel.
  assert (1 <= JS.digitsFuel z)%nat as Hf1 by (unfold JS.digitsFuel; lia).
  destruct (digits_spec (JS.digitsFuel z) (Nat.min 6 (JS.digitsFuel z)) z "")
    as (D & HD & Hall & Hlen & Hval).
  { split; [lia|]. destruct (Nat.min_spec 6 (JS.digitsFuel z)) as [[_ ->]|[_ ->]];
      [change (10 ^ Z.of_nat 6) with 1000000; lia|exact Hfuel]. }
  { lia. }
  rewrite HD, app_s_nil.
  assert (JS.padStart 6 "0" D = (copies (6 - JS.length D) "0" ++ D)%string) as ->.
  { unfold JS.padStart. destruct (Nat.leb_spec 6 (JS.length D)) as [H6|H6].
    - replace (6 - JS.length D)%nat with 0%nat by lia. reflexivity.
    - rewrite filler_copies by (right; reflexivity). reflexivity. }
  assert (JS.all JS.isDigit (copies (6 - JS.length D) "0" ++ D)%string = true) as Hall6.
  { rewrite all_app, Hall, all_copies; reflexivity. }
  split; [rewrite length_app_s, length_copies; lia|]. split; [exact Hall6|].
  apply parseInt_digits; [|exact Hall6|].
  - intros Heq. apply (f_equal JS.length) in Heq.
    rewrite length_app_s, length_copies in Heq. change (JS.length "") with 0%nat in Heq. lia.
  - rewrite parseDigits_zeros, Hval. reflexivity.
Qed.

End SuffixFacts.

Section SplitFacts.

Lemma split_no_dash (q : string) :
  JS.all JS.isUpperAlnum q = true -> JS.split "-" q = [q].
Proof.
  induction q as [|c q IH]; intros H; [reflexivity|].
  rewrite all_cons in H. apply andb_true_iff in H as [Hc Hq].
  cbn [JS.split]. rewrite (upperAlnum_not_dash c Hc), (IH Hq). reflexivity.
Qed.

Lemma split_parts (p q : string) :
  JS.all JS.isUpperAlnum p = true -> JS.all JS.isUpperAlnum q = true ->
  JS.split "-" (p ++ "-" ++ q)%string = [p; q].
Proof.
  intros Hp Hq. induction p as [|c p IH].
  - rewrite app_nil_s, app_cons_s, app_nil_s. cbn [JS.split].
    change (Ascii.eqb "-" "-") with true. cbv iota. rewrite (split_no_dash q Hq). reflexivity.
  - rewrite all_cons in Hp. apply andb_true_iff in Hp as [Hc Hp].
    rewrite app_cons_s. cbn [JS.split]. rewrite (upperAlnum_not_dash c Hc), (IH Hp).
    reflexivity.
Qed.

Lemma getPrefix_parts (p q : string) :
  JS.all JS.isUpperAlnum p = true ->
  ProductCode.getPrefix (ProductCode.new (IProductCodeSchemaValueObject.mk (p ++ "-" ++ q)))
  = p.
Proof.
  intros Hp. unfold ProductCode.getPrefix, ProductCode.value. cbn [ProductCode._entity
    IProductCodeSchemaValueObject.code].
  induction p as [|c p IH].
  - reflexivity.
  - rewrite all_cons in Hp. apply andb_true_iff in Hp as [Hc Hp].
    rewrite app_cons_s. cbn [JS.split]. rewrite (upperAlnum_not_dash c Hc).
    specialize (IH Hp). destruct (JS.split "-" (p ++ "-" ++ q)%string) as [|h t] eqn:E.
    + cbn [hd] in IH. subst p. reflexivity.
    + cbn [hd] in *. subst h. reflexivity.
Qed.

End SplitFacts.

Section GenerateFacts.
Import Errors.

Lemma isBlank_trim (s : string) : JS.isBlank s = true <-> JS.trim s = "".
Proof.
  unfold JS.isBlank. destruct s as [|c s]; [split; reflexivity|].
  cbn [JS.truthy negb orb]. destruct (JS.trim (String c s)) as [|d t]; split;
    (reflexivity || discriminate).
Qed.

Lemma isBlank_false (s : string) : JS.isBlank s = false <-> JS.trim s <> "".
Proof.
  rewrite <- isBlank_trim. destruct (JS.isBlank s); split; congruence.
Qed.

Lemma createFromParts_normal (prefix suffix : string) :
  (3 <= JS.length prefix <= 4)%nat -> JS.all JS.isUpperAlnum prefix = true ->
  (3 <= JS.length suffix <= 6)%nat -> JS.all JS.isUpperAlnum suffix = true ->
  ProductCode.createFromParts prefix suffix
  = Return (ProductCode.new (IProductCodeSchemaValueObject.mk (prefix ++ "-" ++ suffix))).
Proof.
  intros Lp Ap Ls As. unfold ProductCode.createFromParts.
  rewrite (normalize_upperAlnum prefix Ap), (normalize_upperAlnum suffix As).
  rewrite (proj2 (PREFIX_PATTERN_spec prefix)) by auto.
  rewrite (proj2 (SUFFIX_PATTERN_spec suffix)) by auto.
  reflexivity.
Qed.

Lemma generate_in_range (category : string) (z : Z) :
  JS.isBlank category = false -> 0 <= z <= 999999 ->
  ProductCode.generate category (JS.Int z)
  = Return (ProductCode.new (IProductCodeSchemaValueObject.mk
              (Spec.prefixOf category ++ "-" ++ JS.padStart 6 "0" (JS.toString (JS.Int z))))).
Proof.
  intros Hb Hz. unfold ProductCode.generate. rewrite Hb.
  unfold JS.gt, JS.lt.
  destruct (Z.ltb_spec z 0); [lia|]. destruct (Z.ltb_spec 999999 z); [lia|].
  cbn [throwIfO bindO]. rewrite generatePrefix_prefixOf.
  destruct (prefixOf_shape category) as [Lp Ap].
  destruct (isPadded6_padStart z Hz) as (Ls & As & _).
  apply createFromParts_normal; [lia|exact Ap|lia|].
  apply (all_impl JS.isDigit); [apply digit_upperAlnum|exact As].
Qed.

Lemma generate_out_of_range (category : string) (z : Z) :
  JS.isBlank category = true \/ z < 0 \/ 999999 < z ->
  exists message, ProductCode.generate category (JS.Int z) = Throw (Error message).
Proof.
  intros H. unfold ProductCode.generate.
  destruct (JS.isBlank category); [eexists; reflexivity|].
  unfold JS.gt, JS.lt.
  destruct (Z.ltb_spec z 0); [eexists; reflexivity|].
  destruct (Z.ltb_spec 999999 z); [eexists; reflexivity|].
  destruct H as [H|[H|H]]; [discriminate|lia|lia].
Qed.

Lemma createFromParts_outcome (prefix suffix : string) :
  ProductCode.createFromParts prefix suffix
  = if negb (JS.test ProductCode.PREFIX_PATTERN (JS.toUpperCase (JS.trim prefix)))
    then Throw (Error (JS.lit ("Invalid prefix format. Expected 3-4 alphanumeric characters. Received: "
                               ++ prefix)))
    else if negb (JS.test ProductCode.SUFFIX_PATTERN (JS.toUpperCase (JS.trim suffix)))
    then Throw (Error (JS.lit ("Invalid suffix format. Expected 3-6 alphanumeric characters. Received: "
                               ++ suffix)))
    else Return (ProductCode.new (IProductCodeSchemaValueObject.mk
                   (JS.toUpperCase (JS.trim prefix) ++ "-" ++ JS.toUpperCase (JS.trim suffix)))).
Proof.
  unfold ProductCode.createFromParts.
  destruct (JS.test ProductCode.PREFIX_PATTERN _); [|reflexivity].
  destruct (JS.test ProductCode.SUFFIX_PATTERN _); reflexivity.
Qed.

Lemma generate_outcome (category : string) (sequence : JS.number) :
  ProductCode.generate category sequence
  = if JS.isBlank category then Throw (Error (JS.lit "Category cannot be empty"))
    else if JS.lt sequence (JS.Int 0)
    then Throw (Error (JS.lit "Sequence number cannot be negative"))
    else if JS.gt sequence (JS.Int 999999)
    then Throw (Error (JS.lit "Sequence number cannot exceed 999999"))
    else ProductCode.createFromParts
           (ProductCode.generatePrefix (JS.toUpperCase (JS.trim category)))
           (JS.padStart 6 "0" (JS.toString sequence)).
Proof.
  unfold ProductCode.generate.
  destruct (JS.isBlank category); [reflexivity|].
  destruct (JS.lt sequence (JS.Int 0)); [reflexivity|].
  destruct (JS.gt sequence (JS.Int 999999)); reflexivity.
Qed.

(** [generate] does not reject a sequence that is not a number: its
    text, [NaN], is padded and upper-cased like the digits of a
    number. *)
Lemma generate_NaN (category : string) :
  JS.isBlank category = false ->
  ProductCode.generate category JS.NaN
  = Return (ProductCode.new (IProductCodeSchemaValueObject.mk
              (Spec.prefixOf category ++ "-" ++ "000NAN"))).
Proof.
  intros Hb. rewrite generate_outcome, Hb. cbn [JS.lt JS.gt].
  rewrite generatePrefix_prefixOf, createFromParts_outcome.
  destruct (prefixOf_shape category) as [L A].
  rewrite (normalize_upperAlnum _ A).
  rewrite (proj2 (PREFIX_PATTERN_spec (Spec.prefixOf category))) by (split; [lia|exact A]).
  reflexivity.
Qed.

End GenerateFacts.




Section NextFacts.
Import Errors.

Lemma keep_all (cls : ascii -> bool) (s : string) :
  JS.all cls s = true -> keep cls s = s.
Proof.
  induction s as [|c s IH]; intros H; [reflexivity|].
  rewrite all_cons in H. apply andb_true_iff in H as [Hc Hs].
  cbn [keep]. rewrite Hc, (IH Hs). reflexivity.
Qed.

Lemma digitVal_nonneg (c : ascii) (d : Z) : JS.digitVal c = Some d -> 0 <= d.
Proof.
  unfold JS.digitVal, JS.isDigit, JS.between.
  destruct (Nat.leb_spec 48 (JS.code c)); [|discriminate].
  destruct (JS.code c <=? 57)%nat; [|discriminate].
  cbn [andb]. intros [= <-]. lia.
Qed.

Lemma parseDigits_nonneg (s : string) :
  forall (acc : option Z) (n : Z),
    (forall a, acc = Some a -> 0 <= a) ->
    JS.parseDigits s acc = Some n -> 0 <= n.
Proof.
  induction s as [|c s IH]; intros acc n Hacc; cbn [JS.parseDigits].
  - intros ->. apply Hacc. reflexivity.
  - destruct (JS.digitVal c) as [d|] eqn:Hd; [|intros ->; apply Hacc; reflexivity].
    apply IH. intros a [= <-]. pose proof (digitVal_nonneg c d Hd).
    destruct acc as [a0|]; cbn [default]; unfold id.
    + specialize (Hacc a0 eq_refl). lia.
    + lia.
Qed.

(** A suffix has no sign, so the sequence it parses to is not
    negative. *)
Lemma parseInt_upperAlnum_nonneg (q : string) (z : Z) :
  JS.all JS.isUpperAlnum q = true -> JS.parseInt q = JS.Int z -> 0 <= z.
Proof.
  intros Hq. unfold JS.parseInt. destruct q as [|c q]; [discriminate|].
  rewrite all_cons in Hq. apply andb_true_iff in Hq as [Hc _].
  cbn [JS.trimStart]. rewrite (upperAlnum_not_white c Hc), (upperAlnum_not_dash c Hc).
  assert (Ascii.eqb c "+" = false) as ->.
  { revert Hc. clear. destruct c as [[] [] [] [] [] [] [] []]; vm_compute; congruence. }
  cbv beta iota zeta.
  destruct (JS.parseDigits (String c q) None) as [n|] eqn:Hn; [|intros ?; discriminate].
  intros [= <-]. apply (parseDigits_nonneg (String c q) None n); [intros a Ha; discriminate Ha|exact Hn].
Qed.

Lemma upperAlnum_notBlank (p : string) :
  JS.all JS.isUpperAlnum p = true -> p <> "" -> JS.isBlank p = false.
Proof.
  intros Hp Hne. apply notBlank_notWhite; [|exact Hne].
  apply (all_impl JS.isUpperAlnum); [|exact Hp].
  intros c Hc. unfold notWhite. rewrite (upperAlnum_not_white c Hc). reflexivity.
Qed.

(** The derived prefix of a category of three characters [[A-Z0-9]]:
    the category followed by one [X]. *)
Lemma prefixOf_three (p : string) :
  JS.all JS.isUpperAlnum p = true -> JS.length p = 3%nat ->
  Spec.prefixOf p = (p ++ "X")%string.
Proof.
  intros Hp Hlen. unfold Spec.prefixOf, Spec.sanitized.
  rewrite (normalize_upperAlnum p Hp), (keep_all _ p Hp).
  destruct p as [|a [|b [|c [|d p]]]]; try discriminate. reflexivity.
Qed.

Lemma eqb_app_X (p : string) : String.eqb p (p ++ "X")%string = false.
Proof.
  apply String.eqb_neq. intros H. apply (f_equal JS.length) in H.
  rewrite length_app_s in H. change (JS.length "X") with 1%nat in H. lia.
Qed.

Lemma wellFormed_parts (c : ProductCode.t) :
  Spec.wellFormed (ProductCode.toString c) ->
  exists q : string,
    c = ProductCode.new (IProductCodeSchemaValueObject.mk (ProductCode.getPrefix c ++ "-" ++ q)) /\
    (3 <= JS.length (ProductCode.getPrefix c) <= 4)%nat /\
    JS.all JS.isUpperAlnum (ProductCode.getPrefix c) = true /\
    (3 <= JS.length q <= 6)%nat /\ JS.all JS.isUpperAlnum q = true /\
    ProductCode.getSuffix c = Some q.
Proof.
  destruct c as [[code]]. unfold ProductCode.toString, ProductCode.value.
  cbn [ProductCode._entity IProductCodeSchemaValueObject.code].
  intros (p & q & -> & Lp & Ap & Lq & Aq).
  rewrite (getPrefix_parts p q Ap). exists q. repeat split; try assumption; try lia.
  unfold ProductCode.getSuffix, ProductCode.value.
  cbn [ProductCode._entity IProductCodeSchemaValueObject.code].
  rewrite (split_parts p q Ap Aq). reflexivity.
Qed.

End NextFacts.

(** C9.  For a well-formed code whose prefix has 3 characters and whose
    suffix parses to a number below 999999, [next()] returns a code
    whose prefix is the original prefix followed by [X], not the
    original prefix, so the code and its successor are not
    sequential. *)
Theorem C9_next_pads_three_character_prefix :
  forall (c : ProductCode.t) (z : Z),
    Spec.wellFormed (ProductCode.toString c) ->
    JS.length (ProductCode.getPrefix c) = 3%nat ->
    ProductCode.getSequence c = JS.Int z ->
    z < 999999 ->
    exists c' : ProductCode.t,
      ProductCode.next c = Errors.Return c' /\
      ProductCode.getPrefix c' = (ProductCode.getPrefix c ++ "X")%string /\
      ProductCode.getPrefix c' <> ProductCode.getPrefix c /\
      ProductCode.getSequence c' = JS.Int (z + 1) /\
      ProductCode.isSequential c c' = false.
Proof.
  intros c z Hwf Hlen Hseq Hz.
  destruct (wellFormed_parts c Hwf) as (q & Hc & Lp & Ap & Lq & Aq & Hsuf).
  set (p := ProductCode.getPrefix c) in *.
  assert (0 <= z) as Hz0.
  { unfold ProductCode.getSequence in Hseq. rewrite Hsuf in Hseq.
    apply (parseInt_upperAlnum_nonneg q z Aq Hseq). }
  assert (p <> "") as Hne by (intros E; rewrite E in Hlen; discriminate).
  assert (ProductCode.next c
          = Errors.Return (ProductCode.new (IProductCodeSchemaValueObject.mk
              ((p ++ "X") ++ "-" ++ JS.padStart 6 "0" (JS.toString (JS.Int (z + 1))))))) as Hnext.
  { unfold ProductCode.next. rewrite Hseq. fold p. cbn [JS.add].
    rewrite generate_in_range by (lia || (apply upperAlnum_notBlank; assumption)).
    rewrite (prefixOf_three p Ap Hlen). reflexivity. }
  assert (JS.all JS.isUpperAlnum (p ++ "X")%string = true) as ApX.
  { rewrite all_app, Ap. reflexivity. }
  destruct (isPadded6_padStart (z + 1) ltac:(lia)) as (Ls & As & Hparse).
  assert (JS.all JS.isUpperAlnum (JS.padStart 6 "0" (JS.toString (JS.Int (z + 1)))) = true)
    as AsU by (apply (all_impl JS.isDigit); [apply digit_upperAlnum|exact As]).
  eexists. split; [exact Hnext|].
  rewrite (getPrefix_parts _ _ ApX).
  split; [reflexivity|]. split.
  { intros E. apply (f_equal JS.length) in E. rewrite length_app_s in E.
    change (JS.length "X") with 1%nat in E. lia. }
  split.
  { unfold ProductCode.getSequence, ProductCode.getSuffix, ProductCode.value.
    cbn [ProductCode._entity IProductCodeSchemaValueObject.code].
    rewrite (split_parts _ _ ApX AsU). cbn [nth_error]. exact Hparse. }
  unfold ProductCode.isSequential. rewrite (getPrefix_parts _ _ ApX). fold p.
  rewrite eqb_app_X. reflexivity.
Qed.

Lemma C9_witness :
  let c := ProductCode.new (IProductCodeSchemaValueObject.mk "LAP-001") in
  Spec.wellFormed (ProductCode.toString c) /\
  JS.length (ProductCode.getPrefix c) = 3%nat /\
  ProductCode.getSequence c = JS.Int 1 /\
  1 < 999999 /\
  exists c' : ProductCode.t,
    ProductCode.next c = Errors.Return c' /\
    ProductCode.getPrefix c' = (ProductCode.getPrefix c ++ "X")%string /\
    ProductCode.getPrefix c' <> ProductCode.getPrefix c /\
    ProductCode.getSequence c' = JS.Int (1 + 1) /\
    ProductCode.isSequential c c' = false.
Proof.
  intros c.
  assert (Spec.wellFormed (ProductCode.toString c)) as Hwf.
  { exists "LAP", "001". repeat split; vm_compute; try reflexivity; lia. }
  assert (JS.length (ProductCode.getPrefix c) = 3%nat) as Hlen by reflexivity.
  assert (ProductCode.getSequence c = JS.Int 1) as Hseq by reflexivity.
  assert (1 < 999999) as Hlt by lia.
  repeat (split; [assumption|]).
  exact (C9_next_pads_three_character_prefix c 1 Hwf Hlen Hseq Hlt).
Defined.

(* ================================================================== *)
(** ** [Price] *)
(* ================================================================== *)

#[local] Set Warnings "-inexact-float".

Section PriceFacts.
Import Errors.

Lemma Price_create_outcome (amount : float) (currency : option string) :
  Price.create amount currency
  = if negb (JS.includes Price.SUPPORTED_CURRENCIES (JS.toUpperCase (default "USD" currency)))
    then Throw (Error [JS.Lit ("Invalid currency: " ++ default "USD" currency
                               ++ ". Supported currencies: USD, EUR, GBP, MXN, CAD, AUD")])
    else if PrimFloat.ltb amount 0%float
    then Throw (Error [JS.Lit "Price amount cannot be negative. Received: "; JS.Num amount])
    else if negb (JS.Number_isFinite amount)
    then Throw (Error [JS.Lit "Price amount must be a valid number. Received: "; JS.Num amount])
    else Return (Price.new (IPriceSchemaValueObject.mk
                   (Price.roundToDecimals amount 2)
                   (JS.toUpperCase (default "USD" currency)))).
Proof.
  unfold Price.create, Price.MIN_AMOUNT, Price.MAX_DECIMALS.
  destruct (JS.includes Price.SUPPORTED_CURRENCIES (JS.toUpperCase (default "USD" currency)));
    [|reflexivity].
  destruct (PrimFloat.ltb amount 0%float); [reflexivity|].
  destruct (JS.Number_isFinite amount); reflexivity.
Qed.

End PriceFacts.

Section RoundingFacts.




End RoundingFacts.




(** Rounding to two decimals on some amounts. *)
Example Price_rounding_examples :
  Price.roundToDecimals 19.999%float 2 = 20%float /\
  Price.roundToDecimals 10.004%float 2 = 10%float /\
  Price.roundToDecimals 0.125%float 2 = 0.13%float /\
  Price.roundToDecimals 2.675%float 2 = 2.68%float /\
  Price.roundToDecimals 1.005%float 2 = 1%float /\
  Price.roundToDecimals 1500%float 2 = 1500%float.
Proof. repeat split; vm_compute; reflexivity. Qed.

(* ================================================================== *)
(** ** [Product] *)
(* ================================================================== *)

Section ProductFacts.
Import Errors Runtime.

(** [Product.create], check by check. *)
Lemma Product_create_outcome (id name description : string) (price : float)
    (stock : JS.number) (sku categoryId : string) (w : World) :
  Product.create id name description price stock sku categoryId w
  = if JS.isBlank name
    then (w, Throw (Error (JS.lit "Product name cannot be empty")))
    else if PrimFloat.ltb price 0%float
    then (w, Throw (Error (JS.lit "Product price cannot be negative")))
    else if JS.lt stock (JS.Int 0)
    then (w, Throw (Error (JS.lit "Product stock cannot be negative")))
    else if JS.isBlank sku
    then (w, Throw (Error (JS.lit "Product SKU cannot be empty")))
    else
      let e := IProductSchema.mk id (JS.trim name) (JS.trim description) price stock
                 (JS.toUpperCase (JS.trim sku)) categoryId true (nowOf w) (nowOf w) in
      (afterConstruction w e, Return (Product.mk e)).
Proof.
  unfold Product.create, bind, throwIf.
  destruct (JS.isBlank name); [reflexivity|].
  destruct (PrimFloat.ltb price 0%float); [reflexivity|].
  destruct (JS.lt stock (JS.Int 0)); [reflexivity|].
  destruct (JS.isBlank sku); reflexivity.
Qed.

Lemma Product_updateStock_outcome (this : Product.t) (newStock : JS.number) (w : World) :
  Product.updateStock this newStock w
  = if JS.lt newStock (JS.Int 0)
    then (w, Throw (Error (JS.lit "Product stock cannot be negative")))
    else
      let e := IProductSchema.withStock (Product._entity this) newStock (nowOf w) in
      (afterConstruction w e, Return (Product.mk e)).
Proof.
  unfold Product.updateStock, bind, throwIf.
  destruct (JS.lt newStock (JS.Int 0)); reflexivity.
Qed.

Lemma Product_incrementStock_outcome (this : Product.t) (amount : JS.number) (w : World) :
  Product.incrementStock this amount w
  = if JS.le amount (JS.Int 0)
    then (w, Throw (Error (JS.lit "Stock increment amount must be positive")))
    else Product.updateStock this (JS.add (Product.stock this) amount) w.
Proof.
  unfold Product.incrementStock, bind, throwIf.
  destruct (JS.le amount (JS.Int 0)); reflexivity.
Qed.

Lemma Product_decrementStock_outcome (this : Product.t) (amount : JS.number) (w : World) :
  Product.decrementStock this amount w
  = if JS.le amount (JS.Int 0)
    then (w, Throw (Error (JS.lit "Stock decrement amount must be positive")))
    else if JS.lt (JS.sub (Product.stock this) amount) (JS.Int 0)
    then (w, Throw (Error (JS.lit "Insufficient stock")))
    else Product.updateStock this (JS.sub (Product.stock this) amount) w.
Proof.
  unfold Product.decrementStock, bind, throwIf.
  destruct (JS.le amount (JS.Int 0)); [reflexivity|].
  destruct (JS.lt (JS.sub (Product.stock this) amount) (JS.Int 0)); reflexivity.
Qed.

Lemma Product_updateCategory_outcome (this : Product.t) (newCategoryId : string) (w : World) :
  Product.updateCategory this newCategoryId w
  = if JS.isBlank newCategoryId
    then (w, Throw (Error (JS.lit "Category ID cannot be empty")))
    else
      let e := IProductSchema.withCategoryId (Product._entity this)
                 (JS.trim newCategoryId) (nowOf w) in
      (afterConstruction w e, Return (Product.mk e)).
Proof.
  unfold Product.updateCategory, bind, throwIf.
  destruct (JS.isBlank newCategoryId); reflexivity.
Qed.

(** Adding a positive amount to a valid stock gives a valid stock. *)
Lemma add_positive_valid (stock amount : JS.number) :
  Spec.stockValid stock -> JS.gt amount (JS.Int 0) = true ->
  JS.le amount (JS.Int 0) = false /\ JS.lt (JS.add stock amount) (JS.Int 0) = false.
Proof.
  unfold Spec.stockValid, JS.gt, JS.lt, JS.le, JS.add.
  destruct stock as [s|], amount as [a|]; try discriminate; intros Hs Ha.
  - apply Z.ltb_ge in Hs. apply Z.ltb_lt in Ha. split; [apply Z.leb_gt|apply Z.ltb_ge]; lia.
  - apply Z.ltb_lt in Ha. split; [apply Z.leb_gt; lia|reflexivity].
Qed.

End ProductFacts.

(** C3, as the code has it.  [Product.create], for a name and a SKU
    written in ASCII, runs its checks in the order name, price, stock,
    sku, and the first check that fails decides the error: a plain
    [Error] with the message of that check, thrown before anything is
    constructed.  It is never an [InvalidProductDataError], the class
    that has the factories [forEmptyField] and [forNegativeValue] for
    such checks and that the handlers [create] and [update] of the
    controller answer with 400. *)
Theorem C3_create_checks_in_order_plain_error :
  forall (w : Runtime.World) (id name description : string) (price : float)
         (stock : JS.number) (sku categoryId : string),
    Range.isASCII name = true ->
    Range.isASCII sku = true ->
    match Product.create id name description price stock sku categoryId w with
    | (_, Errors.Return _) =>
        JS.isBlank name = false /\ PrimFloat.ltb price 0%float = false /\
        JS.lt stock (JS.Int 0) = false /\ JS.isBlank sku = false
    | (w', Errors.Throw e) =>
        w' = w /\ Errors.isInvalidProductDataError e = false /\
        ((JS.isBlank name = true /\
          e = Errors.Error (JS.lit "Product name cannot be empty")) \/
         (JS.isBlank name = false /\ PrimFloat.ltb price 0%float = true /\
          e = Errors.Error (JS.lit "Product price cannot be negative")) \/
         (JS.isBlank name = false /\ PrimFloat.ltb price 0%float = false /\
          JS.lt stock (JS.Int 0) = true /\
          e = Errors.Error (JS.lit "Product stock cannot be negative")) \/
         (JS.isBlank name = false /\ PrimFloat.ltb price 0%float = false /\
          JS.lt stock (JS.Int 0) = false /\ JS.isBlank sku = true /\
          e = Errors.Error (JS.lit "Product SKU cannot be empty")))
    end.
Proof.
  intros w id name description price stock sku categoryId _ _.
  rewrite Product_create_outcome.
  destruct (JS.isBlank name); [intuition auto|].
  destruct (PrimFloat.ltb price 0%float); [intuition auto|].
  destruct (JS.lt stock (JS.Int 0)); [intuition auto|].
  destruct (JS.isBlank sku); [|cbv zeta]; intuition auto 10.
Qed.

(** A name of three spaces is rejected with the plain [Error] of the
    first check; so is an input that fails all four checks; an input
    that fails the checks of the stock and of the SKU is rejected for
    its stock. *)
Lemma C3_witness :
  Range.isASCII "   " = true /\ Range.isASCII "mse-002" = true /\
  Product.create "p-2" "   " "x" 20%float (JS.Int 5) "mse-002" "electronics" Example.world
  = (Example.world, Errors.Throw (Errors.Error (JS.lit "Product name cannot be empty"))) /\
  Errors.isInvalidProductDataError (Errors.Error (JS.lit "Product name cannot be empty"))
  = false /\
  Range.isASCII "" = true /\
  Product.create "p-2" "" "x" (-1)%float (JS.Int (-1)) "" "electronics" Example.world
  = (Example.world, Errors.Throw (Errors.Error (JS.lit "Product name cannot be empty"))) /\
  Range.isASCII "Mouse" = true /\ Range.isASCII " " = true /\
  Product.create "p-2" "Mouse" "x" 20%float (JS.Int (-1)) " " "electronics" Example.world
  = (Example.world, Errors.Throw (Errors.Error (JS.lit "Product stock cannot be negative"))).
Proof.
  assert (Range.isASCII "   " = true) as H1 by reflexivity.
  assert (Range.isASCII "mse-002" = true) as H2 by reflexivity.
  assert (Range.isASCII "" = true) as H3 by reflexivity.
  assert (Range.isASCII "Mouse" = true) as H4 by reflexivity.
  assert (Range.isASCII " " = true) as H5 by reflexivity.
  pose proof (C3_create_checks_in_order_plain_error Example.world "p-2" "   " "x" 20%float
                (JS.Int 5) "mse-002" "electronics" H1 H2) as T1.
  pose proof (C3_create_checks_in_order_plain_error Example.world "p-2" "" "x" (-1)%float
                (JS.Int (-1)) "" "electronics" H3 H3) as T2.
  pose proof (C3_create_checks_in_order_plain_error Example.world "p-2" "Mouse" "x" 20%float
                (JS.Int (-1)) " " "electronics" H4 H5) as T3.
  split; [exact H1|]. split; [exact H2|].
  destruct (Product.create "p-2" "   " "x" 20%float (JS.Int 5) "mse-002" "electronics"
              Example.world) as [w1 [p1|e1]] eqn:E1;
    [rewrite Product_create_outcome in E1; discriminate E1|].
  destruct T1 as (-> & K1 & [[_ ->]|[[B _]|[[B _]|[B _]]]]); try discriminate B.
  split; [reflexivity|]. split; [exact K1|]. split; [exact H3|].
  destruct (Product.create "p-2" "" "x" (-1)%float (JS.Int (-1)) "" "electronics"
              Example.world) as [w2 [p2|e2]] eqn:E2;
    [rewrite Product_create_outcome in E2; discriminate E2|].
  destruct T2 as (-> & _ & [[_ ->]|[[B _]|[[B _]|[B _]]]]); try discriminate B.
  split; [reflexivity|]. split; [exact H4|]. split; [exact H5|].
  destruct (Product.create "p-2" "Mouse" "x" 20%float (JS.Int (-1)) " " "electronics"
              Example.world) as [w3 [p3|e3]] eqn:E3;
    [rewrite Product_create_outcome in E3; discriminate E3|].
  destruct T3 as (-> & _ & [[B _]|[(_ & B & _)|[(_ & _ & _ & ->)|(_ & _ & B & _)]]]);
    try discriminate B.
  reflexivity.
Defined.

(** C5.  For a product whose stock is the integer [S >= 0] and an
    integer amount [n > 0], with [S + n] a safe integer,
    [incrementStock(n)] returns a new instance whose stock is [S + n];
    its other fields, [updatedAt] apart, are those of the original.
    The original keeps its stock: the new instance is added to the
    instances built so far, every one of which is left as it was, and
    the table is not touched. *)
Theorem C5_incrementStock_returns_new_instance :
  forall (w : Runtime.World) (this : Product.t) (S n : Z),
    Product.stock this = JS.Int S ->
    0 <= S -> 0 < n -> S + n <= Range.MAX_SAFE_INTEGER ->
    exists (w' : Runtime.World) (p : Product.t),
      Product.incrementStock this (JS.Int n) w = (w', Errors.Return p) /\
      Product.stock p = JS.Int (S + n) /\
      Range.isSafeInteger (Product.stock p) = true /\
      Product.stock this = JS.Int S /\
      Product.id p = Product.id this /\
      Product.name p = Product.name this /\
      Product.description p = Product.description this /\
      Product.price p = Product.price this /\
      Product.sku p = Product.sku this /\
      Product.categoryId p = Product.categoryId this /\
      Product.isActive p = Product.isActive this /\
      Product.createdAt p = Product.createdAt this /\
      Product.updatedAt p = nowOf w /\
      Runtime.constructed w' = (Runtime.constructed w ++ [Product._entity p])%list /\
      (forall (i : nat) (e : IProductSchema.t),
         Runtime.constructed w !! i = Some e -> Runtime.constructed w' !! i = Some e) /\
      Runtime.products w' = Runtime.products w.
Proof.
  intros w this S n Hstock HS Hn Hsafe.
  assert (Spec.stockValid (Product.stock this)) as Hvalid.
  { unfold Spec.stockValid. rewrite Hstock. apply Z.ltb_ge, HS. }
  assert (JS.gt (JS.Int n) (JS.Int 0) = true) as Hpos by (apply Z.ltb_lt, Hn).
  destruct (add_positive_valid _ _ Hvalid Hpos) as [Hle Hlt].
  rewrite Product_incrementStock_outcome, Hle, Product_updateStock_outcome, Hlt.
  cbv zeta. eexists _, _. split; [reflexivity|].
  split; [cbn; rewrite Hstock; reflexivity|].
  split.
  { cbn. rewrite Hstock. cbn [JS.add Range.isSafeInteger].
    unfold Range.MAX_SAFE_INTEGER in *. apply andb_true_iff. split; apply Z.leb_le; lia. }
  split; [exact Hstock|].
  repeat split.
  intros i e Hi. cbn [afterConstruction Runtime.constructed].
  apply lookup_app_l_Some, Hi.
Qed.

(** The stock 5 incremented by 3. *)
Lemma C5_witness :
  let this := Product.mk (schemaOf Example.mouse) in
  Product.stock this = JS.Int 5 /\
  0 <= 5 /\ 0 < 3 /\ 5 + 3 <= Range.MAX_SAFE_INTEGER /\
  exists (w' : Runtime.World) (p : Product.t),
    Product.incrementStock this (JS.Int 3) Example.world = (w', Errors.Return p) /\
    Product.stock p = JS.Int 8 /\
    Range.isSafeInteger (Product.stock p) = true /\
    Product.stock this = JS.Int 5 /\
    Product.id p = Product.id this /\
    Product.name p = Product.name this /\
    Product.description p = Product.description this /\
    Product.price p = Product.price this /\
    Product.sku p = Product.sku this /\
    Product.categoryId p = Product.categoryId this /\
    Product.isActive p = Product.isActive this /\
    Product.createdAt p = Product.createdAt this /\
    Product.updatedAt p = nowOf Example.world /\
    Runtime.constructed w' = (Runtime.constructed Example.world ++ [Product._entity p])%list /\
    (forall (i : nat) (e : IProductSchema.t),
       Runtime.constructed Example.world !! i = Some e ->
       Runtime.constructed w' !! i = Some e) /\
    Runtime.products w' = Runtime.products Example.world.
Proof.
  intros this.
  assert (Product.stock this = JS.Int 5) as H1 by reflexivity.
  assert (0 <= 5) as H2 by lia.
  assert (0 < 3) as H3 by lia.
  assert (5 + 3 <= Range.MAX_SAFE_INTEGER) as H4 by (vm_compute; discriminate).
  split; [exact H1|]. split; [exact H2|]. split; [exact H3|]. split; [exact H4|].
  exact (C5_incrementStock_returns_new_instance Example.world this 5 3 H1 H2 H3 H4).
Defined.

(** The stock of a product made by [create] is valid. *)
Lemma create_stock_valid (w w' : Runtime.World) (id name description : string)
    (price : float) (stock : JS.number) (sku categoryId : string) (p : Product.t) :
  Product.create id name description price stock sku categoryId w = (w', Errors.Return p) ->
  Spec.stockValid (Product.stock p).
Proof.
  rewrite Product_create_outcome.
  destruct (JS.isBlank name); [discriminate|].
  destruct (PrimFloat.ltb price 0%float); [discriminate|].
  destruct (JS.lt stock (JS.Int 0)) eqn:Hs; [discriminate|].
  destruct (JS.isBlank sku); [discriminate|].
  cbv zeta. intros [= _ <-]. exact Hs.
Qed.

Section PaddingFacts.

Lemma trimStart_white (left rest : string) :
  JS.all JS.isWhiteSpace left = true -> JS.trimStart (left ++ rest) = JS.trimStart rest.
Proof.
  induction left as [|c left IH]; intros H; [reflexivity|].
  rewrite all_cons in H. apply andb_true_iff in H as [Hc Hl].
  rewrite app_cons_s. cbn [JS.trimStart]. rewrite Hc. apply IH, Hl.
Qed.

Lemma trimEnd_white (right : string) :
  JS.all JS.isWhiteSpace right = true -> JS.trimEnd right = "".
Proof.
  induction right as [|c right IH]; intros H; [reflexivity|].
  rewrite all_cons in H. apply andb_true_iff in H as [Hc Hr].
  cbn [JS.trimEnd]. rewrite (IH Hr), Hc. reflexivity.
Qed.

Lemma trimEnd_core (c : ascii) (r right : string) :
  notWhite (lastChar c r) = true -> JS.all JS.isWhiteSpace right = true ->
  JS.trimEnd (String c r ++ right) = String c r.
Proof.
  revert c. induction r as [|d r IH]; intros c Hlast Hright.
  - rewrite app_cons_s, app_nil_s. cbn [JS.trimEnd]. rewrite (trimEnd_white right Hright).
    cbn [lastChar] in Hlast. unfold notWhite in Hlast.
    destruct (JS.isWhiteSpace c); [discriminate Hlast|reflexivity].
  - rewrite app_cons_s. cbn [JS.trimEnd]. cbn [lastChar] in Hlast.
    rewrite (IH d Hlast Hright). reflexivity.
Qed.

(** Trimming takes the white space off both ends and nothing else. *)
Lemma trim_padded (left core right : string) :
  JS.all JS.isWhiteSpace left = true -> JS.all JS.isWhiteSpace right = true ->
  isCore core = true ->
  JS.trim (left ++ core ++ right) = core /\ JS.isBlank (left ++ core ++ right) = false.
Proof.
  intros Hl Hr Hcore.
  assert (JS.trim (left ++ core ++ right) = core) as Ht.
  { unfold JS.trim. rewrite (trimStart_white left _ Hl).
    destruct core as [|c r]; [discriminate Hcore|].
    cbn [isCore] in Hcore. apply andb_true_iff in Hcore as [Hc Hlast].
    rewrite app_cons_s. cbn [JS.trimStart]. unfold notWhite in Hc.
    destruct (JS.isWhiteSpace c); [discriminate Hc|].
    rewrite <- app_cons_s. apply trimEnd_core; assumption. }
  split; [exact Ht|]. apply isBlank_false. rewrite Ht.
  destruct core; [discriminate Hcore|discriminate].
Qed.

Lemma blank_white (blank : string) :
  JS.all JS.isWhiteSpace blank = true -> JS.isBlank blank = true.
Proof.
  intros H. apply isBlank_trim. unfold JS.trim.
  rewrite <- (app_s_nil blank), (trimStart_white blank "" H). reflexivity.
Qed.

End PaddingFacts.

(** C10.  [Product.create] puts no condition on [categoryId]: when
    name, price, stock and sku pass their checks it succeeds for every
    [categoryId], the empty string and white space included, and
    stores it as given.  [updateCategory] throws on a [categoryId] that
    is empty or made of white space only, and constructs nothing; of a
    [categoryId] that has white space around a text, it stores the
    text.  Texts are ASCII. *)
Theorem C10_categoryId_checked_on_update_only :
  forall (w : Runtime.World) (id name description : string) (price : float)
         (stock : JS.number) (sku categoryId : string) (this : Product.t)
         (blank left core right : string),
    Range.isASCII name = true -> Range.isASCII sku = true ->
    JS.isBlank name = false ->
    PrimFloat.ltb price 0%float = false ->
    JS.lt stock (JS.Int 0) = false ->
    JS.isBlank sku = false ->
    JS.all JS.isWhiteSpace blank = true ->
    JS.all JS.isWhiteSpace left = true ->
    JS.all JS.isWhiteSpace right = true ->
    Range.isASCII core = true -> isCore core = true ->
    (exists w' p,
       Product.create id name description price stock sku categoryId w
       = (w', Errors.Return p) /\
       Product.categoryId p = categoryId) /\
    (exists w' p,
       Product.create id name description price stock sku blank w = (w', Errors.Return p) /\
       Product.categoryId p = blank) /\
    Product.updateCategory this blank w
    = (w, Errors.Throw (Errors.Error (JS.lit "Category ID cannot be empty"))) /\
    (exists w' p,
       Product.updateCategory this (left ++ core ++ right) w = (w', Errors.Return p) /\
       Product.categoryId p = core /\
       Runtime.constructed w' = (Runtime.constructed w ++ [Product._entity p])%list).
Proof.
  intros w id name description price stock sku categoryId this blank left core right
    _ _ Hname Hprice Hstock Hsku Hblank Hleft Hright _ Hcore.
  split; [|split; [|split]].
  - rewrite Product_create_outcome, Hname, Hprice, Hstock, Hsku.
    cbv zeta. eexists _, _. split; reflexivity.
  - rewrite Product_create_outcome, Hname, Hprice, Hstock, Hsku.
    cbv zeta. eexists _, _. split; reflexivity.
  - rewrite Product_updateCategory_outcome, (blank_white blank Hblank). reflexivity.
  - destruct (trim_padded left core right Hleft Hright Hcore) as [Ht Hb].
    rewrite Product_updateCategory_outcome, Hb. cbv zeta. rewrite Ht.
    eexists _, _. split; [reflexivity|]. split; reflexivity.
Qed.

(** A product created with two spaces for its category; the same two
    spaces refused by [updateCategory]; and a category between spaces
    and a tab stored without them. *)
Lemma C10_witness :
  let this := Product.mk (schemaOf Example.mouse) in
  let tab := String (ascii_of_nat 9) "" in
  Range.isASCII "Mouse" = true /\ Range.isASCII "mse-001" = true /\
  JS.isBlank "Mouse" = false /\
  PrimFloat.ltb 20%float 0%float = false /\
  JS.lt (JS.Int 5) (JS.Int 0) = false /\
  JS.isBlank "mse-001" = false /\
  JS.all JS.isWhiteSpace "  " = true /\
  JS.all JS.isWhiteSpace " " = true /\
  JS.all JS.isWhiteSpace (" " ++ tab) = true /\
  Range.isASCII "home office" = true /\ isCore "home office" = true /\
  (exists w' p,
     Product.create "p-2" "Mouse" "x" 20%float (JS.Int 5) "mse-001" "" Example.world
     = (w', Errors.Return p) /\
     Product.categoryId p = "") /\
  (exists w' p,
     Product.create "p-2" "Mouse" "x" 20%float (JS.Int 5) "mse-001" "  " Example.world
     = (w', Errors.Return p) /\
     Product.categoryId p = "  ") /\
  Product.updateCategory this "  " Example.world
  = (Example.world, Errors.Throw (Errors.Error (JS.lit "Category ID cannot be empty"))) /\
  (exists w' p,
     Product.updateCategory this (" " ++ "home office" ++ (" " ++ tab)) Example.world
     = (w', Errors.Return p) /\
     Product.categoryId p = "home office" /\
     Runtime.constructed w'
     = (Runtime.constructed Example.world ++ [Product._entity p])%list).
Proof.
  intros this tab.
  assert (Range.isASCII "Mouse" = true) as A1 by reflexivity.
  assert (Range.isASCII "mse-001" = true) as A2 by reflexivity.
  assert (JS.isBlank "Mouse" = false) as H1 by reflexivity.
  assert (PrimFloat.ltb 20%float 0%float = false) as H2 by reflexivity.
  assert (JS.lt (JS.Int 5) (JS.Int 0) = false) as H3 by reflexivity.
  assert (JS.isBlank "mse-001" = false) as H4 by reflexivity.
  assert (JS.all JS.isWhiteSpace "  " = true) as H5 by reflexivity.
  assert (JS.all JS.isWhiteSpace " " = true) as H6 by reflexivity.
  assert (JS.all JS.isWhiteSpace (" " ++ tab) = true) as H7 by reflexivity.
  assert (Range.isASCII "home office" = true) as A3 by reflexivity.
  assert (isCore "home office" = true) as H8 by reflexivity.
  repeat (split; [assumption|]).
  exact (C10_categoryId_checked_on_update_only Example.world "p-2" "Mouse" "x" 20%float
           (JS.Int 5) "mse-001" "" this "  " " " "home office" (" " ++ tab)
           A1 A2 H1 H2 H3 H4 H5 H6 H7 A3 H8).
Defined.

(* ================================================================== *)
(** ** The use cases *)
(* ================================================================== *)

(** Run the plumbing of a computation: binds, throws, records. *)
Ltac run :=
  unfold Runtime.bind, Runtime.ret, Runtime.throw, Runtime.throwIf, Runtime.recordCall,
    Runtime.getProducts, Runtime.putProducts, Runtime.recordConstructed, Runtime.newDate,
    Runtime.randomUUID, Runtime.lift, Runtime.tryCatch;
  cbn [Runtime.products Runtime.clock Runtime.clockReads Runtime.uuids Runtime.uuidReads
       Runtime.constructed Runtime.calls].

Section RepositoryFacts.
Import Errors Runtime.

Lemma findById_found (w : World) (id : string) (row : ProductEntity.t) :
  products w !! id = Some row ->
  ProductRepository.findById id w
  = (afterFind w id row, Return (Some (Product.mk (schemaOf row)))).
Proof.
  intros H. unfold ProductRepository.findById, ProductRepository.toDomain,
    Product.createFromPersistence, Product.new. run. rewrite H. reflexivity.
Qed.

Lemma findById_missing (w : World) (id : string) :
  products w !! id = None ->
  ProductRepository.findById id w = (afterCall w (CallFindById id), Return None).
Proof.
  intros H. unfold ProductRepository.findById. run. rewrite H. reflexivity.
Qed.

(** A row that carries the code makes the count positive. *)
Lemma countBySku_positive (table : gmap string ProductEntity.t) (id sku : string)
    (row : ProductEntity.t) :
  table !! id = Some row -> ProductEntity.sku row = sku ->
  (0 <? ProductRepository.countBySku sku table)%nat = true.
Proof.
  intros Hrow Hsku. unfold ProductRepository.countBySku, ProductRepository.rows.
  assert (In row (List.filter (fun e => String.eqb (ProductEntity.sku e) sku)
                    (snd <$> map_to_list table))) as Hin.
  { apply filter_In. split.
    - apply list_elem_of_In, list_elem_of_fmap. exists (id, row). split; [reflexivity|].
      apply elem_of_map_to_list, Hrow.
    - rewrite Hsku. apply String.eqb_refl. }
  destruct (List.filter _ _) as [|x l]; [destruct Hin|reflexivity].
Qed.

Lemma existsBySku_found (w : World) (sku id : string) (row : ProductEntity.t) :
  products w !! id = Some row -> ProductEntity.sku row = JS.toUpperCase sku ->
  ProductRepository.existsBySku sku w = (afterCall w (CallExistsBySku sku), Return true).
Proof.
  intros Hrow Hsku. unfold ProductRepository.existsBySku. run.
  rewrite (countBySku_positive _ id _ row Hrow Hsku). reflexivity.
Qed.

End RepositoryFacts.

(** C4.  When a row of the table carries the code of the input (the
    repository compares the upper-cased code), [CreateProductUseCase]
    throws [DuplicateProductCodeError] after the single call
    [existsBySku]: no [Product] has been constructed, no identifier
    drawn, [create] has not been called on the repository and the table
    is as it was. *)
Theorem C4_duplicate_sku_rejected_before_construction :
  forall (w : Runtime.World) (input : ICreateProductDTO.t) (id : string)
         (row : ProductEntity.t),
    Runtime.products w !! id = Some row ->
    ProductEntity.sku row = JS.toUpperCase (ICreateProductDTO.sku input) ->
    exists w' : Runtime.World,
      CreateProductUseCase.execute input w
      = (w', Errors.Throw (Errors.DuplicateProductCodeError (ICreateProductDTO.sku input) "sku")) /\
      Runtime.constructed w' = Runtime.constructed w /\
      Runtime.calls w' = (Runtime.calls w
                          ++ [Runtime.CallExistsBySku (ICreateProductDTO.sku input)])%list /\
      existsb isCallCreate (Runtime.calls w') = existsb isCallCreate (Runtime.calls w) /\
      Runtime.uuidReads w' = Runtime.uuidReads w /\
      Runtime.products w' = Runtime.products w.
Proof.
  intros w input id row Hrow Hsku.
  exists (afterCall w (Runtime.CallExistsBySku (ICreateProductDTO.sku input))).
  unfold CreateProductUseCase.execute, Runtime.bind.
  rewrite (existsBySku_found w _ id row Hrow Hsku). cbn [Runtime.throwIf Runtime.throw].
  repeat split. cbn [afterCall Runtime.calls].
  rewrite existsb_app. cbn [existsb isCallCreate]. rewrite !orb_false_r. reflexivity.
Qed.

Lemma C4_witness :
  let input := ICreateProductDTO.mk "Mouse 2" "y" 25%float (JS.Int 1) "mse-001" "electronics" in
  Runtime.products Example.world !! "p-1" = Some Example.mouse /\
  ProductEntity.sku Example.mouse = JS.toUpperCase (ICreateProductDTO.sku input) /\
  exists w' : Runtime.World,
    CreateProductUseCase.execute input Example.world
    = (w', Errors.Throw (Errors.DuplicateProductCodeError (ICreateProductDTO.sku input) "sku")) /\
    Runtime.constructed w' = Runtime.constructed Example.world /\
    Runtime.calls w' = (Runtime.calls Example.world
                        ++ [Runtime.CallExistsBySku (ICreateProductDTO.sku input)])%list /\
    existsb isCallCreate (Runtime.calls w')
    = existsb isCallCreate (Runtime.calls Example.world) /\
    Runtime.uuidReads w' = Runtime.uuidReads Example.world /\
    Runtime.products w' = Runtime.products Example.world.
Proof.
  intros input.
  assert (Runtime.products Example.world !! "p-1" = Some Example.mouse) as Hrow
    by (vm_compute; reflexivity).
  assert (ProductEntity.sku Example.mouse = JS.toUpperCase (ICreateProductDTO.sku input))
    as Hsku by reflexivity.
  split; [exact Hrow|]. split; [exact Hsku|].
  exact (C4_duplicate_sku_rejected_before_construction
           Example.world input "p-1" Example.mouse Hrow Hsku).
Defined.

Section UpdateStockFacts.
Import Errors Runtime.

(** A quantity above the stock: the quantity is positive when the
    stock is valid, and the difference is negative. *)
Lemma quantity_above_stock (stock quantity : JS.number) :
  JS.gt quantity stock = true ->
  JS.lt (JS.sub stock quantity) (JS.Int 0) = true.
Proof.
  unfold JS.gt, JS.lt, JS.sub. destruct stock as [s|], quantity as [q|]; try discriminate.
  intros H%Z.ltb_lt. apply Z.ltb_lt. lia.
Qed.

Lemma updateStock_execute_decrement_above (w : World) (input : IUpdateStockInput.t)
    (row : ProductEntity.t) :
  products w !! IUpdateStockInput.productId input = Some row ->
  IUpdateStockInput.operation input = IUpdateStockInput.decrement ->
  JS.gt (IUpdateStockInput.quantity input) (ProductEntity.stock row) = true ->
  UpdateStockUseCase.execute input w
  = (afterFind w (IUpdateStockInput.productId input) row,
     Throw (if JS.le (IUpdateStockInput.quantity input) (JS.Int 0)
            then forNegativeValue "quantity" (IUpdateStockInput.quantity input)
            else Error (JS.lit "Insufficient stock"))).
Proof.
  intros Hrow Hop Habove. unfold UpdateStockUseCase.execute, bind at 1.
  rewrite (findById_found w _ row Hrow). unfold bind at 1, throwIf.
  destruct (JS.le (IUpdateStockInput.quantity input) (JS.Int 0)) eqn:Hq; [reflexivity|].
  unfold ret at 1. unfold bind at 1, tryCatch. rewrite Hop.
  rewrite Product_decrementStock_outcome, Hq.
  change (Product.stock (Product.mk (schemaOf row))) with (ProductEntity.stock row).
  rewrite (quantity_above_stock _ _ Habove). reflexivity.
Qed.

End UpdateStockFacts.

(** C1.  A decrement by a quantity above the (valid) stock makes
    [UpdateStockUseCase] throw, after [findById] alone: [updateStock]
    is not called on the repository and the table is as it was.  But
    the error thrown is the plain [Error] of the entity, not an
    [InsufficientStockError]. *)
Theorem C1_decrement_above_stock_throws_plain_error :
  forall (w : Runtime.World) (input : IUpdateStockInput.t) (row : ProductEntity.t),
    Runtime.products w !! IUpdateStockInput.productId input = Some row ->
    IUpdateStockInput.operation input = IUpdateStockInput.decrement ->
    Spec.stockValid (ProductEntity.stock row) ->
    JS.gt (IUpdateStockInput.quantity input) (ProductEntity.stock row) = true ->
    exists w' : Runtime.World,
      UpdateStockUseCase.execute input w
      = (w', Errors.Throw (Errors.Error (JS.lit "Insufficient stock"))) /\
      Errors.isInsufficientStockError (Errors.Error (JS.lit "Insufficient stock")) = false /\
      Runtime.calls w'
      = (Runtime.calls w ++ [Runtime.CallFindById (IUpdateStockInput.productId input)])%list /\
      existsb isCallUpdateStock (Runtime.calls w')
      = existsb isCallUpdateStock (Runtime.calls w) /\
      Runtime.products w' = Runtime.products w.
Proof.
  intros w input row Hrow Hop Hvalid Habove.
  exists (afterFind w (IUpdateStockInput.productId input) row).
  rewrite (updateStock_execute_decrement_above w input row Hrow Hop Habove).
  assert (JS.le (IUpdateStockInput.quantity input) (JS.Int 0) = false) as ->.
  { revert Hvalid Habove. unfold Spec.stockValid, JS.gt, JS.lt, JS.le.
    destruct (IUpdateStockInput.quantity input) as [q|], (ProductEntity.stock row) as [s|];
      try discriminate.
    intros Hs%Z.ltb_ge Hq%Z.ltb_lt. apply Z.leb_gt. lia. }
  repeat split. cbn [afterFind Runtime.calls].
  rewrite existsb_app. cbn [existsb isCallUpdateStock]. rewrite !orb_false_r. reflexivity.
Qed.

Lemma C1_witness :
  let input := IUpdateStockInput.mk "p-1" (JS.Int 10) IUpdateStockInput.decrement in
  Runtime.products Example.world !! IUpdateStockInput.productId input = Some Example.mouse /\
  IUpdateStockInput.operation input = IUpdateStockInput.decrement /\
  Spec.stockValid (ProductEntity.stock Example.mouse) /\
  JS.gt (IUpdateStockInput.quantity input) (ProductEntity.stock Example.mouse) = true /\
  exists w' : Runtime.World,
    UpdateStockUseCase.execute input Example.world
    = (w', Errors.Throw (Errors.Error (JS.lit "Insufficient stock"))) /\
    Errors.isInsufficientStockError (Errors.Error (JS.lit "Insufficient stock")) = false /\
    Runtime.calls w'
    = (Runtime.calls Example.world
       ++ [Runtime.CallFindById (IUpdateStockInput.productId input)])%list /\
    existsb isCallUpdateStock (Runtime.calls w')
    = existsb isCallUpdateStock (Runtime.calls Example.world) /\
    Runtime.products w' = Runtime.products Example.world.
Proof.
  intros input.
  assert (Runtime.products Example.world !! IUpdateStockInput.productId input
          = Some Example.mouse) as Hrow by (vm_compute; reflexivity).
  assert (IUpdateStockInput.operation input = IUpdateStockInput.decrement) as Hop
    by reflexivity.
  assert (Spec.stockValid (ProductEntity.stock Example.mouse)) as Hpos by reflexivity.
  assert (JS.gt (IUpdateStockInput.quantity input) (ProductEntity.stock Example.mouse) = true)
    as Habove by reflexivity.
  repeat (split; [assumption|]).
  exact (C1_decrement_above_stock_throws_plain_error
           Example.world input Example.mouse Hrow Hop Hpos Habove).
Defined.

(** The decrement that the stock covers goes through: with a stock of
    5, a decrement by 3 stores 2 and returns it. *)
Example updateStock_decrement_within_stock :
  exists w' dto,
    UpdateStockUseCase.execute
      (IUpdateStockInput.mk "p-1" (JS.Int 3) IUpdateStockInput.decrement) Example.world
    = (w', Errors.Return dto) /\
    IProductResponseDTO.stock dto = JS.Int 2 /\
    (ProductEntity.stock <$> Runtime.products w' !! "p-1") = Some (JS.Int 2) /\
    Runtime.calls w'
    = [Runtime.CallFindById "p-1"; Runtime.CallUpdateStock "p-1" (JS.Int 2)].
Proof.
  eexists _, _. split; [vm_compute; reflexivity|]. repeat split.
Qed.

Section UpdateProductFacts.
Import Errors Runtime.

(** The row that [update] writes for [product] over [row] at time
    [now]. *)
Lemma update_found (w : World) (id : string) (product : Product.t) (row : ProductEntity.t) :
  products w !! id = Some row ->
  exists w' : World,
    ProductRepository.update id product w
    = (w', Return (Product.mk (schemaOf (updatedRow row product (nowOf w))))) /\
    products w' = <[id := updatedRow row product (nowOf w)]> (products w) /\
    calls w' = (calls w ++ [CallUpdate id])%list.
Proof.
  intros H. unfold ProductRepository.update, ProductRepository.toDomain,
    Product.createFromPersistence, Product.new. run. rewrite H. run.
  rewrite lookup_insert_eq. eexists. split; [reflexivity|]. split; reflexivity.
Qed.

End UpdateProductFacts.

(** C2.  An update whose only field is [isActive] leaves the flag as it
    was: [UpdateProductUseCase] never reads [isActive] from its input,
    so the product it persists and returns keeps the stored value, also
    when the input asks for the opposite one.  (The other five fields
    are applied when present: see [updateProduct_applies_present_fields].) *)
Theorem C2_update_ignores_isActive :
  forall (w : Runtime.World) (id : string) (row : ProductEntity.t),
    Runtime.products w !! id = Some row ->
    exists (w' : Runtime.World) (dto : IProductResponseDTO.t),
      UpdateProductUseCase.execute
        (IUpdateProductInput.mk id
           (IUpdateProductDTO.mk None None None None None
              (Some (negb (ProductEntity.isActive row))))) w
      = (w', Errors.Return dto) /\
      IProductResponseDTO.isActive dto = ProductEntity.isActive row /\
      IProductResponseDTO.isActive dto <> negb (ProductEntity.isActive row) /\
      (ProductEntity.isActive <$> Runtime.products w' !! id)
      = Some (ProductEntity.isActive row).
Proof.
  intros w id row Hrow.
  unfold UpdateProductUseCase.execute. cbn [IUpdateProductInput.id IUpdateProductInput.data
    IUpdateProductDTO.name IUpdateProductDTO.description IUpdateProductDTO.price
    IUpdateProductDTO.stock IUpdateProductDTO.categoryId UpdateProductUseCase.ifDefined].
  unfold Runtime.bind at 1. rewrite (findById_found w id row Hrow).
  unfold Runtime.bind, Runtime.ret.
  destruct (update_found (afterFind w id row) id (Product.mk (schemaOf row)) row Hrow)
    as (w' & -> & Hproducts & _).
  eexists _, _. split; [reflexivity|].
  split; [reflexivity|]. split; [cbn; destruct (ProductEntity.isActive row); discriminate|].
  rewrite Hproducts, lookup_insert_eq. reflexivity.
Qed.

Lemma C2_witness :
  Runtime.products Example.world !! "p-1" = Some Example.mouse /\
  exists (w' : Runtime.World) (dto : IProductResponseDTO.t),
    UpdateProductUseCase.execute
      (IUpdateProductInput.mk "p-1"
         (IUpdateProductDTO.mk None None None None None
            (Some (negb (ProductEntity.isActive Example.mouse))))) Example.world
    = (w', Errors.Return dto) /\
    IProductResponseDTO.isActive dto = ProductEntity.isActive Example.mouse /\
    IProductResponseDTO.isActive dto <> negb (ProductEntity.isActive Example.mouse) /\
    (ProductEntity.isActive <$> Runtime.products w' !! "p-1")
    = Some (ProductEntity.isActive Example.mouse).
Proof.
  assert (Runtime.products Example.world !! "p-1" = Some Example.mouse) as Hrow
    by (vm_compute; reflexivity).
  split; [exact Hrow|].
  exact (C2_update_ignores_isActive Example.world "p-1" Example.mouse Hrow).
Defined.

Section PartialUpdate.
Import Errors Runtime.

Lemma Product_updateName_outcome (this : Product.t) (newName : string) (w : World) :
  Product.updateName this newName w
  = if JS.isBlank newName
    then (w, Throw (Error (JS.lit "Product name cannot be empty")))
    else
      let e := IProductSchema.withName (Product._entity this) (JS.trim newName) (nowOf w) in
      (afterConstruction w e, Return (Product.mk e)).
Proof.
  unfold Product.updateName, bind, throwIf. destruct (JS.isBlank newName); reflexivity.
Qed.

Lemma Product_updateDescription_outcome (this : Product.t) (newDescription : string)
    (w : World) :
  Product.updateDescription this newDescription w
  = let e := IProductSchema.withDescription (Product._entity this)
               (JS.trim newDescription) (nowOf w) in
    (afterConstruction w e, Return (Product.mk e)).
Proof. reflexivity. Qed.

Lemma Product_updatePrice_outcome (this : Product.t) (newPrice : float) (w : World) :
  Product.updatePrice this newPrice w
  = if PrimFloat.ltb newPrice 0%float
    then (w, Throw (Error (JS.lit "Product price cannot be negative")))
    else
      let e := IProductSchema.withPrice (Product._entity this) newPrice (nowOf w) in
      (afterConstruction w e, Return (Product.mk e)).
Proof.
  unfold Product.updatePrice, bind, throwIf. destruct (PrimFloat.ltb newPrice 0%float);
    reflexivity.
Qed.

(** One step of the use case: the next statement runs, and the rest
    runs on its result unless it threw. *)
Lemma bind_step {A B : Type} (m : M A) (k : A -> M B) (w : World) :
  bind m k w
  = match m w with
    | (w', Return a) => k a w'
    | (w', Throw e) => (w', Throw e)
    end.
Proof. reflexivity. Qed.

Ltac finish_update Hrow :=
  rewrite bind_step;
  match goal with
  | |- context [ProductRepository.update ?id ?P ?W] =>
      let w' := fresh "w'" in
      let Hupd := fresh "Hupd" in
      let Hprods := fresh "Hprods" in
      destruct (update_found W id P _ Hrow) as (w' & Hupd & Hprods & _);
      rewrite Hupd; eexists w', _; split;
      [reflexivity | rewrite Hprods, lookup_insert_eq; reflexivity]
  end.

(** The product [id] is stored as [row] when the use case starts. *)
Variables (w : World) (id : string) (row : ProductEntity.t).
Hypothesis Hrow : products w !! id = Some row.

(** The five fields that [UpdateProductUseCase] reads are applied when
    present and kept when absent, provided the present fields pass the
    checks of the entity. *)
Lemma updateProduct_applies_present_fields (data : IUpdateProductDTO.t) :
  acceptable data = true ->
  exists (w' : World) (now : JS.Date),
    UpdateProductUseCase.execute (IUpdateProductInput.mk id data) w
    = (w', Return (mapToDTO (Product.mk (schemaOf (patchedRow data row now))))) /\
    products w' !! id = Some (patchedRow data row now).
Proof.
  intros Hacc. destruct data as [n d p s c a].
  unfold acceptable in Hacc.
  cbn [IUpdateProductDTO.name IUpdateProductDTO.price IUpdateProductDTO.stock
       IUpdateProductDTO.categoryId] in Hacc.
  apply andb_true_iff in Hacc as [Hacc Hc]. apply andb_true_iff in Hacc as [Hacc Hs].
  apply andb_true_iff in Hacc as [Hn Hp].
  unfold UpdateProductUseCase.execute, UpdateProductUseCase.ifDefined.
  cbn [IUpdateProductInput.id IUpdateProductInput.data
       IUpdateProductDTO.name IUpdateProductDTO.description IUpdateProductDTO.price
       IUpdateProductDTO.stock IUpdateProductDTO.categoryId].
  rewrite bind_step, (findById_found w id row Hrow). cbv beta iota.
  rewrite bind_step.
  destruct n as [n|]; cbn [from_option] in Hn;
    [apply negb_true_iff in Hn; rewrite Product_updateName_outcome, Hn|unfold ret at 1];
    cbv beta iota zeta; rewrite bind_step;
    (destruct d as [d|]; [rewrite Product_updateDescription_outcome|unfold ret at 1]);
    cbv beta iota zeta; rewrite bind_step;
    (destruct p as [p|]; cbn [from_option] in Hp;
      [apply negb_true_iff in Hp; rewrite Product_updatePrice_outcome, Hp|unfold ret at 1]);
    cbv beta iota zeta; rewrite bind_step;
    (destruct s as [s|]; cbn [from_option] in Hs;
      [apply negb_true_iff in Hs; rewrite Product_updateStock_outcome, Hs|unfold ret at 1]);
    cbv beta iota zeta; rewrite bind_step;
    (destruct c as [c|]; cbn [from_option] in Hc;
      [apply negb_true_iff in Hc; rewrite Product_updateCategory_outcome, Hc|unfold ret at 1]);
    cbv beta iota zeta; finish_update Hrow.
Qed.

Ltac thrown :=
  cbv beta iota zeta; eexists _, _; split; [reflexivity|split; reflexivity].

(** When a present field fails its check, the update throws the plain
    [Error] of the entity and the table is as it was. *)
Lemma updateProduct_rejects_invalid_fields (data : IUpdateProductDTO.t) :
  acceptable data = false ->
  exists (w' : World) (e : Exn),
    UpdateProductUseCase.execute (IUpdateProductInput.mk id data) w = (w', Throw e) /\
    products w' = products w /\ isDomainError e = false.
Proof.
  intros Hacc. destruct data as [n d p s c a].
  unfold acceptable in Hacc.
  cbn [IUpdateProductDTO.name IUpdateProductDTO.price IUpdateProductDTO.stock
       IUpdateProductDTO.categoryId] in Hacc.
  unfold UpdateProductUseCase.execute, UpdateProductUseCase.ifDefined.
  cbn [IUpdateProductInput.id IUpdateProductInput.data
       IUpdateProductDTO.name IUpdateProductDTO.description IUpdateProductDTO.price
       IUpdateProductDTO.stock IUpdateProductDTO.categoryId].
  rewrite bind_step, (findById_found w id row Hrow). cbv beta iota.
  rewrite bind_step.
  destruct n as [n|]; cbn [from_option] in Hacc;
    [rewrite Product_updateName_outcome; destruct (JS.isBlank n) eqn:Hn; [thrown|]
    |unfold ret at 1];
    cbv beta iota zeta; rewrite bind_step;
    (destruct d as [d|]; [rewrite Product_updateDescription_outcome|unfold ret at 1]);
    cbv beta iota zeta; rewrite bind_step;
    (destruct p as [p|]; cbn [from_option] in Hacc;
      [rewrite Product_updatePrice_outcome;
       destruct (PrimFloat.ltb p 0%float) eqn:Hp; [thrown|]
      |unfold ret at 1]);
    cbv beta iota zeta; rewrite bind_step;
    (destruct s as [s|]; cbn [from_option] in Hacc;
      [rewrite Product_updateStock_outcome;
       destruct (JS.lt s (JS.Int 0)) eqn:Hs; [thrown|]
      |unfold ret at 1]);
    cbv beta iota zeta; rewrite bind_step;
    (destruct c as [c|]; cbn [from_option] in Hacc;
      [rewrite Product_updateCategory_outcome;
       destruct (JS.isBlank c) eqn:Hc; [thrown|]
      |unfold ret at 1]);
    discriminate Hacc.
Qed.

End PartialUpdate.

(* ================================================================== *)
(** ** The code at work on sample inputs *)
(* ================================================================== *)

Section Samples.
Import Errors.

Example strings_samples :
  JS.trim "  a b  " = "a b" /\
  JS.toUpperCase "lap-hp001" = "LAP-HP001" /\
  JS.split "-" "LAP-HP001" = ["LAP"; "HP001"] /\
  JS.split "-" "LAPHP001" = ["LAPHP001"] /\
  JS.padStart 6 "0" "7" = "000007" /\
  JS.padEnd 4 "X" "LAP" = "LAPX" /\
  JS.substring 0 4 "ELECTRONICS" = "ELEC" /\
  JS.isBlank "   " = true /\
  JS.isBlank " x " = false.
Proof. repeat split. Qed.

Example numbers_samples :
  JS.toString (JS.Int 0) = "0" /\
  JS.toString (JS.Int 999999) = "999999" /\
  JS.toString (JS.Int (-40)) = "-40" /\
  JS.parseInt "000123" = JS.Int 123 /\
  JS.parseInt "12AB" = JS.Int 12 /\
  JS.parseInt "HP001" = JS.NaN /\
  JS.lt JS.NaN (JS.Int 0) = false /\
  JS.gt JS.NaN (JS.Int 999999) = false.
Proof. repeat split. Qed.

Example Math_round_samples :
  JS.Math_round 2.5%float = 3%float /\
  JS.Math_round (-2.5)%float = (-2)%float /\
  JS.Math_round 0.49999999999999994%float = 0%float /\
  JS.Math_round 267.5%float = 268%float /\
  JS.Math_round 100.49999999999999%float = 100%float /\
  JS.Math_round 4503599627370495.5%float = 4503599627370496%float.
Proof. repeat split; vm_compute; reflexivity. Qed.

Example CODE_PATTERN_samples :
  List.map (JS.test ProductCode.CODE_PATTERN)
    ["LAP-HP001"; "LAPX-000001"; "ABCD-ABCDEF"; "LA-123"; "LAP-12"; "LAPXX-123";
     "LAP-1234567"; "lap-123"; "LAP-123 "]
  = [true; true; true; false; false; false; false; false; false].
Proof. reflexivity. Qed.

(** Every code that [create] returns is well formed. *)
Lemma create_returns_wellFormed (code : string) (c : ProductCode.t) :
  ProductCode.create code = Return c -> Spec.wellFormed (ProductCode.toString c).
Proof.
  destruct (wellFormed_dec (JS.toUpperCase (JS.trim code))) as [Hwf|Hnwf].
  - rewrite (create_wellFormed code Hwf). intros [= <-]. exact Hwf.
  - destruct (create_not_wellFormed code Hnwf) as (message & ->). discriminate.
Qed.

(** A product created on an empty table, end to end. *)
Example createProduct_sample :
  let w0 := Runtime.mkWorld (fun n => Z.of_nat (S n)) 0
              (fun _ => "3f2c1d7e-8a4b-4c6d-9e0f-1a2b3c4d5e6f") 0 ∅ [] [] in
  let input := ICreateProductDTO.mk "Mouse" "x" 20%float (JS.Int 5) "mse-001" "electronics" in
  exists w' dto,
    CreateProductUseCase.execute input w0 = (w', Return dto) /\
    IProductResponseDTO.sku dto = "MSE-001" /\
    IProductResponseDTO.isActive dto = true /\
    IProductResponseDTO.isInStock dto = true /\
    IProductResponseDTO.stock dto = JS.Int 5 /\
    Runtime.calls w'
    = [Runtime.CallExistsBySku "mse-001";
       Runtime.CallCreate "3f2c1d7e-8a4b-4c6d-9e0f-1a2b3c4d5e6f"].
Proof.
  eexists _, _. split; [vm_compute; reflexivity|]. repeat split.
Qed.

End Samples.

(* ================================================================== *)
(** * Further properties of the code *)
(* ================================================================== *)

(* ================================================================== *)
(** ** [ProductCode]: parts, sequences and categories *)
(* ================================================================== *)

Section ProductCodeParts.
Import Errors.

Lemma getSuffix_parts (p q : string) :
  JS.all JS.isUpperAlnum p = true -> JS.all JS.isUpperAlnum q = true ->
  ProductCode.getSuffix (ProductCode.new (IProductCodeSchemaValueObject.mk (p ++ "-" ++ q)))
  = Some q.
Proof.
  intros Hp Hq. unfold ProductCode.getSuffix, ProductCode.value.
  cbn [ProductCode._entity IProductCodeSchemaValueObject.code].
  rewrite (split_parts p q Hp Hq). reflexivity.
Qed.

Lemma parts_wellFormed (p q : string) :
  (3 <= JS.length p <= 4)%nat -> JS.all JS.isUpperAlnum p = true ->
  (3 <= JS.length q <= 6)%nat -> JS.all JS.isUpperAlnum q = true ->
  Spec.wellFormed (p ++ "-" ++ q).
Proof. intros. exists p, q. auto. Qed.

Lemma create_of_wellFormed (s : string) :
  Spec.wellFormed s ->
  ProductCode.create s = Return (ProductCode.new (IProductCodeSchemaValueObject.mk s)).
Proof.
  intros Hwf. pose proof (normalize_codeChars s (wellFormed_codeChars s Hwf)) as Hn.
  rewrite create_wellFormed; rewrite Hn; [reflexivity|exact Hwf].
Qed.

End ProductCodeParts.

(** X1.  [ProductCode.createFromParts(prefix, suffix)] trims and
    upper-cases both parts.  For parts written in ASCII it returns a
    code exactly when the normalized prefix is 3-4 characters
    [[A-Z0-9]] and the normalized suffix 3-6; the code then reads
    prefix, dash, suffix, [getPrefix] and [getSuffix] give the two
    normalized parts back, and [create] and [createFromParts] rebuild
    the same code from them.  Otherwise it throws a plain [Error]. *)
Theorem X1_createFromParts_round_trip :
  forall prefix suffix : string,
    Range.isASCII prefix = true -> Range.isASCII suffix = true ->
    match ProductCode.createFromParts prefix suffix with
    | Errors.Return c =>
        (3 <= JS.length (JS.toUpperCase (JS.trim prefix)) <= 4)%nat /\
        JS.all JS.isUpperAlnum (JS.toUpperCase (JS.trim prefix)) = true /\
        (3 <= JS.length (JS.toUpperCase (JS.trim suffix)) <= 6)%nat /\
        JS.all JS.isUpperAlnum (JS.toUpperCase (JS.trim suffix)) = true /\
        ProductCode.toString c
        = (JS.toUpperCase (JS.trim prefix) ++ "-" ++ JS.toUpperCase (JS.trim suffix))%string /\
        ProductCode.getPrefix c = JS.toUpperCase (JS.trim prefix) /\
        ProductCode.getSuffix c = Some (JS.toUpperCase (JS.trim suffix)) /\
        ProductCode.create (ProductCode.toString c) = Errors.Return c /\
        ProductCode.createFromParts (ProductCode.getPrefix c) (JS.toUpperCase (JS.trim suffix))
        = Errors.Return c
    | Errors.Throw e =>
        ~ (((3 <= JS.length (JS.toUpperCase (JS.trim prefix)) <= 4)%nat /\
            JS.all JS.isUpperAlnum (JS.toUpperCase (JS.trim prefix)) = true) /\
           ((3 <= JS.length (JS.toUpperCase (JS.trim suffix)) <= 6)%nat /\
            JS.all JS.isUpperAlnum (JS.toUpperCase (JS.trim suffix)) = true)) /\
        Errors.isDomainError e = false
    end.
Proof.
  intros prefix suffix _ _. rewrite createFromParts_outcome.
  set (P := JS.toUpperCase (JS.trim prefix)). set (S := JS.toUpperCase (JS.trim suffix)).
  destruct (JS.test ProductCode.PREFIX_PATTERN P) eqn:HP; cbn [negb].
  2:{ split; [|reflexivity]. intros [H _]. apply PREFIX_PATTERN_spec in H. congruence. }
  destruct (JS.test ProductCode.SUFFIX_PATTERN S) eqn:HS; cbn [negb].
  2:{ split; [|reflexivity]. intros [_ H]. apply SUFFIX_PATTERN_spec in H. congruence. }
  apply PREFIX_PATTERN_spec in HP as [LP AP]. apply SUFFIX_PATTERN_spec in HS as [LS AS].
  rewrite (getPrefix_parts P S AP), (getSuffix_parts P S AP AS).
  repeat (split; [assumption || reflexivity|]).
  split.
  - apply create_of_wellFormed, parts_wellFormed; assumption.
  - apply createFromParts_normal; assumption.
Qed.

(** The parts [" lap "] and ["hp001 "] make the code [LAP-HP001]; the
    prefix ["ab"] is too short. *)
Lemma X1_witness :
  Range.isASCII " lap " = true /\ Range.isASCII "hp001 " = true /\
  (exists c : ProductCode.t,
     ProductCode.createFromParts " lap " "hp001 " = Errors.Return c /\
     ProductCode.toString c = "LAP-HP001" /\
     ProductCode.getPrefix c = "LAP" /\
     ProductCode.getSuffix c = Some "HP001" /\
     ProductCode.create (ProductCode.toString c) = Errors.Return c) /\
  Range.isASCII "ab" = true /\ Range.isASCII "001" = true /\
  (exists e : Errors.Exn,
     ProductCode.createFromParts "ab" "001" = Errors.Throw e /\
     Errors.isDomainError e = false).
Proof.
  assert (Range.isASCII " lap " = true) as H1 by reflexivity.
  assert (Range.isASCII "hp001 " = true) as H2 by reflexivity.
  assert (Range.isASCII "ab" = true) as H3 by reflexivity.
  assert (Range.isASCII "001" = true) as H4 by reflexivity.
  pose proof (X1_createFromParts_round_trip " lap " "hp001 " H1 H2) as T1.
  pose proof (X1_createFromParts_round_trip "ab" "001" H3 H4) as T2.
  split; [exact H1|]. split; [exact H2|]. split.
  - destruct (ProductCode.createFromParts " lap " "hp001 ") as [c|e] eqn:E;
      [|vm_compute in E; discriminate E].
    destruct T1 as (_ & _ & _ & _ & Hs & Hp & Hq & Hc & _).
    exists c. split; [reflexivity|]. repeat split; assumption.
  - split; [exact H3|]. split; [exact H4|].
    destruct (ProductCode.createFromParts "ab" "001") as [c|e] eqn:E;
      [vm_compute in E; discriminate E|].
    destruct T2 as [_ Hd]. exists e. split; [reflexivity|exact Hd].
Defined.

Section SequenceFacts.
Import Errors.





Lemma generated_getPrefix (category : string) (z : Z) :
  ProductCode.getPrefix (generated category z) = Spec.prefixOf category.
Proof. apply getPrefix_parts, prefixOf_shape. Qed.



End SequenceFacts.

Section SequenceBounds.
Import Errors.

Lemma digitVal_le9 (c : ascii) (d : Z) : JS.digitVal c = Some d -> d <= 9.
Proof.
  unfold JS.digitVal, JS.isDigit, JS.between.
  destruct (48 <=? JS.code c)%nat; [|discriminate].
  destruct (Nat.leb_spec (JS.code c) 57); [|discriminate].
  cbn [andb]. intros [= <-]. lia.
Qed.

Lemma parseDigits_bound (s : string) :
  forall (acc : option Z) (n : Z),
    (forall a, acc = Some a -> 0 <= a) ->
    JS.parseDigits s acc = Some n ->
    n < (default 0 acc + 1) * 10 ^ Z.of_nat (JS.length s).
Proof.
  induction s as [|c s IH]; intros acc n Hacc; cbn [JS.parseDigits].
  - intros ->. cbn [default]. unfold id. change (JS.length "") with 0%nat. lia.
  - assert (0 < 10 ^ Z.of_nat (JS.length s)) as Hpos by (apply Z.pow_pos_nonneg; lia).
    assert (JS.length (String c s) = S (JS.length s)) as -> by reflexivity.
    rewrite Nat2Z.inj_succ, Z.pow_succ_r by lia.
    destruct (JS.digitVal c) as [d|] eqn:Hd.
    + intros Hn. pose proof (digitVal_nonneg c d Hd). pose proof (digitVal_le9 c d Hd).
      apply IH in Hn.
      * change (default 0 (Some (10 * default 0 acc + d)))
          with (10 * default 0 acc + d) in Hn.
        assert (0 <= default 0 acc) as Ha.
        { destruct acc as [a|]; cbn [default from_option]; unfold id;
            [apply Hacc; reflexivity|lia]. }
        assert ((10 * default 0 acc + d + 1) * 10 ^ Z.of_nat (JS.length s)
                <= (10 * default 0 acc + 10) * 10 ^ Z.of_nat (JS.length s))
          by (apply Z.mul_le_mono_nonneg_r; lia).
        replace ((default 0 acc + 1) * (10 * 10 ^ Z.of_nat (JS.length s)))
          with ((10 * default 0 acc + 10) * 10 ^ Z.of_nat (JS.length s)) by ring.
        lia.
      * intros a [= <-].
        assert (0 <= default 0 acc) as Ha.
        { destruct acc as [a|]; cbn [default]; unfold id; [apply Hacc; reflexivity|lia]. }
        lia.
    + intros ->. specialize (Hacc n eq_refl). change (default 0 (Some n)) with n.
      assert (n * 1 <= n * (10 * 10 ^ Z.of_nat (JS.length s)))
        by (apply Z.mul_le_mono_nonneg_l; lia).
      replace ((n + 1) * (10 * 10 ^ Z.of_nat (JS.length s)))
        with (n * (10 * 10 ^ Z.of_nat (JS.length s)) + 10 * 10 ^ Z.of_nat (JS.length s)) by ring.
      lia.
Qed.

(** The sequence number of a suffix: not a number, or between 0 and
    999999. *)
Lemma parseInt_suffix (q : string) :
  (JS.length q <= 6)%nat -> JS.all JS.isUpperAlnum q = true ->
  JS.parseInt q = JS.NaN \/ exists z, JS.parseInt q = JS.Int z /\ 0 <= z <= 999999.
Proof.
  intros Lq Aq. destruct (JS.parseInt q) as [z|] eqn:Hp; [right|left; reflexivity].
  exists z. split; [reflexivity|]. split; [apply (parseInt_upperAlnum_nonneg q z Aq Hp)|].
  revert Hp. unfold JS.parseInt. destruct q as [|c q]; [discriminate|].
  pose proof Aq as Aq'. rewrite all_cons in Aq'. apply andb_true_iff in Aq' as [Hc _].
  cbn [JS.trimStart]. rewrite (upperAlnum_not_white c Hc), (upperAlnum_not_dash c Hc).
  assert (Ascii.eqb c "+" = false) as ->.
  { revert Hc. clear. destruct c as [[] [] [] [] [] [] [] []]; vm_compute; congruence. }
  cbv beta iota zeta.
  destruct (JS.parseDigits (String c q) None) as [n|] eqn:Hn; [|intros ?; discriminate].
  intros [= <-]. apply parseDigits_bound in Hn; [|intros a Ha; discriminate Ha].
  cbn [default] in Hn. unfold id in Hn.
  assert (10 ^ Z.of_nat (JS.length (String c q)) <= 10 ^ 6) as Hle
    by (apply Z.pow_le_mono_r; lia).
  change (10 ^ 6) with 1000000 in Hle. lia.
Qed.

Lemma wellFormed_prefix_notBlank (c : ProductCode.t) :
  Spec.wellFormed (ProductCode.toString c) -> JS.isBlank (ProductCode.getPrefix c) = false.
Proof.
  intros Hwf. destruct (wellFormed_parts c Hwf) as (q & _ & Lp & Ap & _).
  apply upperAlnum_notBlank; [exact Ap|]. intros E. rewrite E in Lp. cbv in Lp. lia.
Qed.

Lemma wellFormed_sequence (c : ProductCode.t) :
  Spec.wellFormed (ProductCode.toString c) ->
  ProductCode.getSequence c = JS.NaN \/
  exists z, ProductCode.getSequence c = JS.Int z /\ 0 <= z <= 999999.
Proof.
  intros Hwf. destruct (wellFormed_parts c Hwf) as (q & _ & _ & _ & Lq & Aq & Hsuf).
  unfold ProductCode.getSequence. rewrite Hsuf. apply parseInt_suffix; [lia|exact Aq].
Qed.

Lemma next_outcome (c : ProductCode.t) :
  ProductCode.next c
  = ProductCode.generate (ProductCode.getPrefix c)
      (JS.add (ProductCode.getSequence c) (JS.Int 1)).
Proof. reflexivity. Qed.

Lemma previous_outcome (c : ProductCode.t) :
  ProductCode.previous c
  = if JS.strictEq (ProductCode.getSequence c) (JS.Int 0)
    then Throw (Error (JS.lit "Cannot get previous code for sequence 0"))
    else ProductCode.generate (ProductCode.getPrefix c)
           (JS.sub (ProductCode.getSequence c) (JS.Int 1)).
Proof.
  unfold ProductCode.previous.
  destruct (JS.strictEq (ProductCode.getSequence c) (JS.Int 0)); reflexivity.
Qed.

End SequenceBounds.



(** X3.  On a well-formed code, [next] throws only when the sequence
    number is 999999 and [previous] only when it is 0; each then throws
    the plain [Error] of that bound.  In particular neither throws on a
    code whose suffix is not a number. *)
Theorem X3_next_previous_throw_only_at_bounds :
  forall c : ProductCode.t,
    Spec.wellFormed (ProductCode.toString c) ->
    match ProductCode.next c with
    | Errors.Return _ => ProductCode.getSequence c <> JS.Int 999999
    | Errors.Throw e =>
        ProductCode.getSequence c = JS.Int 999999 /\
        e = Errors.Error (JS.lit "Sequence number cannot exceed 999999")
    end /\
    match ProductCode.previous c with
    | Errors.Return _ => ProductCode.getSequence c <> JS.Int 0
    | Errors.Throw e =>
        ProductCode.getSequence c = JS.Int 0 /\
        e = Errors.Error (JS.lit "Cannot get previous code for sequence 0")
    end.
Proof.
  intros c Hwf. pose proof (wellFormed_prefix_notBlank c Hwf) as Hb.
  rewrite next_outcome, previous_outcome.
  destruct (wellFormed_sequence c Hwf) as [Hs|(z & Hs & Hz)]; rewrite Hs.
  - cbn [JS.add JS.sub JS.strictEq]. rewrite (generate_NaN _ Hb). split; discriminate.
  - cbn [JS.add JS.sub JS.strictEq]. split.
    + destruct (Z.eq_dec z 999999) as [->|Hne].
      * rewrite generate_outcome, Hb. cbn. split; reflexivity.
      * rewrite generate_in_range by (exact Hb || lia). intros [= E]. lia.
    + destruct (Z.eqb_spec z 0) as [->|Hne]; [split; reflexivity|].
      rewrite generate_in_range by (exact Hb || lia). intros [= E]. lia.
Qed.

Lemma X3_witness :
  let c := ProductCode.new (IProductCodeSchemaValueObject.mk "ABCD-999999") in
  Spec.wellFormed (ProductCode.toString c) /\
  match ProductCode.next c with
  | Errors.Return _ => ProductCode.getSequence c <> JS.Int 999999
  | Errors.Throw e =>
      ProductCode.getSequence c = JS.Int 999999 /\
      e = Errors.Error (JS.lit "Sequence number cannot exceed 999999")
  end /\
  match ProductCode.previous c with
  | Errors.Return _ => ProductCode.getSequence c <> JS.Int 0
  | Errors.Throw e =>
      ProductCode.getSequence c = JS.Int 0 /\
      e = Errors.Error (JS.lit "Cannot get previous code for sequence 0")
  end.
Proof.
  intros c.
  assert (Spec.wellFormed (ProductCode.toString c)) as Hwf.
  { exists "ABCD", "999999". repeat split; vm_compute; try reflexivity; lia. }
  split; [exact Hwf|].
  exact (X3_next_previous_throw_only_at_bounds c Hwf).
Defined.


Section CategoryFacts.
Import Errors.

Lemma belongsToCategory_prefixOf (c : ProductCode.t) (category : string) :
  ProductCode.belongsToCategory c category
  = String.eqb (ProductCode.getPrefix c) (Spec.prefixOf category).
Proof. unfold ProductCode.belongsToCategory. rewrite generatePrefix_prefixOf. reflexivity. Qed.

(** What [generate] returns, when it returns. *)
Lemma generate_returns (category : string) (z : Z) (c : ProductCode.t) :
  ProductCode.generate category (JS.Int z) = Return c ->
  JS.isBlank category = false /\ 0 <= z <= 999999 /\ c = generated category z.
Proof.
  intros Hc. destruct (JS.isBlank category) eqn:Hb.
  { destruct (generate_out_of_range category z) as (m & Hm); [auto|]. congruence. }
  destruct (Z.ltb_spec z 0).
  { destruct (generate_out_of_range category z) as (m & Hm); [auto|]. congruence. }
  destruct (Z.ltb_spec 999999 z).
  { destruct (generate_out_of_range category z) as (m & Hm); [auto|]. congruence. }
  rewrite generate_in_range in Hc by (exact Hb || lia). injection Hc as <-.
  split; [reflexivity|]. split; [lia|reflexivity].
Qed.

End CategoryFacts.

(** X5.  For categories written in ASCII, a generated code belongs to
    a category exactly when that category has the same derived prefix
    as the one the code was generated for: to its own category, in any
    letter case and with any surrounding white space, and to every
    other category that shares the first four alphanumeric
    characters. *)
Theorem X5_belongsToCategory_of_generated :
  forall (category other : string) (z : Z) (c : ProductCode.t),
    Range.isASCII category = true -> Range.isASCII other = true ->
    ProductCode.generate category (JS.Int z) = Errors.Return c ->
    ProductCode.belongsToCategory c category = true /\
    ProductCode.getCategory c = Spec.prefixOf category /\
    (ProductCode.belongsToCategory c other = true <->
     Spec.prefixOf other = Spec.prefixOf category).
Proof.
  intros category other z c _ _ Hc.
  destruct (generate_returns category z c Hc) as (_ & _ & ->).
  rewrite !belongsToCategory_prefixOf. unfold ProductCode.getCategory.
  rewrite generated_getPrefix.
  split; [apply String.eqb_refl|]. split; [reflexivity|].
  rewrite String.eqb_eq. split; intros E; congruence.
Qed.

(** The code generated for [" Electronics"] belongs to that category,
    to ["electric cars"], which starts with the same four letters, and
    not to ["books"]. *)
Lemma X5_witness :
  let c := ProductCode.new (IProductCodeSchemaValueObject.mk "ELEC-000007") in
  Range.isASCII " Electronics" = true /\ Range.isASCII "electric cars" = true /\
  Range.isASCII "books" = true /\
  ProductCode.generate " Electronics" (JS.Int 7) = Errors.Return c /\
  ProductCode.belongsToCategory c " Electronics" = true /\
  ProductCode.getCategory c = "ELEC" /\
  ProductCode.belongsToCategory c "electric cars" = true /\
  ProductCode.belongsToCategory c "books" = false.
Proof.
  intros c.
  assert (Range.isASCII " Electronics" = true) as H1 by reflexivity.
  assert (Range.isASCII "electric cars" = true) as H2 by reflexivity.
  assert (Range.isASCII "books" = true) as H3 by reflexivity.
  assert (ProductCode.generate " Electronics" (JS.Int 7) = Errors.Return c) as H
    by reflexivity.
  destruct (X5_belongsToCategory_of_generated " Electronics" "electric cars" 7 c H1 H2 H)
    as (T1 & T2 & T3).
  destruct (X5_belongsToCategory_of_generated " Electronics" "books" 7 c H1 H3 H)
    as (_ & _ & T4).
  split; [exact H1|]. split; [exact H2|]. split; [exact H3|]. split; [exact H|].
  split; [exact T1|]. split; [exact T2|]. split; [apply T3; reflexivity|].
  destruct (ProductCode.belongsToCategory c "books") eqn:E; [|reflexivity].
  assert (Spec.prefixOf "books" = Spec.prefixOf " Electronics") as K by (apply T4; reflexivity).
  vm_compute in K. discriminate K.
Defined.

(** X6.  A well-formed code whose prefix has 3 characters belongs to no
    category at all, not even to the one spelled like its prefix:
    every derived prefix has 4 characters. *)
Theorem X6_three_character_prefix_belongs_nowhere :
  forall (c : ProductCode.t) (category : string),
    Spec.wellFormed (ProductCode.toString c) ->
    JS.length (ProductCode.getPrefix c) = 3%nat ->
    ProductCode.belongsToCategory c category = false /\
    ProductCode.belongsToCategory c (ProductCode.getCategory c) = false.
Proof.
  intros c category Hwf Hlen.
  assert (forall k, ProductCode.belongsToCategory c k = false) as H.
  { intros k. rewrite belongsToCategory_prefixOf. apply String.eqb_neq. intros E.
    destruct (prefixOf_shape k) as [L _]. rewrite <- E, Hlen in L. discriminate. }
  split; apply H.
Qed.

Lemma X6_witness :
  let c := ProductCode.new (IProductCodeSchemaValueObject.mk "LAP-001") in
  Spec.wellFormed (ProductCode.toString c) /\
  JS.length (ProductCode.getPrefix c) = 3%nat /\
  ProductCode.belongsToCategory c "laptops" = false /\
  ProductCode.belongsToCategory c (ProductCode.getCategory c) = false.
Proof.
  intros c.
  assert (Spec.wellFormed (ProductCode.toString c)) as Hwf.
  { exists "LAP", "001". repeat split; vm_compute; try reflexivity; lia. }
  assert (JS.length (ProductCode.getPrefix c) = 3%nat) as Hlen by reflexivity.
  split; [exact Hwf|]. split; [exact Hlen|].
  exact (X6_three_character_prefix_belongs_nowhere c "laptops" Hwf Hlen).
Defined.

(* ================================================================== *)
(** ** [Product]: stock arithmetic, invariants and activation *)
(* ================================================================== *)

Section NormalizationFacts.

Lemma trimEnd_cons_notWhite (c : ascii) (r : string) :
  JS.isWhiteSpace c = false -> JS.trimEnd (String c r) = String c (JS.trimEnd r).
Proof.
  intros Hc. cbn [JS.trimEnd]. destruct (JS.trimEnd r); [rewrite Hc|]; reflexivity.
Qed.

Lemma trimEnd_idem (s : string) : JS.trimEnd (JS.trimEnd s) = JS.trimEnd s.
Proof.
  induction s as [|c s IH]; [reflexivity|].
  cbn [JS.trimEnd]. destruct (JS.trimEnd s) as [|d e] eqn:E.
  - destruct (JS.isWhiteSpace c) eqn:Hc; [reflexivity|].
    cbn [JS.trimEnd]. rewrite Hc. reflexivity.
  - cbn [JS.trimEnd]. cbn [JS.trimEnd] in IH. rewrite IH. reflexivity.
Qed.

Lemma trimStart_shape (s : string) :
  JS.trimStart s = "" \/
  exists c r, JS.trimStart s = String c r /\ JS.isWhiteSpace c = false.
Proof.
  induction s as [|c s IH]; [left; reflexivity|].
  cbn [JS.trimStart]. destruct (JS.isWhiteSpace c) eqn:Hc; [exact IH|].
  right. exists c, s. split; [reflexivity|exact Hc].
Qed.

(** Trimming twice is trimming once. *)
Lemma trim_idem (s : string) : JS.trim (JS.trim s) = JS.trim s.
Proof.
  unfold JS.trim. destruct (trimStart_shape s) as [->|(c & r & -> & Hc)]; [reflexivity|].
  rewrite (trimEnd_cons_notWhite c r Hc). cbn [JS.trimStart]. rewrite Hc.
  rewrite <- (trimEnd_cons_notWhite c r Hc). apply trimEnd_idem.
Qed.

Lemma isBlank_trimmed (s : string) : JS.isBlank (JS.trim s) = JS.isBlank s.
Proof.
  destruct (JS.isBlank s) eqn:Hb.
  - apply isBlank_trim. rewrite trim_idem. apply isBlank_trim, Hb.
  - apply isBlank_false. rewrite trim_idem. apply isBlank_false, Hb.
Qed.

Lemma trimStart_toUpperCase (s : string) :
  JS.trimStart (JS.toUpperCase s) = JS.toUpperCase (JS.trimStart s).
Proof.
  unfold JS.toUpperCase. induction s as [|c s IH]; [reflexivity|].
  cbn [JS.map_chars JS.trimStart]. rewrite toUpper_white.
  destruct (JS.isWhiteSpace c); [exact IH|reflexivity].
Qed.

Lemma trimEnd_toUpperCase (s : string) :
  JS.trimEnd (JS.toUpperCase s) = JS.toUpperCase (JS.trimEnd s).
Proof.
  unfold JS.toUpperCase. induction s as [|c s IH]; [reflexivity|].
  cbn [JS.map_chars JS.trimEnd]. rewrite IH, toUpper_white.
  destruct (JS.trimEnd s); [destruct (JS.isWhiteSpace c)|]; reflexivity.
Qed.

(** Upper-casing and trimming commute. *)
Lemma trim_toUpperCase (s : string) :
  JS.trim (JS.toUpperCase s) = JS.toUpperCase (JS.trim s).
Proof. unfold JS.trim. rewrite trimStart_toUpperCase, trimEnd_toUpperCase. reflexivity. Qed.

Lemma toUpperCase_idem (s : string) : JS.toUpperCase (JS.toUpperCase s) = JS.toUpperCase s.
Proof.
  unfold JS.toUpperCase. induction s as [|c s IH]; [reflexivity|].
  cbn [JS.map_chars]. rewrite toUpper_idem, IH. reflexivity.
Qed.

Lemma toUpperCase_empty (s : string) : JS.toUpperCase s = "" -> s = "".
Proof. destruct s; [reflexivity|discriminate]. Qed.

(** The normal form of a code is its own normal form. *)
Lemma normalize_idem (s : string) :
  JS.toUpperCase (JS.trim (JS.toUpperCase (JS.trim s))) = JS.toUpperCase (JS.trim s).
Proof. rewrite trim_toUpperCase, trim_idem, toUpperCase_idem. reflexivity. Qed.

Lemma isBlank_normalized (s : string) :
  JS.isBlank (JS.toUpperCase (JS.trim s)) = JS.isBlank s.
Proof.
  destruct (JS.isBlank s) eqn:Hb.
  - apply isBlank_trim. rewrite trim_toUpperCase, trim_idem.
    apply isBlank_trim in Hb. rewrite Hb. reflexivity.
  - apply isBlank_false. rewrite trim_toUpperCase, trim_idem. intros E.
    apply toUpperCase_empty in E. apply isBlank_false in Hb. contradiction.
Qed.

End NormalizationFacts.
Section StockFacts.
Import Errors Runtime.

Lemma Product_activate_outcome (this : Product.t) (w : World) :
  Product.activate this w
  = if Product.isActive this then (w, Return this)
    else
      let e := IProductSchema.withIsActive (Product._entity this) true (nowOf w) in
      (afterConstruction w e, Return (Product.mk e)).
Proof. unfold Product.activate. destruct (Product.isActive this); reflexivity. Qed.

Lemma Product_deactivate_outcome (this : Product.t) (w : World) :
  Product.deactivate this w
  = if Product.isActive this
    then
      let e := IProductSchema.withIsActive (Product._entity this) false (nowOf w) in
      (afterConstruction w e, Return (Product.mk e))
    else (w, Return this).
Proof. unfold Product.deactivate. destruct (Product.isActive this); reflexivity. Qed.

End StockFacts.


(** X8.  On a product whose stock is the integer [s >= 0], an
    increment by an integer amount [a > 0], with [s + a] a safe
    integer, followed by a decrement by the same amount succeeds: the
    stock is [s + a] in between and [s] again at the end, and the end
    state is the original one, [updatedAt] apart; two instances have
    been constructed on the way and the original is untouched. *)
Theorem X8_increment_then_decrement :
  forall (w : Runtime.World) (this : Product.t) (s a : Z),
    Product.stock this = JS.Int s ->
    0 <= s -> 0 < a -> s + a <= Range.MAX_SAFE_INTEGER ->
    exists (w1 w2 : Runtime.World) (p1 p2 : Product.t),
      Product.incrementStock this (JS.Int a) w = (w1, Errors.Return p1) /\
      Product.stock p1 = JS.Int (s + a) /\
      Product.decrementStock p1 (JS.Int a) w1 = (w2, Errors.Return p2) /\
      Product.stock p2 = JS.Int s /\
      Product._entity p2
      = IProductSchema.withStock (Product._entity this) (Product.stock this) (nowOf w1) /\
      Runtime.constructed w2
      = (Runtime.constructed w ++ [Product._entity p1; Product._entity p2])%list.
Proof.
  intros w this s a Hstock Hs Ha _.
  assert (Spec.stockValid (Product.stock this)) as Hvalid.
  { unfold Spec.stockValid. rewrite Hstock. apply Z.ltb_ge, Hs. }
  assert (JS.gt (JS.Int a) (JS.Int 0) = true) as Hpos by (apply Z.ltb_lt, Ha).
  destruct (add_positive_valid _ _ Hvalid Hpos) as [Hle Hadd].
  rewrite Product_incrementStock_outcome, Hle, Product_updateStock_outcome, Hadd. cbv zeta.
  eexists _, _, _, _. split; [reflexivity|].
  split; [cbn; rewrite Hstock; reflexivity|].
  rewrite Product_decrementStock_outcome, Hle.
  assert (JS.sub (JS.add (Product.stock this) (JS.Int a)) (JS.Int a) = Product.stock this)
    as Hback by (rewrite Hstock; cbn [JS.add JS.sub]; f_equal; lia).
  change (Product.stock (Product.mk (IProductSchema.withStock (Product._entity this)
            (JS.add (Product.stock this) (JS.Int a)) (nowOf w))))
    with (JS.add (Product.stock this) (JS.Int a)).
  rewrite Hback. unfold Spec.stockValid in Hvalid. rewrite Hvalid.
  rewrite Product_updateStock_outcome, Hvalid. cbv zeta.
  split; [reflexivity|]. split; [exact Hstock|]. split; [reflexivity|].
  cbn [Runtime.constructed afterConstruction Product._entity].
  rewrite <- app_assoc. reflexivity.
Qed.

(** The stock 5, incremented and decremented by 3. *)
Lemma X8_witness :
  let this := Product.mk (schemaOf Example.mouse) in
  Product.stock this = JS.Int 5 /\
  0 <= 5 /\ 0 < 3 /\ 5 + 3 <= Range.MAX_SAFE_INTEGER /\
  exists (w1 w2 : Runtime.World) (p1 p2 : Product.t),
    Product.incrementStock this (JS.Int 3) Example.world = (w1, Errors.Return p1) /\
    Product.stock p1 = JS.Int 8 /\
    Product.decrementStock p1 (JS.Int 3) w1 = (w2, Errors.Return p2) /\
    Product.stock p2 = JS.Int 5 /\
    Product._entity p2
    = IProductSchema.withStock (Product._entity this) (Product.stock this) (nowOf w1) /\
    Runtime.constructed w2
    = (Runtime.constructed Example.world ++ [Product._entity p1; Product._entity p2])%list.
Proof.
  intros this.
  assert (Product.stock this = JS.Int 5) as H1 by reflexivity.
  assert (0 <= 5) as H2 by lia.
  assert (0 < 3) as H3 by lia.
  assert (5 + 3 <= Range.MAX_SAFE_INTEGER) as H4 by (vm_compute; discriminate).
  split; [exact H1|]. split; [exact H2|]. split; [exact H3|]. split; [exact H4|].
  exact (X8_increment_then_decrement Example.world this 5 3 H1 H2 H3 H4).
Defined.

(** X9.  Every method of [Product] that returns a changed product
    keeps what [create] checks: on a product whose name and SKU are not
    blank and whose price and stock are not negative, the product it
    returns has these properties too.  None of them changes the
    identifier, the SKU or the creation date. *)
Theorem X9_mutations_keep_the_checks :
  forall (w w' : Runtime.World) (this p : Product.t) (m : Mutation),
    passesChecks (Product._entity this) ->
    mutate m this w = (w', Errors.Return p) ->
    passesChecks (Product._entity p) /\
    Product.id p = Product.id this /\
    Product.sku p = Product.sku this /\
    Product.createdAt p = Product.createdAt this.
Proof.
  intros w w' this p m (Hn & Hp & Hs & Hk) Hm.
  destruct this as [e]. cbn [Product._entity] in *.
  unfold passesChecks.
  destruct m as [n|d|x|s|a|a|c| |]; cbn [mutate] in Hm.
  - rewrite Product_updateName_outcome in Hm. destruct (JS.isBlank n) eqn:Hb; [discriminate|].
    cbv zeta in Hm; injection Hm as _ <-. cbn. rewrite isBlank_trimmed. auto.
  - rewrite Product_updateDescription_outcome in Hm. cbv zeta in Hm; injection Hm as _ <-. cbn. auto.
  - rewrite Product_updatePrice_outcome in Hm.
    destruct (PrimFloat.ltb x 0%float) eqn:Hx; [discriminate|].
    cbv zeta in Hm; injection Hm as _ <-. cbn. auto.
  - rewrite Product_updateStock_outcome in Hm.
    destruct (JS.lt s (JS.Int 0)) eqn:Hx; [discriminate|].
    cbv zeta in Hm; injection Hm as _ <-. cbn. auto.
  - rewrite Product_incrementStock_outcome in Hm.
    destruct (JS.le a (JS.Int 0)); [discriminate|].
    rewrite Product_updateStock_outcome in Hm.
    destruct (JS.lt (JS.add _ a) (JS.Int 0)) eqn:Hx; [discriminate|].
    cbv zeta in Hm; injection Hm as _ <-. cbn. auto.
  - rewrite Product_decrementStock_outcome in Hm.
    destruct (JS.le a (JS.Int 0)); [discriminate|].
    destruct (JS.lt (JS.sub _ a) (JS.Int 0)) eqn:Hx; [discriminate|].
    rewrite Product_updateStock_outcome, Hx in Hm.
    cbv zeta in Hm; injection Hm as _ <-. cbn. auto.
  - rewrite Product_updateCategory_outcome in Hm.
    destruct (JS.isBlank c); [discriminate|].
    cbv zeta in Hm; injection Hm as _ <-. cbn. auto.
  - rewrite Product_activate_outcome in Hm.
    destruct (Product.isActive (Product.mk e)); cbv zeta in Hm; injection Hm as _ <-; cbn; auto.
  - rewrite Product_deactivate_outcome in Hm.
    destruct (Product.isActive (Product.mk e)); cbv zeta in Hm; injection Hm as _ <-; cbn; auto.
Qed.

Lemma X9_witness :
  let this := Product.mk (schemaOf Example.mouse) in
  passesChecks (Product._entity this) /\
  exists (w' : Runtime.World) (p : Product.t),
    mutate (DecrementStock (JS.Int 3)) this Example.world = (w', Errors.Return p) /\
    passesChecks (Product._entity p) /\
    Product.id p = Product.id this /\
    Product.sku p = Product.sku this /\
    Product.createdAt p = Product.createdAt this.
Proof.
  intros this.
  assert (passesChecks (Product._entity this)) as Hc by (repeat split).
  split; [exact Hc|]. eexists _, _.
  assert (forall w' p (H : mutate (DecrementStock (JS.Int 3)) this Example.world
                           = (w', Errors.Return p)),
            mutate (DecrementStock (JS.Int 3)) this Example.world = (w', Errors.Return p) /\
            passesChecks (Product._entity p) /\
            Product.id p = Product.id this /\
            Product.sku p = Product.sku this /\
            Product.createdAt p = Product.createdAt this) as H.
  { intros w' p H. split; [exact H|].
    exact (X9_mutations_keep_the_checks Example.world w' this p
             (DecrementStock (JS.Int 3)) Hc H). }
  apply H. vm_compute. reflexivity.
Defined.

(** X10.  [activate] on an active product and [deactivate] on an
    inactive one return the product itself: no instance is
    constructed and the clock is not read.  Otherwise they return a
    new instance that differs in [isActive] and [updatedAt] only.
    After [deactivate] the product cannot be purchased in any
    quantity. *)
Theorem X10_activate_deactivate :
  forall (w : Runtime.World) (this : Product.t),
    exists (w1 w2 : Runtime.World) (p1 p2 : Product.t),
      Product.activate this w = (w1, Errors.Return p1) /\
      Product.isActive p1 = true /\
      (if Product.isActive this then w1 = w /\ p1 = this
       else w1 = afterConstruction w (Product._entity p1) /\
            Product._entity p1
            = IProductSchema.withIsActive (Product._entity this) true (nowOf w)) /\
      Product.activate p1 w1 = (w1, Errors.Return p1) /\
      Product.deactivate p1 w1 = (w2, Errors.Return p2) /\
      Product._entity p2
      = IProductSchema.withIsActive (Product._entity this) false (nowOf w1) /\
      Product.deactivate p2 w2 = (w2, Errors.Return p2) /\
      (forall quantity, Product.canBePurchased p2 quantity = false).
Proof.
  intros w this. rewrite Product_activate_outcome.
  destruct (Product.isActive this) eqn:Ha; cbv zeta.
  - eexists w, _, this, _. split; [reflexivity|]. split; [exact Ha|].
    split; [split; reflexivity|].
    rewrite Product_activate_outcome, Product_deactivate_outcome, Ha. cbv zeta.
    split; [reflexivity|]. split; [reflexivity|]. split; [reflexivity|].
    rewrite Product_deactivate_outcome. split; reflexivity.
  - eexists _, _, _, _. split; [reflexivity|]. split; [reflexivity|].
    split; [split; reflexivity|].
    rewrite Product_activate_outcome, Product_deactivate_outcome.
    split; [reflexivity|]. split; [reflexivity|]. split; [reflexivity|].
    rewrite Product_deactivate_outcome. split; reflexivity.
Qed.



(** X12.  For a name, a description and a SKU written in ASCII, a
    product that [create] returns passes the checks of [create] again,
    in its stored form: creating a product from the fields of a created
    product succeeds and stores the same name, description, SKU, price,
    stock and category.  The stored name and description are trimmed
    and the stored SKU is trimmed and upper-cased; a created product is
    active and its two dates are equal. *)
Theorem X12_create_stores_normal_forms :
  forall (w w' w1 : Runtime.World) (id id1 name description : string) (price : float)
         (stock : JS.number) (sku categoryId : string) (p : Product.t),
    Range.isASCII name = true -> Range.isASCII description = true ->
    Range.isASCII sku = true ->
    Product.create id name description price stock sku categoryId w = (w', Errors.Return p) ->
    passesChecks (Product._entity p) /\
    Product.name p = JS.trim name /\
    Product.description p = JS.trim description /\
    Product.sku p = JS.toUpperCase (JS.trim sku) /\
    Product.isActive p = true /\
    Product.createdAt p = Product.updatedAt p /\
    exists (w2 : Runtime.World) (p1 : Product.t),
      Product.create id1 (Product.name p) (Product.description p) (Product.price p)
        (Product.stock p) (Product.sku p) (Product.categoryId p) w1
      = (w2, Errors.Return p1) /\
      Product.name p1 = Product.name p /\
      Product.description p1 = Product.description p /\
      Product.sku p1 = Product.sku p /\
      Product.price p1 = Product.price p /\
      Product.stock p1 = Product.stock p /\
      Product.categoryId p1 = Product.categoryId p.
Proof.
  intros w w' w1 id id1 name description price stock sku categoryId p _ _ _ Hc.
  rewrite Product_create_outcome in Hc.
  destruct (JS.isBlank name) eqn:Hn; [discriminate|].
  destruct (PrimFloat.ltb price 0%float) eqn:Hp; [discriminate|].
  destruct (JS.lt stock (JS.Int 0)) eqn:Hs; [discriminate|].
  destruct (JS.isBlank sku) eqn:Hk; [discriminate|].
  cbv zeta in Hc. injection Hc as _ <-.
  assert (JS.isBlank (JS.trim name) = false) as Hn' by (rewrite isBlank_trimmed; exact Hn).
  assert (JS.isBlank (JS.toUpperCase (JS.trim sku)) = false) as Hk'
    by (rewrite isBlank_normalized; exact Hk).
  split; [repeat split; assumption|].
  repeat (split; [reflexivity|]).
  rewrite Product_create_outcome.
  change (Product.name (Product.mk ?e)) with (IProductSchema.name e).
  change (Product.sku (Product.mk ?e)) with (IProductSchema.sku e).
  change (Product.price (Product.mk ?e)) with (IProductSchema.price e).
  change (Product.stock (Product.mk ?e)) with (IProductSchema.stock e).
  cbn [IProductSchema.name IProductSchema.sku IProductSchema.price IProductSchema.stock].
  rewrite Hn', Hp, Hs, Hk'. cbv zeta.
  eexists _, _. split; [reflexivity|].
  cbn [Product.name Product.description Product.sku Product.price Product.stock
       Product.categoryId Product._entity IProductSchema.name IProductSchema.description
       IProductSchema.sku IProductSchema.price IProductSchema.stock IProductSchema.categoryId].
  rewrite !trim_idem, normalize_idem. repeat split.
Qed.

(** A keyboard entered with spaces around its name and its SKU. *)
Lemma X12_witness :
  Range.isASCII " Keyboard " = true /\ Range.isASCII " x" = true /\
  Range.isASCII " kbd-001 " = true /\
  exists (w' : Runtime.World) (p : Product.t),
    Product.create "p-2" " Keyboard " " x" 30%float (JS.Int 4) " kbd-001 " "electronics"
      Example.world = (w', Errors.Return p) /\
    passesChecks (Product._entity p) /\
    Product.name p = "Keyboard" /\
    Product.description p = "x" /\
    Product.sku p = "KBD-001" /\
    Product.isActive p = true /\
    Product.createdAt p = Product.updatedAt p /\
    exists (w2 : Runtime.World) (p1 : Product.t),
      Product.create "p-3" (Product.name p) (Product.description p) (Product.price p)
        (Product.stock p) (Product.sku p) (Product.categoryId p) Example.world
      = (w2, Errors.Return p1) /\
      Product.name p1 = Product.name p /\
      Product.description p1 = Product.description p /\
      Product.sku p1 = Product.sku p /\
      Product.price p1 = Product.price p /\
      Product.stock p1 = Product.stock p /\
      Product.categoryId p1 = Product.categoryId p.
Proof.
  assert (Range.isASCII " Keyboard " = true) as A1 by reflexivity.
  assert (Range.isASCII " x" = true) as A2 by reflexivity.
  assert (Range.isASCII " kbd-001 " = true) as A3 by reflexivity.
  assert (exists w' p,
            Product.create "p-2" " Keyboard " " x" 30%float (JS.Int 4) " kbd-001 "
              "electronics" Example.world = (w', Errors.Return p)) as (w' & p & H)
    by (eexists _, _; vm_compute; reflexivity).
  split; [exact A1|]. split; [exact A2|]. split; [exact A3|].
  exists w', p. split; [exact H|].
  exact (X12_create_stores_normal_forms Example.world w' Example.world "p-2" "p-3"
           " Keyboard " " x" 30%float (JS.Int 4) " kbd-001 " "electronics" p A1 A2 A3 H).
Defined.

(* ================================================================== *)
(** ** The use cases, end to end *)
(* ================================================================== *)

Section UseCaseFacts.
Import Errors Runtime.

Lemma getProductById_found (w : World) (id : string) (row : ProductEntity.t) :
  products w !! id = Some row ->
  GetProductByIdUseCase.execute id w
  = (afterFind w id row, Return (mapToDTO (Product.mk (schemaOf row)))).
Proof.
  intros H. unfold GetProductByIdUseCase.execute. rewrite bind_step, (findById_found w id row H).
  reflexivity.
Qed.

Lemma getProductById_missing (w : World) (id : string) :
  products w !! id = None ->
  GetProductByIdUseCase.execute id w
  = (afterCall w (CallFindById id), Throw (ProductNotFoundError id "id")).
Proof.
  intros H. unfold GetProductByIdUseCase.execute. rewrite bind_step, (findById_missing w id H).
  reflexivity.
Qed.

Lemma deleteProduct_found (w : World) (id : string) (row : ProductEntity.t) :
  products w !! id = Some row ->
  exists w' : World,
    DeleteProductUseCase.execute id w = (w', Return tt) /\
    products w' = base.delete id (products w) /\
    calls w' = (calls w ++ [CallFindById id; CallDelete id])%list.
Proof.
  intros H. unfold DeleteProductUseCase.execute.
  rewrite bind_step, (findById_found w id row H). cbv beta iota.
  unfold ProductRepository.delete. run. eexists. split; [reflexivity|].
  cbn [products calls afterFind]. rewrite <- app_assoc. split; reflexivity.
Qed.

Lemma deleteProduct_missing (w : World) (id : string) :
  products w !! id = None ->
  DeleteProductUseCase.execute id w
  = (afterCall w (CallFindById id), Throw (ProductNotFoundError id "id")).
Proof.
  intros H. unfold DeleteProductUseCase.execute.
  rewrite bind_step, (findById_missing w id H). reflexivity.
Qed.

End UseCaseFacts.

(** X13.  For an identifier that is the text of a uuid,
    [GetProductByIdUseCase] answers with the stored product when the
    identifier is in the table, and throws [ProductNotFoundError] for
    that identifier otherwise.  It makes the single repository call
    [findById] and leaves the table as it was.  In the answer,
    [isInStock] says that the stock is positive and [isLowStock] that
    it is positive and at most 10. *)
Theorem X13_getProductById :
  forall (w : Runtime.World) (id : string),
    Range.isUUID id = true ->
    match GetProductByIdUseCase.execute id w with
    | (w', Errors.Return dto) =>
        exists row : ProductEntity.t,
          Runtime.products w !! id = Some row /\
          IProductResponseDTO.id dto = ProductEntity.id row /\
          IProductResponseDTO.name dto = ProductEntity.name row /\
          IProductResponseDTO.description dto = ProductEntity.description row /\
          IProductResponseDTO.price dto = ProductEntity.price row /\
          IProductResponseDTO.stock dto = ProductEntity.stock row /\
          IProductResponseDTO.sku dto = ProductEntity.sku row /\
          IProductResponseDTO.categoryId dto = ProductEntity.categoryId row /\
          IProductResponseDTO.isActive dto = ProductEntity.isActive row /\
          IProductResponseDTO.isInStock dto = JS.gt (ProductEntity.stock row) (JS.Int 0) /\
          IProductResponseDTO.isLowStock dto
          = JS.gt (ProductEntity.stock row) (JS.Int 0)
            && JS.le (ProductEntity.stock row) (JS.Int 10) /\
          IProductResponseDTO.createdAt dto = [JS.Iso (ProductEntity.createdAt row)] /\
          IProductResponseDTO.updatedAt dto = [JS.Iso (ProductEntity.updatedAt row)] /\
          Runtime.products w' = Runtime.products w /\
          Runtime.calls w' = (Runtime.calls w ++ [Runtime.CallFindById id])%list
    | (w', Errors.Throw e) =>
        Runtime.products w !! id = None /\
        e = Errors.ProductNotFoundError id "id" /\
        Runtime.products w' = Runtime.products w /\
        Runtime.constructed w' = Runtime.constructed w /\
        Runtime.calls w' = (Runtime.calls w ++ [Runtime.CallFindById id])%list
    end.
Proof.
  intros w id _. destruct (Runtime.products w !! id) as [row|] eqn:H.
  - rewrite (getProductById_found w id row H). exists row. repeat split; reflexivity.
  - rewrite (getProductById_missing w id H). repeat split; reflexivity.
Qed.

(** The keyboard of the shop, and an identifier that the shop does
    not have. *)
Lemma X13_witness :
  Range.isUUID Example.keyboardId = true /\ Range.isUUID Example.absentId = true /\
  (exists (w' : Runtime.World) (dto : IProductResponseDTO.t),
     GetProductByIdUseCase.execute Example.keyboardId Example.shop = (w', Errors.Return dto) /\
     IProductResponseDTO.id dto = Example.keyboardId /\
     IProductResponseDTO.name dto = "Keyboard" /\
     IProductResponseDTO.sku dto = "KEY-001" /\
     IProductResponseDTO.stock dto = JS.Int 7 /\
     IProductResponseDTO.isInStock dto = true /\
     IProductResponseDTO.isLowStock dto = true /\
     Runtime.products w' = Runtime.products Example.shop /\
     Runtime.calls w' = [Runtime.CallFindById Example.keyboardId]) /\
  (exists w' : Runtime.World,
     GetProductByIdUseCase.execute Example.absentId Example.shop
     = (w', Errors.Throw (Errors.ProductNotFoundError Example.absentId "id")) /\
     Runtime.products w' = Runtime.products Example.shop /\
     Runtime.calls w' = [Runtime.CallFindById Example.absentId]).
Proof.
  assert (Range.isUUID Example.keyboardId = true) as U1 by reflexivity.
  assert (Range.isUUID Example.absentId = true) as U2 by reflexivity.
  pose proof (X13_getProductById Example.shop Example.keyboardId U1) as T1.
  pose proof (X13_getProductById Example.shop Example.absentId U2) as T2.
  split; [exact U1|]. split; [exact U2|]. split.
  - destruct (GetProductByIdUseCase.execute Example.keyboardId Example.shop)
      as [w1 [dto|e]] eqn:E; [|vm_compute in E; discriminate E].
    destruct T1 as (row & Hrow & Hid & Hname & _ & _ & Hstock & Hsku & _ & _ & Hin & Hlow
                    & _ & _ & Hp & Hc).
    assert (row = Example.keyboard) as ->
      by (vm_compute in Hrow; injection Hrow as <-; reflexivity).
    exists w1, dto. split; [reflexivity|].
    split; [exact Hid|]. split; [exact Hname|]. split; [exact Hsku|].
    split; [exact Hstock|]. split; [rewrite Hin; reflexivity|].
    split; [rewrite Hlow; reflexivity|]. split; [exact Hp|exact Hc].
  - destruct (GetProductByIdUseCase.execute Example.absentId Example.shop)
      as [w1 [dto|e]] eqn:E; [vm_compute in E; discriminate E|].
    destruct T2 as (_ & -> & Hp & _ & Hc).
    exists w1. split; [reflexivity|]. split; [exact Hp|exact Hc].
Defined.

(** X14.  For an identifier that is the text of a uuid,
    [DeleteProductUseCase] removes the product when the identifier is
    in the table, after the calls [findById] and [delete], and the
    other rows stay; deleting or reading the same identifier again
    then throws [ProductNotFoundError].  When the identifier is not in
    the table it throws [ProductNotFoundError] without calling
    [delete], and the table is as it was. *)
Theorem X14_deleteProduct :
  forall (w : Runtime.World) (id : string),
    Range.isUUID id = true ->
    match DeleteProductUseCase.execute id w with
    | (w', Errors.Return _) =>
        Runtime.products w !! id <> None /\
        Runtime.products w' !! id = None /\
        (forall other, other <> id ->
           Runtime.products w' !! other = Runtime.products w !! other) /\
        Runtime.calls w'
        = (Runtime.calls w ++ [Runtime.CallFindById id; Runtime.CallDelete id])%list /\
        (exists w2, DeleteProductUseCase.execute id w'
                    = (w2, Errors.Throw (Errors.ProductNotFoundError id "id"))) /\
        (exists w2, GetProductByIdUseCase.execute id w'
                    = (w2, Errors.Throw (Errors.ProductNotFoundError id "id")))
    | (w', Errors.Throw e) =>
        Runtime.products w !! id = None /\
        e = Errors.ProductNotFoundError id "id" /\
        Runtime.products w' = Runtime.products w /\
        Runtime.calls w' = (Runtime.calls w ++ [Runtime.CallFindById id])%list
    end.
Proof.
  intros w id _. destruct (Runtime.products w !! id) as [row|] eqn:H.
  - destruct (deleteProduct_found w id row H) as (w' & -> & Hp & Hc).
    assert (Runtime.products w' !! id = None) as Hgone
      by (rewrite Hp; apply lookup_delete_eq).
    split; [discriminate|]. split; [exact Hgone|].
    split; [intros other Hne; rewrite Hp; apply lookup_delete_ne; congruence|].
    split; [exact Hc|]. split; eexists.
    + apply deleteProduct_missing, Hgone.
    + apply getProductById_missing, Hgone.
  - rewrite (deleteProduct_missing w id H). repeat split; reflexivity.
Qed.

(** The keyboard of the shop deleted, and the deletion of an
    identifier that the shop does not have. *)
Lemma X14_witness :
  Range.isUUID Example.keyboardId = true /\ Range.isUUID Example.absentId = true /\
  (exists w' : Runtime.World,
     DeleteProductUseCase.execute Example.keyboardId Example.shop = (w', Errors.Return tt) /\
     Runtime.products w' !! Example.keyboardId = None /\
     Runtime.calls w'
     = [Runtime.CallFindById Example.keyboardId; Runtime.CallDelete Example.keyboardId] /\
     (exists w2, DeleteProductUseCase.execute Example.keyboardId w'
                 = (w2, Errors.Throw (Errors.ProductNotFoundError Example.keyboardId "id")))) /\
  (exists w' : Runtime.World,
     DeleteProductUseCase.execute Example.absentId Example.shop
     = (w', Errors.Throw (Errors.ProductNotFoundError Example.absentId "id")) /\
     Runtime.products w' = Runtime.products Example.shop /\
     Runtime.calls w' = [Runtime.CallFindById Example.absentId]).
Proof.
  assert (Range.isUUID Example.keyboardId = true) as U1 by reflexivity.
  assert (Range.isUUID Example.absentId = true) as U2 by reflexivity.
  pose proof (X14_deleteProduct Example.shop Example.keyboardId U1) as T1.
  pose proof (X14_deleteProduct Example.shop Example.absentId U2) as T2.
  split; [exact U1|]. split; [exact U2|]. split.
  - destruct (DeleteProductUseCase.execute Example.keyboardId Example.shop)
      as [w1 [[]|e]] eqn:E; [|vm_compute in E; discriminate E].
    destruct T1 as (_ & Hgone & _ & Hc & Hagain & _).
    exists w1. split; [reflexivity|]. split; [exact Hgone|]. split; [exact Hc|exact Hagain].
  - destruct (DeleteProductUseCase.execute Example.absentId Example.shop)
      as [w1 [u|e]] eqn:E; [vm_compute in E; discriminate E|].
    destruct T2 as (_ & -> & Hp & Hc).
    exists w1. split; [reflexivity|]. split; [exact Hp|exact Hc].
Defined.
Section UpdateStockOutcomes.
Import Errors Runtime.

Lemma repository_updateStock_found (w : World) (id : string) (newStock : JS.number)
    (row : ProductEntity.t) :
  products w !! id = Some row ->
  exists w' : World,
    ProductRepository.updateStock id newStock w
    = (w', Return (Product.mk (schemaOf (restockedRow row newStock (nowOf w))))) /\
    products w' = <[id := restockedRow row newStock (nowOf w)]> (products w) /\
    calls w' = (calls w ++ [CallUpdateStock id newStock])%list.
Proof.
  intros H. unfold ProductRepository.updateStock, ProductRepository.toDomain,
    Product.createFromPersistence, Product.new. run. rewrite H. run.
  rewrite lookup_insert_eq. eexists. split; [reflexivity|]. split; reflexivity.
Qed.

(** The entity's part of the use case: the product with the stock asked
    for, or the plain [Error] of the entity. *)
Lemma entity_stock_step (this : Product.t) (op : IUpdateStockInput.Operation)
    (quantity : JS.number) (w : World) :
  JS.le quantity (JS.Int 0) = false ->
  match op with
  | IUpdateStockInput.increment => Product.incrementStock this quantity
  | IUpdateStockInput.decrement => Product.decrementStock this quantity
  end w
  = if JS.lt (stockAfter op (Product.stock this) quantity) (JS.Int 0)
    then (w, Throw (Error (JS.lit match op with
                                  | IUpdateStockInput.increment =>
                                      "Product stock cannot be negative"
                                  | IUpdateStockInput.decrement => "Insufficient stock"
                                  end)))
    else
      let e := IProductSchema.withStock (Product._entity this)
                 (stockAfter op (Product.stock this) quantity) (nowOf w) in
      (afterConstruction w e, Return (Product.mk e)).
Proof.
  intros Hq. destruct op; cbn [stockAfter].
  - rewrite Product_incrementStock_outcome, Hq, Product_updateStock_outcome. reflexivity.
  - rewrite Product_decrementStock_outcome, Hq.
    destruct (JS.lt (JS.sub (Product.stock this) quantity) (JS.Int 0)) eqn:Hlt; [reflexivity|].
    rewrite Product_updateStock_outcome, Hlt. reflexivity.
Qed.

(** [UpdateStockUseCase] step by step: the lookup, the check of the
    quantity, the entity, the repository. *)
Lemma updateStock_outcome (w : World) (input : IUpdateStockInput.t) :
  exists w' : World,
    UpdateStockUseCase.execute input w
    = (w',
       match products w !! IUpdateStockInput.productId input with
       | None => Throw (ProductNotFoundError (IUpdateStockInput.productId input) "id")
       | Some row =>
           if JS.le (IUpdateStockInput.quantity input) (JS.Int 0)
           then Throw (forNegativeValue "quantity" (IUpdateStockInput.quantity input))
           else if JS.lt (stockAfter (IUpdateStockInput.operation input)
                            (ProductEntity.stock row) (IUpdateStockInput.quantity input))
                     (JS.Int 0)
           then Throw (Error (JS.lit match IUpdateStockInput.operation input with
                                     | IUpdateStockInput.increment =>
                                         "Product stock cannot be negative"
                                     | IUpdateStockInput.decrement => "Insufficient stock"
                                     end))
           else Return (mapToDTO (Product.mk (schemaOf
                  (restockedRow row
                     (stockAfter (IUpdateStockInput.operation input)
                        (ProductEntity.stock row) (IUpdateStockInput.quantity input))
                     (clock w (S (clockReads w)))))))
       end) /\
    products w'
    = match products w !! IUpdateStockInput.productId input with
      | None => products w
      | Some row =>
          if JS.le (IUpdateStockInput.quantity input) (JS.Int 0) then products w
          else if JS.lt (stockAfter (IUpdateStockInput.operation input)
                           (ProductEntity.stock row) (IUpdateStockInput.quantity input))
                    (JS.Int 0)
          then products w
          else <[IUpdateStockInput.productId input :=
                   restockedRow row
                     (stockAfter (IUpdateStockInput.operation input)
                        (ProductEntity.stock row) (IUpdateStockInput.quantity input))
                     (clock w (S (clockReads w)))]> (products w)
      end /\
    calls w'
    = (calls w ++ CallFindById (IUpdateStockInput.productId input)
         :: match products w !! IUpdateStockInput.productId input with
            | None => []
            | Some row =>
                if JS.le (IUpdateStockInput.quantity input) (JS.Int 0) then []
                else if JS.lt (stockAfter (IUpdateStockInput.operation input)
                                 (ProductEntity.stock row) (IUpdateStockInput.quantity input))
                          (JS.Int 0)
                then []
                else [CallUpdateStock (IUpdateStockInput.productId input)
                        (stockAfter (IUpdateStockInput.operation input)
                           (ProductEntity.stock row) (IUpdateStockInput.quantity input))]
            end)%list.
Proof.
  destruct input as [id q op].
  cbn [IUpdateStockInput.productId IUpdateStockInput.quantity IUpdateStockInput.operation].
  unfold UpdateStockUseCase.execute.
  cbn [IUpdateStockInput.productId IUpdateStockInput.quantity IUpdateStockInput.operation].
  rewrite bind_step.
  destruct (products w !! id) as [row|] eqn:Hrow.
  2:{ rewrite (findById_missing w id Hrow). eexists. repeat split. }
  rewrite (findById_found w id row Hrow). cbv beta iota.
  rewrite bind_step. unfold throwIf at 1.
  destruct (JS.le q (JS.Int 0)) eqn:Hq.
  { eexists. repeat split. }
  unfold ret at 1. cbv beta iota. rewrite bind_step.
  unfold tryCatch. rewrite (entity_stock_step _ op q _ Hq).
  change (Product.stock (Product.mk (schemaOf row))) with (ProductEntity.stock row).
  destruct (JS.lt (stockAfter op (ProductEntity.stock row) q) (JS.Int 0)) eqn:Hlt.
  { eexists. split; [destruct op; reflexivity|]. repeat split. }
  cbv beta iota zeta. rewrite bind_step.
  match goal with
  | |- context [ProductRepository.updateStock id ?s ?W] =>
      assert (products W !! id = Some row) as Hrow' by exact Hrow;
      destruct (repository_updateStock_found W id s row Hrow') as (w' & Hupd & Hp & Hc);
      rewrite Hupd
  end.
  unfold ret. exists w'. split; [reflexivity|]. split; [exact Hp|].
  rewrite Hc. cbn [calls afterConstruction afterFind]. rewrite <- app_assoc. reflexivity.
Qed.

End UpdateStockOutcomes.

(** X15.  [UpdateStockUseCase], outcome by outcome, for an identifier
    that is the text of a uuid and, when a product is stored under it,
    a stored stock, a quantity and a stock asked for (stock plus or
    minus quantity) that the [int] column holds.  It throws
    [ProductNotFoundError] when the identifier is not in the table,
    whatever the quantity; else [InvalidProductDataError] for the field
    [quantity] when [quantity <= 0], zero included; else the plain
    [Error] of the entity when the stock asked for is negative.  In all
    three cases only [findById] has been called and the table is as it
    was.  Otherwise it calls [updateStock] with the stock asked for,
    the row gets that stock and a new [updatedAt] and keeps its other
    fields, and the answer carries that stock. *)
Theorem X15_updateStock_outcomes :
  forall (w : Runtime.World) (input : IUpdateStockInput.t),
    Range.isUUID (IUpdateStockInput.productId input) = true ->
    (forall row : ProductEntity.t,
       Runtime.products w !! IUpdateStockInput.productId input = Some row ->
       stockChangeFits (IUpdateStockInput.operation input) (ProductEntity.stock row)
         (IUpdateStockInput.quantity input) = true) ->
    match UpdateStockUseCase.execute input w with
    | (w', Errors.Return dto) =>
        exists (row : ProductEntity.t) (now : JS.Date),
          Runtime.products w !! IUpdateStockInput.productId input = Some row /\
          JS.le (IUpdateStockInput.quantity input) (JS.Int 0) = false /\
          JS.lt (stockAfter (IUpdateStockInput.operation input) (ProductEntity.stock row)
                   (IUpdateStockInput.quantity input)) (JS.Int 0) = false /\
          IProductResponseDTO.stock dto
          = stockAfter (IUpdateStockInput.operation input) (ProductEntity.stock row)
              (IUpdateStockInput.quantity input) /\
          Runtime.products w'
          = <[IUpdateStockInput.productId input :=
                restockedRow row (IProductResponseDTO.stock dto) now]> (Runtime.products w) /\
          Runtime.calls w'
          = (Runtime.calls w
             ++ [Runtime.CallFindById (IUpdateStockInput.productId input);
                 Runtime.CallUpdateStock (IUpdateStockInput.productId input)
                   (IProductResponseDTO.stock dto)])%list
    | (w', Errors.Throw e) =>
        Runtime.products w' = Runtime.products w /\
        Runtime.calls w'
        = (Runtime.calls w ++ [Runtime.CallFindById (IUpdateStockInput.productId input)])%list /\
        match Runtime.products w !! IUpdateStockInput.productId input with
        | None => e = Errors.ProductNotFoundError (IUpdateStockInput.productId input) "id"
        | Some row =>
            if JS.le (IUpdateStockInput.quantity input) (JS.Int 0)
            then e = Errors.InvalidProductDataError
                       ("quantity cannot be negative. Received: "
                        ++ JS.toString (IUpdateStockInput.quantity input))
                       (Some "quantity")
                       (Some (Errors.UNumber (IUpdateStockInput.quantity input)))
            else JS.lt (stockAfter (IUpdateStockInput.operation input)
                          (ProductEntity.stock row) (IUpdateStockInput.quantity input))
                   (JS.Int 0) = true /\
                 Errors.isDomainError e = false
        end
    end.
Proof.
  intros w input _ _. destruct (updateStock_outcome w input) as (w' & -> & Hp & Hc).
  destruct (Runtime.products w !! IUpdateStockInput.productId input) as [row|] eqn:Hrow.
  2:{ split; [exact Hp|]. split; [exact Hc|reflexivity]. }
  destruct (JS.le (IUpdateStockInput.quantity input) (JS.Int 0)) eqn:Hq.
  { split; [exact Hp|]. split; [exact Hc|reflexivity]. }
  destruct (JS.lt _ (JS.Int 0)) eqn:Hlt.
  { split; [exact Hp|]. split; [exact Hc|]. split; reflexivity. }
  exists row. eexists. split; [reflexivity|]. split; [reflexivity|]. split; [exact Hlt|].
  split; [reflexivity|]. split; [exact Hp|exact Hc].
Qed.

(** On the keyboard of the shop, of which 7 are in stock: an increment
    by 3, a decrement by 10, a quantity of 0; and an increment for an
    identifier that the shop does not have. *)
Lemma X15_witness :
  Range.isUUID Example.keyboardId = true /\ Range.isUUID Example.absentId = true /\
  Runtime.products Example.shop !! Example.keyboardId = Some Example.keyboard /\
  Runtime.products Example.shop !! Example.absentId = None /\
  stockChangeFits IUpdateStockInput.increment (ProductEntity.stock Example.keyboard)
    (JS.Int 3) = true /\
  stockChangeFits IUpdateStockInput.decrement (ProductEntity.stock Example.keyboard)
    (JS.Int 10) = true /\
  stockChangeFits IUpdateStockInput.decrement (ProductEntity.stock Example.keyboard)
    (JS.Int 0) = true /\
  (exists (w' : Runtime.World) (dto : IProductResponseDTO.t) (now : JS.Date),
     UpdateStockUseCase.execute
       (IUpdateStockInput.mk Example.keyboardId (JS.Int 3) IUpdateStockInput.increment)
       Example.shop = (w', Errors.Return dto) /\
     IProductResponseDTO.stock dto = JS.Int 10 /\
     Runtime.products w'
     = <[Example.keyboardId := restockedRow Example.keyboard (JS.Int 10) now]>
         (Runtime.products Example.shop) /\
     Runtime.calls w'
     = [Runtime.CallFindById Example.keyboardId;
        Runtime.CallUpdateStock Example.keyboardId (JS.Int 10)]) /\
  (exists (w' : Runtime.World) (e : Errors.Exn),
     UpdateStockUseCase.execute
       (IUpdateStockInput.mk Example.keyboardId (JS.Int 10) IUpdateStockInput.decrement)
       Example.shop = (w', Errors.Throw e) /\
     Errors.isDomainError e = false /\
     Runtime.products w' = Runtime.products Example.shop /\
     Runtime.calls w' = [Runtime.CallFindById Example.keyboardId]) /\
  (exists w' : Runtime.World,
     UpdateStockUseCase.execute
       (IUpdateStockInput.mk Example.keyboardId (JS.Int 0) IUpdateStockInput.decrement)
       Example.shop
     = (w', Errors.Throw (Errors.InvalidProductDataError
                            "quantity cannot be negative. Received: 0"
                            (Some "quantity") (Some (Errors.UNumber (JS.Int 0))))) /\
     Runtime.products w' = Runtime.products Example.shop) /\
  (exists w' : Runtime.World,
     UpdateStockUseCase.execute
       (IUpdateStockInput.mk Example.absentId (JS.Int 3) IUpdateStockInput.increment)
       Example.shop
     = (w', Errors.Throw (Errors.ProductNotFoundError Example.absentId "id")) /\
     Runtime.products w' = Runtime.products Example.shop).
Proof.
  assert (Range.isUUID Example.keyboardId = true) as U1 by reflexivity.
  assert (Range.isUUID Example.absentId = true) as U2 by reflexivity.
  assert (Runtime.products Example.shop !! Example.keyboardId = Some Example.keyboard) as K1
    by (vm_compute; reflexivity).
  assert (Runtime.products Example.shop !! Example.absentId = None) as K2
    by (vm_compute; reflexivity).
  assert (stockChangeFits IUpdateStockInput.increment (ProductEntity.stock Example.keyboard)
            (JS.Int 3) = true) as F1 by reflexivity.
  assert (stockChangeFits IUpdateStockInput.decrement (ProductEntity.stock Example.keyboard)
            (JS.Int 10) = true) as F2 by reflexivity.
  assert (stockChangeFits IUpdateStockInput.decrement (ProductEntity.stock Example.keyboard)
            (JS.Int 0) = true) as F3 by reflexivity.
  assert (forall operation quantity,
            stockChangeFits operation (ProductEntity.stock Example.keyboard) quantity = true ->
            forall row,
              Runtime.products Example.shop !! Example.keyboardId = Some row ->
              stockChangeFits operation (ProductEntity.stock row) quantity = true) as G
    by (intros operation quantity F row H; rewrite K1 in H; injection H as <-; exact F).
  assert (forall operation quantity row,
            Runtime.products Example.shop !! Example.absentId = Some row ->
            stockChangeFits operation (ProductEntity.stock row) quantity = true) as G'
    by (intros operation quantity row H; rewrite K2 in H; discriminate H).
  pose proof (X15_updateStock_outcomes Example.shop
                (IUpdateStockInput.mk Example.keyboardId (JS.Int 3) IUpdateStockInput.increment)
                U1 (G _ _ F1)) as T1.
  pose proof (X15_updateStock_outcomes Example.shop
                (IUpdateStockInput.mk Example.keyboardId (JS.Int 10) IUpdateStockInput.decrement)
                U1 (G _ _ F2)) as T2.
  pose proof (X15_updateStock_outcomes Example.shop
                (IUpdateStockInput.mk Example.keyboardId (JS.Int 0) IUpdateStockInput.decrement)
                U1 (G _ _ F3)) as T3.
  pose proof (X15_updateStock_outcomes Example.shop
                (IUpdateStockInput.mk Example.absentId (JS.Int 3) IUpdateStockInput.increment)
                U2 (G' _ _)) as T4.
  cbn [IUpdateStockInput.productId IUpdateStockInput.quantity IUpdateStockInput.operation]
    in T1, T2, T3, T4.
  rewrite K1 in T2, T3. rewrite K2 in T4.
  repeat (split; [assumption|]). split; [|split; [|split]].
  - lazymatch goal with
    | |- context [UpdateStockUseCase.execute ?i ?w] =>
        destruct (UpdateStockUseCase.execute i w) as [w1 [dto|e]] eqn:E
    end;
      [|vm_compute in E; discriminate E].
    destruct T1 as (row & now & Hrow & _ & _ & Hs & Hp & Hc).
    rewrite K1 in Hrow. injection Hrow as <-. exists w1, dto, now. split; [reflexivity|].
    split; [exact Hs|]. split; [rewrite Hp, Hs; reflexivity|]. rewrite Hc, Hs. reflexivity.
  - lazymatch goal with
    | |- context [UpdateStockUseCase.execute ?i ?w] =>
        destruct (UpdateStockUseCase.execute i w) as [w1 [dto|e]] eqn:E
    end;
      [vm_compute in E; discriminate E|].
    destruct T2 as (Hp & Hc & Hm). cbn in Hm. destruct Hm as [_ Hd].
    exists w1, e. split; [reflexivity|]. split; [exact Hd|]. split; [exact Hp|exact Hc].
  - lazymatch goal with
    | |- context [UpdateStockUseCase.execute ?i ?w] =>
        destruct (UpdateStockUseCase.execute i w) as [w1 [dto|e]] eqn:E
    end;
      [vm_compute in E; discriminate E|].
    destruct T3 as (Hp & _ & Hm). cbn in Hm. subst e. exists w1. split; [reflexivity|exact Hp].
  - lazymatch goal with
    | |- context [UpdateStockUseCase.execute ?i ?w] =>
        destruct (UpdateStockUseCase.execute i w) as [w1 [dto|e]] eqn:E
    end;
      [vm_compute in E; discriminate E|].
    destruct T4 as (Hp & _ & Hm). subst e. exists w1. split; [reflexivity|exact Hp].
Defined.

Section CreateOutcomes.
Import Errors Runtime.

Lemma existsBySku_outcome (w : World) (sku : string) :
  ProductRepository.existsBySku sku w
  = (afterCall w (CallExistsBySku sku),
     Return (0 <? ProductRepository.countBySku (JS.toUpperCase sku) (products w))%nat).
Proof. reflexivity. Qed.

Lemma repository_create_outcome (product : Product.t) (w : World) :
  exists w' : World,
    ProductRepository.create product w
    = (w',
       if ProductRepository.skuTakenByOther (Product.id product) (Product.sku product)
            (products w)
       then Throw (Error (JS.lit "duplicate key value violates unique constraint"))
       else Return (Product.mk (schemaOf (savedRow product (products w) (nowOf w))))) /\
    products w'
    = (if ProductRepository.skuTakenByOther (Product.id product) (Product.sku product)
            (products w)
       then products w
       else <[Product.id product := savedRow product (products w) (nowOf w)]> (products w)) /\
    calls w' = (calls w ++ [CallCreate (Product.id product)])%list /\
    uuidReads w' = uuidReads w.
Proof.
  unfold ProductRepository.create, ProductRepository.toDomain,
    Product.createFromPersistence, Product.new. run.
  destruct (ProductRepository.skuTakenByOther _ _ _).
  - eexists. split; [reflexivity|]. repeat split.
  - eexists. split; [reflexivity|]. repeat split.
Qed.

Lemma creatable_create (input : ICreateProductDTO.t) (id : string) (w : World) :
  Product.create id (ICreateProductDTO.name input) (ICreateProductDTO.description input)
    (ICreateProductDTO.price input) (ICreateProductDTO.stock input)
    (ICreateProductDTO.sku input) (ICreateProductDTO.categoryId input) w
  = if creatable input
    then (afterConstruction w (Product._entity (createdProduct input id (nowOf w))),
          Return (createdProduct input id (nowOf w)))
    else (w, Throw (Error (JS.lit (firstFailure input)))).
Proof.
  rewrite Product_create_outcome. unfold creatable, firstFailure.
  destruct (JS.isBlank (ICreateProductDTO.name input)); [reflexivity|].
  destruct (PrimFloat.ltb (ICreateProductDTO.price input) 0%float); [reflexivity|].
  destruct (JS.lt (ICreateProductDTO.stock input) (JS.Int 0)); [reflexivity|].
  destruct (JS.isBlank (ICreateProductDTO.sku input)); reflexivity.
Qed.

(** [CreateProductUseCase] step by step: the duplicate check, the
    checks of the entity, the unique index, the saved row. *)
Lemma createProduct_outcome (w : World) (input : ICreateProductDTO.t) :
  exists w' : World,
    CreateProductUseCase.execute input w
    = (w',
       if (0 <? ProductRepository.countBySku (JS.toUpperCase (ICreateProductDTO.sku input))
                  (products w))%nat
       then Throw (DuplicateProductCodeError (ICreateProductDTO.sku input) "sku")
       else if creatable input
       then
         if ProductRepository.skuTakenByOther (nextUUID w)
              (JS.toUpperCase (JS.trim (ICreateProductDTO.sku input))) (products w)
         then Throw (Error (JS.lit "duplicate key value violates unique constraint"))
         else Return (mapToDTO (Product.mk (schemaOf
                (savedRow (createdProduct input (nextUUID w) (nowOf w)) (products w)
                   (clock w (S (clockReads w)))))))
       else Throw (Error (JS.lit (firstFailure input)))) /\
    products w'
    = (if (0 <? ProductRepository.countBySku (JS.toUpperCase (ICreateProductDTO.sku input))
                  (products w))%nat
       then products w
       else if creatable input
       then
         if ProductRepository.skuTakenByOther (nextUUID w)
              (JS.toUpperCase (JS.trim (ICreateProductDTO.sku input))) (products w)
         then products w
         else <[nextUUID w :=
                  savedRow (createdProduct input (nextUUID w) (nowOf w)) (products w)
                    (clock w (S (clockReads w)))]> (products w)
       else products w) /\
    calls w'
    = (calls w ++ CallExistsBySku (ICreateProductDTO.sku input)
         :: (if (0 <? ProductRepository.countBySku
                        (JS.toUpperCase (ICreateProductDTO.sku input)) (products w))%nat
             then []
             else if creatable input then [CallCreate (nextUUID w)] else []))%list /\
    uuidReads w'
    = (if (0 <? ProductRepository.countBySku (JS.toUpperCase (ICreateProductDTO.sku input))
                  (products w))%nat
       then uuidReads w else S (uuidReads w)) /\
    constructed w'
    = (constructed w
       ++ (if (0 <? ProductRepository.countBySku
                      (JS.toUpperCase (ICreateProductDTO.sku input)) (products w))%nat
           then []
           else if creatable input
           then Product._entity (createdProduct input (nextUUID w) (nowOf w))
                :: (if ProductRepository.skuTakenByOther (nextUUID w)
                         (JS.toUpperCase (JS.trim (ICreateProductDTO.sku input)))
                         (products w)
                    then []
                    else [schemaOf (savedRow (createdProduct input (nextUUID w) (nowOf w))
                                      (products w) (clock w (S (clockReads w))))])
           else []))%list.
Proof.
  unfold CreateProductUseCase.execute.
  rewrite bind_step, existsBySku_outcome.
  destruct (0 <? ProductRepository.countBySku _ _)%nat.
  { eexists. split; [reflexivity|]. cbn [products calls uuidReads constructed afterCall].
    rewrite app_nil_r. repeat split. }
  cbv beta iota. rewrite bind_step. cbn [throwIf]. unfold ret at 1.
  cbv beta iota. rewrite bind_step. unfold randomUUID at 1. cbv beta iota.
  rewrite bind_step, creatable_create.
  destruct (creatable input).
  2:{ eexists. split; [reflexivity|]. cbn [products calls uuidReads constructed afterCall].
      rewrite app_nil_r. repeat split. }
  cbv beta iota zeta.
  unfold ProductRepository.create, ProductRepository.toDomain,
    Product.createFromPersistence, Product.new. run.
  cbn [afterCall products calls uuidReads constructed clock clockReads uuids nowOf].
  change (uuids w (uuidReads w)) with (nextUUID w).
  change (clock w (clockReads w)) with (nowOf w).
  cbn [Product.id Product.sku createdProduct Product._entity IProductSchema.id
       IProductSchema.sku].
  destruct (ProductRepository.skuTakenByOther _ _ _).
  - eexists. split; [reflexivity|].
    cbn [products calls uuidReads constructed afterConstruction afterCall clock clockReads
         uuids].
    rewrite <- ?app_assoc. repeat split.
  - eexists. split; [reflexivity|].
    cbn [products calls uuidReads constructed afterConstruction afterCall clock clockReads
         uuids].
    rewrite <- ?app_assoc. repeat split.
Qed.

End CreateOutcomes.

(** X16.  [CreateProductUseCase], outcome by outcome, for an input
    whose fields the columns of the table hold as they are (ASCII text
    within the widths of the columns, a price of two decimals, a stock
    within [int]) and an identifier from [randomUUID] that is the text
    of a uuid.  When it returns, no row carried the upper-cased SKU of
    the input and the input passed the checks of the entity; the
    answer has the identifier drawn from [randomUUID], the trimmed name
    and description, the trimmed and upper-cased SKU, and is active;
    the table has gained the row stored under that identifier, the
    other rows stay, and [GetProductByIdUseCase] on that identifier
    answers the same DTO.  When it throws, the table is as it was, and
    the error is [DuplicateProductCodeError] exactly when a row carried
    the upper-cased SKU; every other failure is a plain [Error]. *)
Theorem X16_createProduct_outcomes :
  forall (w : Runtime.World) (input : ICreateProductDTO.t),
    Range.isUUID (nextUUID w) = true ->
    Range.fitsColumns input ->
    match CreateProductUseCase.execute input w with
    | (w', Errors.Return dto) =>
        ProductRepository.countBySku (JS.toUpperCase (ICreateProductDTO.sku input))
          (Runtime.products w) = 0%nat /\
        creatable input = true /\
        IProductResponseDTO.id dto = nextUUID w /\
        IProductResponseDTO.name dto = JS.trim (ICreateProductDTO.name input) /\
        IProductResponseDTO.description dto = JS.trim (ICreateProductDTO.description input) /\
        IProductResponseDTO.sku dto = JS.toUpperCase (JS.trim (ICreateProductDTO.sku input)) /\
        IProductResponseDTO.price dto = ICreateProductDTO.price input /\
        IProductResponseDTO.stock dto = ICreateProductDTO.stock input /\
        IProductResponseDTO.categoryId dto = ICreateProductDTO.categoryId input /\
        IProductResponseDTO.isActive dto = true /\
        (exists row : ProductEntity.t,
           Runtime.products w' = <[nextUUID w := row]> (Runtime.products w) /\
           ProductEntity.id row = nextUUID w /\
           ProductEntity.sku row = IProductResponseDTO.sku dto) /\
        Runtime.uuidReads w' = S (Runtime.uuidReads w) /\
        Runtime.calls w'
        = (Runtime.calls w ++ [Runtime.CallExistsBySku (ICreateProductDTO.sku input);
                               Runtime.CallCreate (nextUUID w)])%list /\
        exists w2 : Runtime.World,
          GetProductByIdUseCase.execute (IProductResponseDTO.id dto) w'
          = (w2, Errors.Return dto)
    | (w', Errors.Throw e) =>
        Runtime.products w' = Runtime.products w /\
        (Errors.isDuplicateProductCodeError e = true <->
         ProductRepository.countBySku (JS.toUpperCase (ICreateProductDTO.sku input))
           (Runtime.products w) <> 0%nat) /\
        (Errors.isDuplicateProductCodeError e = true ->
         e = Errors.DuplicateProductCodeError (ICreateProductDTO.sku input) "sku") /\
        (Errors.isDuplicateProductCodeError e = false -> Errors.isDomainError e = false)
    end.
Proof.
  intros w input _ _.
  destruct (createProduct_outcome w input) as (w' & -> & Hp & Hcalls & Hu & _).
  set (n := ProductRepository.countBySku (JS.toUpperCase (ICreateProductDTO.sku input))
              (Runtime.products w)) in *.
  destruct (Nat.ltb_spec 0 n) as [Hn|Hn].
  { split; [exact Hp|]. split; [split; [intros _; lia|reflexivity]|].
    split; [reflexivity|]. discriminate. }
  assert (n = 0%nat) as Hn0 by lia.
  destruct (creatable input) eqn:Hok.
  2:{ split; [exact Hp|]. split; [split; [discriminate|intros H; contradiction]|].
      split; [discriminate|]. reflexivity. }
  destruct (ProductRepository.skuTakenByOther _ _ _) eqn:Htaken.
  { split; [exact Hp|]. split; [split; [discriminate|intros H; contradiction]|].
    split; [discriminate|]. reflexivity. }
  split; [exact Hn0|]. split; [reflexivity|].
  repeat (split; [reflexivity|]).
  split.
  { eexists. split; [exact Hp|]. split; reflexivity. }
  split; [exact Hu|]. split; [exact Hcalls|].
  eexists. apply getProductById_found.
  cbn [IProductResponseDTO.id mapToDTO Product.id Product._entity schemaOf IProductSchema.id
       savedRow ProductEntity.id createdProduct].
  rewrite Hp. apply lookup_insert_eq.
Qed.

(** In the shop: a mouse entered with spaces around its name and its
    SKU; a product entered under the SKU of the keyboard; and a mouse
    with a negative price. *)
Lemma X16_witness :
  let mouse := ICreateProductDTO.mk " Mouse " "x " 20.13%float (JS.Int 5) " mse-002 "
                 "peripherals" in
  let second := ICreateProductDTO.mk "Keys" "x" 30%float (JS.Int 1) "key-001" "peripherals" in
  let free := ICreateProductDTO.mk "Mouse" "x" (-1)%float (JS.Int 5) "mse-002"
                "peripherals" in
  Range.isUUID (nextUUID Example.shop) = true /\
  Range.fitsColumns mouse /\ Range.fitsColumns second /\ Range.fitsColumns free /\
  (exists (w' : Runtime.World) (dto : IProductResponseDTO.t) (row : ProductEntity.t),
     CreateProductUseCase.execute mouse Example.shop = (w', Errors.Return dto) /\
     IProductResponseDTO.id dto = "3f2c1d7e-8a4b-4c6d-9e0f-1a2b3c4d5e6f" /\
     IProductResponseDTO.name dto = "Mouse" /\
     IProductResponseDTO.description dto = "x" /\
     IProductResponseDTO.sku dto = "MSE-002" /\
     IProductResponseDTO.price dto = 20.13%float /\
     IProductResponseDTO.stock dto = JS.Int 5 /\
     IProductResponseDTO.isActive dto = true /\
     Runtime.products w'
     = <["3f2c1d7e-8a4b-4c6d-9e0f-1a2b3c4d5e6f" := row]> (Runtime.products Example.shop) /\
     ProductEntity.sku row = "MSE-002" /\
     (exists w2 : Runtime.World,
        GetProductByIdUseCase.execute "3f2c1d7e-8a4b-4c6d-9e0f-1a2b3c4d5e6f" w'
        = (w2, Errors.Return dto))) /\
  (exists w' : Runtime.World,
     CreateProductUseCase.execute second Example.shop
     = (w', Errors.Throw (Errors.DuplicateProductCodeError "key-001" "sku")) /\
     Runtime.products w' = Runtime.products Example.shop) /\
  (exists (w' : Runtime.World) (e : Errors.Exn),
     CreateProductUseCase.execute free Example.shop = (w', Errors.Throw e) /\
     Errors.isDomainError e = false /\
     Runtime.products w' = Runtime.products Example.shop).
Proof.
  intros mouse second free.
  assert (Range.isUUID (nextUUID Example.shop) = true) as U by reflexivity.
  assert (Range.fitsColumns mouse) as F1.
  { repeat split; try reflexivity. exists 2013. split; [lia|vm_compute; reflexivity]. }
  assert (Range.fitsColumns second) as F2.
  { repeat split; try reflexivity. exists 3000. split; [lia|vm_compute; reflexivity]. }
  assert (Range.fitsColumns free) as F3.
  { repeat split; try reflexivity. exists (-100). split; [lia|vm_compute; reflexivity]. }
  pose proof (X16_createProduct_outcomes Example.shop mouse U F1) as T1.
  pose proof (X16_createProduct_outcomes Example.shop second U F2) as T2.
  pose proof (X16_createProduct_outcomes Example.shop free U F3) as T3.
  split; [exact U|]. split; [exact F1|]. split; [exact F2|]. split; [exact F3|].
  split; [|split].
  - destruct (CreateProductUseCase.execute mouse Example.shop) as [w1 [dto|e]] eqn:E;
      [|vm_compute in E; discriminate E].
    destruct T1 as (_ & _ & Hid & Hname & Hdesc & Hsku & Hprice & Hstock & _ & Hact
                    & (row & Hp & _ & Hrow) & _ & _ & w2 & Hget).
    exists w1, dto, row. split; [reflexivity|].
    split; [exact Hid|]. split; [exact Hname|]. split; [exact Hdesc|].
    split; [exact Hsku|]. split; [exact Hprice|]. split; [exact Hstock|].
    split; [exact Hact|]. split; [exact Hp|]. split; [rewrite Hrow; exact Hsku|].
    exists w2. rewrite Hid in Hget. exact Hget.
  - destruct (CreateProductUseCase.execute second Example.shop) as [w1 [dto|e]] eqn:E;
      [vm_compute in E; discriminate E|].
    destruct T2 as (Hp & [_ Hdup] & Hkind & _).
    assert (Errors.isDuplicateProductCodeError e = true) as Hd
      by (apply Hdup; vm_compute; discriminate).
    rewrite (Hkind Hd). exists w1. split; [reflexivity|exact Hp].
  - destruct (CreateProductUseCase.execute free Example.shop) as [w1 [dto|e]] eqn:E;
      [vm_compute in E; discriminate E|].
    destruct T3 as (Hp & [Hdup _] & _ & Hplain).
    exists w1, e. split; [reflexivity|]. split; [|exact Hp].
    apply Hplain. destruct (Errors.isDuplicateProductCodeError e) eqn:K; [|reflexivity].
    exfalso. apply (Hdup eq_refl). vm_compute. reflexivity.
Defined.

Section DuplicateFacts.
Import Errors Runtime.

Lemma skuTakenByOther_found (table : gmap string ProductEntity.t) (key id sku : string)
    (row : ProductEntity.t) :
  table !! key = Some row -> ProductEntity.sku row = sku -> ProductEntity.id row <> id ->
  ProductRepository.skuTakenByOther id sku table = true.
Proof.
  intros Hrow Hsku Hid. unfold ProductRepository.skuTakenByOther, ProductRepository.rows.
  apply existsb_exists. exists row. split.
  - apply list_elem_of_In, list_elem_of_fmap. exists (key, row). split; [reflexivity|].
    apply elem_of_map_to_list, Hrow.
  - rewrite Hsku, String.eqb_refl. cbn [andb]. apply negb_true_iff, String.eqb_neq, Hid.
Qed.

End DuplicateFacts.




Section UpdateOutcomes.
Import Errors Runtime.

Lemma updateProduct_missing (w : World) (id : string) (data : IUpdateProductDTO.t) :
  products w !! id = None ->
  UpdateProductUseCase.execute (IUpdateProductInput.mk id data) w
  = (afterCall w (CallFindById id), Throw (ProductNotFoundError id "id")).
Proof.
  intros H. unfold UpdateProductUseCase.execute. cbn [IUpdateProductInput.id].
  rewrite bind_step, (findById_missing w id H). reflexivity.
Qed.

Ltac finish_update_table Hrow :=
  rewrite bind_step;
  match goal with
  | |- context [ProductRepository.update ?id ?P ?W] =>
      let w' := fresh "w'" in
      let Hupd := fresh "Hupd" in
      let Hprods := fresh "Hprods" in
      destruct (update_found W id P _ Hrow) as (w' & Hupd & Hprods & _);
      rewrite Hupd; eexists w', _; split; [reflexivity | exact Hprods]
  end.

(** The table after a partial update: the row of the product is
    replaced, the other rows stay. *)
Lemma updateProduct_table (w : World) (id : string) (row : ProductEntity.t)
    (data : IUpdateProductDTO.t) :
  products w !! id = Some row ->
  acceptable data = true ->
  exists (w' : World) (now : JS.Date),
    UpdateProductUseCase.execute (IUpdateProductInput.mk id data) w
    = (w', Return (mapToDTO (Product.mk (schemaOf (patchedRow data row now))))) /\
    products w' = <[id := patchedRow data row now]> (products w).
Proof.
  intros Hrow Hacc. destruct data as [n d p s c a].
  unfold acceptable in Hacc.
  cbn [IUpdateProductDTO.name IUpdateProductDTO.price IUpdateProductDTO.stock
       IUpdateProductDTO.categoryId] in Hacc.
  apply andb_true_iff in Hacc as [Hacc Hc]. apply andb_true_iff in Hacc as [Hacc Hs].
  apply andb_true_iff in Hacc as [Hn Hp].
  unfold UpdateProductUseCase.execute, UpdateProductUseCase.ifDefined.
  cbn [IUpdateProductInput.id IUpdateProductInput.data
       IUpdateProductDTO.name IUpdateProductDTO.description IUpdateProductDTO.price
       IUpdateProductDTO.stock IUpdateProductDTO.categoryId].
  rewrite bind_step, (findById_found w id row Hrow). cbv beta iota.
  rewrite bind_step.
  destruct n as [n|]; cbn [from_option] in Hn;
    [apply negb_true_iff in Hn; rewrite Product_updateName_outcome, Hn|unfold ret at 1];
    cbv beta iota zeta; rewrite bind_step;
    (destruct d as [d|]; [rewrite Product_updateDescription_outcome|unfold ret at 1]);
    cbv beta iota zeta; rewrite bind_step;
    (destruct p as [p|]; cbn [from_option] in Hp;
      [apply negb_true_iff in Hp; rewrite Product_updatePrice_outcome, Hp|unfold ret at 1]);
    cbv beta iota zeta; rewrite bind_step;
    (destruct s as [s|]; cbn [from_option] in Hs;
      [apply negb_true_iff in Hs; rewrite Product_updateStock_outcome, Hs|unfold ret at 1]);
    cbv beta iota zeta; rewrite bind_step;
    (destruct c as [c|]; cbn [from_option] in Hc;
      [apply negb_true_iff in Hc; rewrite Product_updateCategory_outcome, Hc|unfold ret at 1]);
    cbv beta iota zeta; finish_update_table Hrow.
Qed.

End UpdateOutcomes.

(** X19.  [UpdateProductUseCase], outcome by outcome, for an
    identifier that is the text of a uuid and fields that, when
    present, the columns of the table hold as they are (ASCII text
    within the widths of the columns, a price of two decimals, a stock
    within [int]).  It throws [ProductNotFoundError] when the
    identifier is not in the table; it throws the plain [Error] of the
    entity when a field that is present fails its check (blank name,
    negative price, negative stock, blank category); in both cases the
    table is as it was.  Otherwise the row is replaced by the row
    patched with the fields that are present (strings trimmed) and a
    new [updatedAt]; the other rows, and the identifier, SKU,
    activation flag and creation date of the product, stay.  An update
    with no field at all succeeds and changes [updatedAt] only. *)
Theorem X19_updateProduct_outcomes :
  forall (w : Runtime.World) (id : string) (data : IUpdateProductDTO.t),
    Range.isUUID id = true ->
    Range.fitsColumnsWhenPresent data ->
    match UpdateProductUseCase.execute (IUpdateProductInput.mk id data) w with
    | (w', Errors.Return dto) =>
        exists (row : ProductEntity.t) (now : JS.Date),
          Runtime.products w !! id = Some row /\
          acceptable data = true /\
          Runtime.products w' = <[id := patchedRow data row now]> (Runtime.products w) /\
          IProductResponseDTO.name dto
          = from_option JS.trim (ProductEntity.name row) (IUpdateProductDTO.name data) /\
          IProductResponseDTO.description dto
          = from_option JS.trim (ProductEntity.description row)
              (IUpdateProductDTO.description data) /\
          IProductResponseDTO.price dto
          = default (ProductEntity.price row) (IUpdateProductDTO.price data) /\
          IProductResponseDTO.stock dto
          = default (ProductEntity.stock row) (IUpdateProductDTO.stock data) /\
          IProductResponseDTO.categoryId dto
          = from_option JS.trim (ProductEntity.categoryId row)
              (IUpdateProductDTO.categoryId data) /\
          IProductResponseDTO.id dto = ProductEntity.id row /\
          IProductResponseDTO.sku dto = ProductEntity.sku row /\
          IProductResponseDTO.isActive dto = ProductEntity.isActive row /\
          IProductResponseDTO.createdAt dto = [JS.Iso (ProductEntity.createdAt row)]
    | (w', Errors.Throw e) =>
        Runtime.products w' = Runtime.products w /\
        match Runtime.products w !! id with
        | None => e = Errors.ProductNotFoundError id "id"
        | Some _ => acceptable data = false /\ Errors.isDomainError e = false
        end
    end /\
    (forall row, Runtime.products w !! id = Some row ->
       exists w' dto now,
         UpdateProductUseCase.execute
           (IUpdateProductInput.mk id (IUpdateProductDTO.mk None None None None None None)) w
         = (w', Errors.Return dto) /\
         Runtime.products w'
         = <[id := ProductRepository.withUpdatedAt now row]> (Runtime.products w)).
Proof.
  intros w id data _ _. split.
  - destruct (Runtime.products w !! id) as [row|] eqn:Hrow.
    + destruct (acceptable data) eqn:Hacc.
      * destruct (updateProduct_table w id row data Hrow Hacc) as (w' & now & -> & Hp).
        exists row, now. split; [reflexivity|]. split; [reflexivity|]. split; [exact Hp|].
        repeat split.
      * destruct (updateProduct_rejects_invalid_fields w id row Hrow data Hacc)
          as (w' & e & -> & Hp & He).
        split; [exact Hp|]. split; [reflexivity|exact He].
    + rewrite (updateProduct_missing w id data Hrow). split; reflexivity.
  - intros row Hrow.
    destruct (updateProduct_table w id row
                (IUpdateProductDTO.mk None None None None None None) Hrow eq_refl)
      as (w' & now & Hexec & Hp).
    eexists w', _, now. split; [exact Hexec|]. rewrite Hp. destruct row; reflexivity.
Qed.

(** On the keyboard of the shop: a new name between spaces and a new
    price; a name of spaces only; and the same new name for an
    identifier that the shop does not have. *)
Lemma X19_witness :
  let rename := IUpdateProductDTO.mk (Some " Keys ") None (Some 50.5%float) None None None in
  let blank := IUpdateProductDTO.mk (Some "  ") None None None None None in
  Range.isUUID Example.keyboardId = true /\ Range.isUUID Example.absentId = true /\
  Range.fitsColumnsWhenPresent rename /\ Range.fitsColumnsWhenPresent blank /\
  (exists (w' : Runtime.World) (dto : IProductResponseDTO.t) (now : JS.Date),
     UpdateProductUseCase.execute (IUpdateProductInput.mk Example.keyboardId rename)
       Example.shop = (w', Errors.Return dto) /\
     IProductResponseDTO.name dto = "Keys" /\
     IProductResponseDTO.price dto = 50.5%float /\
     IProductResponseDTO.stock dto = JS.Int 7 /\
     IProductResponseDTO.sku dto = "KEY-001" /\
     IProductResponseDTO.isActive dto = true /\
     Runtime.products w'
     = <[Example.keyboardId :=
           ProductEntity.mk Example.keyboardId "Keys" "x" 50.5%float (JS.Int 7) "KEY-001"
             "peripherals" true 0 now]> (Runtime.products Example.shop)) /\
  (exists (w' : Runtime.World) (e : Errors.Exn),
     UpdateProductUseCase.execute (IUpdateProductInput.mk Example.keyboardId blank)
       Example.shop = (w', Errors.Throw e) /\
     Errors.isDomainError e = false /\
     Runtime.products w' = Runtime.products Example.shop) /\
  (exists w' : Runtime.World,
     UpdateProductUseCase.execute (IUpdateProductInput.mk Example.absentId rename)
       Example.shop
     = (w', Errors.Throw (Errors.ProductNotFoundError Example.absentId "id")) /\
     Runtime.products w' = Runtime.products Example.shop).
Proof.
  intros rename blank.
  assert (Range.isUUID Example.keyboardId = true) as U1 by reflexivity.
  assert (Range.isUUID Example.absentId = true) as U2 by reflexivity.
  assert (Runtime.products Example.shop !! Example.keyboardId = Some Example.keyboard) as K1
    by (vm_compute; reflexivity).
  assert (Runtime.products Example.shop !! Example.absentId = None) as K2
    by (vm_compute; reflexivity).
  assert (Range.fitsColumnsWhenPresent rename) as F1.
  { repeat split; try reflexivity. exists 5050. split; [lia|vm_compute; reflexivity]. }
  assert (Range.fitsColumnsWhenPresent blank) as F2 by (repeat split; reflexivity).
  destruct (X19_updateProduct_outcomes Example.shop Example.keyboardId rename U1 F1)
    as [T1 _].
  destruct (X19_updateProduct_outcomes Example.shop Example.keyboardId blank U1 F2)
    as [T2 _].
  destruct (X19_updateProduct_outcomes Example.shop Example.absentId rename U2 F1)
    as [T3 _].
  rewrite K1 in T2. rewrite K2 in T3.
  split; [exact U1|]. split; [exact U2|]. split; [exact F1|]. split; [exact F2|].
  split; [|split].
  - lazymatch goal with
    | |- context [UpdateProductUseCase.execute ?i ?w] =>
        destruct (UpdateProductUseCase.execute i w) as [w1 [dto|e]] eqn:E
    end; [|vm_compute in E; discriminate E].
    destruct T1 as (row & now & Hrow & _ & Hp & Hname & _ & Hprice & Hstock & _ & _ & Hsku
                    & Hact & _).
    rewrite K1 in Hrow. injection Hrow as <-.
    exists w1, dto, now. split; [reflexivity|].
    split; [exact Hname|]. split; [exact Hprice|]. split; [exact Hstock|].
    split; [exact Hsku|]. split; [exact Hact|]. exact Hp.
  - lazymatch goal with
    | |- context [UpdateProductUseCase.execute ?i ?w] =>
        destruct (UpdateProductUseCase.execute i w) as [w1 [dto|e]] eqn:E
    end; [vm_compute in E; discriminate E|].
    destruct T2 as (Hp & _ & Hd). exists w1, e. split; [reflexivity|].
    split; [exact Hd|exact Hp].
  - lazymatch goal with
    | |- context [UpdateProductUseCase.execute ?i ?w] =>
        destruct (UpdateProductUseCase.execute i w) as [w1 [dto|e]] eqn:E
    end; [vm_compute in E; discriminate E|].
    destruct T3 as (Hp & ->). exists w1. split; [reflexivity|exact Hp].
Defined.

Section TableFacts.
Import Errors Runtime.

Lemma consistent_replace (table : gmap string ProductEntity.t) (key : string)
    (row row' : ProductEntity.t) :
  tableConsistent table -> table !! key = Some row ->
  ProductEntity.id row' = ProductEntity.id row ->
  ProductEntity.sku row' = ProductEntity.sku row ->
  tableConsistent (<[key := row']> table).
Proof.
  intros [Hkey Huniq] Hrow Hid Hsku. split.
  - intros k r. destruct (decide (k = key)) as [->|Hne].
    + rewrite lookup_insert_eq. intros [= <-]. rewrite Hid. apply (Hkey _ _ Hrow).
    + rewrite lookup_insert_ne by congruence. apply Hkey.
  - intros k1 k2 r1 r2.
    destruct (decide (k1 = key)) as [->|H1], (decide (k2 = key)) as [->|H2];
      rewrite ?lookup_insert_eq, ?lookup_insert_ne by congruence.
    + reflexivity.
    + intros [= <-] H E. rewrite Hsku in E. apply (Huniq _ _ _ _ Hrow H E).
    + intros H [= <-] E. rewrite Hsku in E. apply (Huniq _ _ _ _ H Hrow E).
    + apply Huniq.
Qed.

Lemma consistent_delete (table : gmap string ProductEntity.t) (key : string) :
  tableConsistent table -> tableConsistent (base.delete key table).
Proof.
  intros [Hkey Huniq]. split.
  - intros k r H. apply lookup_delete_Some in H as [_ H]. apply (Hkey _ _ H).
  - intros k1 k2 r1 r2 H1 H2.
    apply lookup_delete_Some in H1 as [_ H1]. apply lookup_delete_Some in H2 as [_ H2].
    apply (Huniq _ _ _ _ H1 H2).
Qed.

Lemma skuTakenByOther_false (table : gmap string ProductEntity.t) (id sku key : string)
    (row : ProductEntity.t) :
  ProductRepository.skuTakenByOther id sku table = false ->
  table !! key = Some row -> ProductEntity.sku row = sku -> ProductEntity.id row = id.
Proof.
  intros Hfree Hrow Hsku.
  destruct (String.eqb_spec (ProductEntity.id row) id) as [E|Hne]; [exact E|].
  rewrite (skuTakenByOther_found table key id sku row Hrow Hsku Hne) in Hfree. discriminate.
Qed.

Lemma consistent_save (table : gmap string ProductEntity.t) (key : string)
    (row : ProductEntity.t) :
  tableConsistent table -> ProductEntity.id row = key ->
  ProductRepository.skuTakenByOther key (ProductEntity.sku row) table = false ->
  tableConsistent (<[key := row]> table).
Proof.
  intros [Hkey Huniq] Hid Hfree. split.
  - intros k r. destruct (decide (k = key)) as [->|Hne].
    + rewrite lookup_insert_eq. intros [= <-]. exact Hid.
    + rewrite lookup_insert_ne by congruence. apply Hkey.
  - intros k1 k2 r1 r2.
    destruct (decide (k1 = key)) as [->|H1], (decide (k2 = key)) as [->|H2];
      rewrite ?lookup_insert_eq, ?lookup_insert_ne by congruence.
    + reflexivity.
    + intros [= <-] H E. symmetry in E.
      pose proof (skuTakenByOther_false _ _ _ _ _ Hfree H E) as Hr.
      rewrite (Hkey _ _ H) in Hr. congruence.
    + intros H [= <-] E.
      pose proof (skuTakenByOther_false _ _ _ _ _ Hfree H E) as Hr.
      rewrite (Hkey _ _ H) in Hr. congruence.
    + apply Huniq.
Qed.

(** Each use case keeps the table in good order. *)
Lemma serve_consistent (w : World) (request : Request) :
  tableConsistent (products w) -> tableConsistent (products (serve w request)).
Proof.
  intros Hok. destruct request as [input|id|[id data]|id|input]; cbn [serve].
  - destruct (createProduct_outcome w input) as (w' & -> & Hp & _). cbn [fst]. rewrite Hp.
    destruct (0 <? _)%nat; [exact Hok|].
    destruct (creatable input); [|exact Hok].
    destruct (ProductRepository.skuTakenByOther _ _ _) eqn:Hfree; [exact Hok|].
    apply consistent_save; [exact Hok|reflexivity|exact Hfree].
  - destruct (products w !! id) as [row|] eqn:Hrow.
    + rewrite (getProductById_found w id row Hrow). exact Hok.
    + rewrite (getProductById_missing w id Hrow). exact Hok.
  - destruct (products w !! id) as [row|] eqn:Hrow.
    + destruct (acceptable data) eqn:Hacc.
      * destruct (updateProduct_table w id row data Hrow Hacc) as (w' & now & -> & Hp).
        cbn [fst]. rewrite Hp. apply (consistent_replace _ _ row); auto.
      * destruct (updateProduct_rejects_invalid_fields w id row Hrow data Hacc)
          as (w' & e & -> & Hp & _).
        cbn [fst]. rewrite Hp. exact Hok.
    + rewrite (updateProduct_missing w id data Hrow). exact Hok.
  - destruct (products w !! id) as [row|] eqn:Hrow.
    + destruct (deleteProduct_found w id row Hrow) as (w' & -> & Hp & _).
      cbn [fst]. rewrite Hp. apply consistent_delete, Hok.
    + rewrite (deleteProduct_missing w id Hrow). exact Hok.
  - destruct (updateStock_outcome w input) as (w' & -> & Hp & _). cbn [fst]. rewrite Hp.
    destruct (products w !! IUpdateStockInput.productId input) as [row|] eqn:Hrow;
      [|exact Hok].
    destruct (JS.le _ _); [exact Hok|]. destruct (JS.lt _ _); [exact Hok|].
    apply (consistent_replace _ _ row); auto.
Qed.

End TableFacts.

(** X20.  Whatever requests the use cases serve, in whatever order and
    whether they succeed or throw, a table in good order stays in good
    order: each row is stored under its own identifier and no two
    products carry the same SKU. *)
Theorem X20_use_cases_keep_sku_unique :
  forall (requests : list Request) (w : Runtime.World),
    tableConsistent (Runtime.products w) ->
    tableConsistent (Runtime.products (fold_left serve requests w)).
Proof.
  induction requests as [|request requests IH]; intros w Hok; [exact Hok|].
  cbn [fold_left]. apply IH, serve_consistent, Hok.
Qed.

Lemma X20_witness :
  tableConsistent (Runtime.products Example.world) /\
  tableConsistent
    (Runtime.products
       (fold_left serve
          [CreateRequest (ICreateProductDTO.mk "Mouse 2" "x" 20%float (JS.Int 5) " mse-001"
                            "electronics");
           StockRequest (IUpdateStockInput.mk "p-1" (JS.Int 2) IUpdateStockInput.decrement);
           DeleteRequest "p-1"]
          Example.world)).
Proof.
  assert (tableConsistent (Runtime.products Example.world)) as Hok.
  { split.
    - intros key row. cbn [Runtime.products Example.world].
      destruct (decide (key = "p-1")) as [->|Hne].
      + rewrite lookup_insert_eq. intros [= <-]. reflexivity.
      + rewrite lookup_insert_ne, lookup_empty by congruence. discriminate.
    - intros k1 k2 r1 r2. cbn [Runtime.products Example.world].
      destruct (decide (k1 = "p-1")) as [->|H1], (decide (k2 = "p-1")) as [->|H2];
        rewrite ?lookup_insert_eq, ?lookup_insert_ne, ?lookup_empty by congruence;
        try discriminate.
      reflexivity. }
  split; [exact Hok|].
  exact (X20_use_cases_keep_sku_unique _ Example.world Hok).
Defined.

(* ================================================================== *)
(** ** [ProductRepository]: the methods that no use case calls *)
(* ================================================================== *)

Section AdapterFacts.
Import Errors Runtime.

Lemma updateRow_found (w : World) (id : string) (row : ProductEntity.t)
    (change : ProductEntity.t -> ProductEntity.t) :
  products w !! id = Some row ->
  ProductRepository.updateRow id change w
  = (mkWorld (clock w) (clockReads w) (uuids w) (uuidReads w)
       (<[id := change row]> (products w)) (constructed w) (calls w),
     Return tt).
Proof. intros H. unfold ProductRepository.updateRow. run. rewrite H. reflexivity. Qed.

Lemma updateRow_missing (w : World) (id : string)
    (change : ProductEntity.t -> ProductEntity.t) :
  products w !! id = None ->
  ProductRepository.updateRow id change w = (w, Return tt).
Proof. intros H. unfold ProductRepository.updateRow. run. rewrite H. reflexivity. Qed.

Lemma reload_found (w : World) (id after : string) (row : ProductEntity.t) :
  products w !! id = Some row ->
  ProductRepository.reload id after w
  = (mkWorld (clock w) (clockReads w) (uuids w) (uuidReads w)
       (products w) (constructed w ++ [schemaOf row]) (calls w),
     Return (Product.mk (schemaOf row))).
Proof.
  intros H. unfold ProductRepository.reload, ProductRepository.toDomain,
    Product.createFromPersistence, Product.new. run. rewrite H. reflexivity.
Qed.

Lemma reload_missing (w : World) (id after : string) :
  products w !! id = None ->
  ProductRepository.reload id after w
  = (w, Throw (Error (JS.lit ("Product with id " ++ id ++ " not found after " ++ after)))).
Proof. intros H. unfold ProductRepository.reload. run. rewrite H. reflexivity. Qed.

(** A change of the stock in the table, by [increment] or [decrement]. *)
Lemma adapter_stock_change (w : World) (id after : string) (row : ProductEntity.t)
    (change : JS.number -> JS.number) :
  products w !! id = Some row ->
  (ProductRepository.updateRow id
     (fun e => ProductRepository.withStock (change (ProductEntity.stock e)) e) ;;
   now <- newDate ;;
   ProductRepository.updateRow id (ProductRepository.withUpdatedAt now) ;;
   ProductRepository.reload id after)%js w
  = (mkWorld (clock w) (S (clockReads w)) (uuids w) (uuidReads w)
       (<[id := restockedRow row (change (ProductEntity.stock row)) (nowOf w)]> (products w))
       (constructed w
        ++ [schemaOf (restockedRow row (change (ProductEntity.stock row)) (nowOf w))])
       (calls w),
     Return (Product.mk (schemaOf (restockedRow row (change (ProductEntity.stock row))
                                     (nowOf w))))).
Proof.
  intros H. rewrite bind_step, (updateRow_found w id row _ H). cbv beta iota.
  rewrite bind_step. unfold newDate at 1. cbv beta iota. rewrite bind_step.
  erewrite updateRow_found by (cbn [products]; apply lookup_insert_eq).
  cbv beta iota. erewrite reload_found by (cbn [products]; apply lookup_insert_eq).
  cbn [products clock clockReads uuids uuidReads constructed calls].
  rewrite insert_insert_eq. reflexivity.
Qed.

End AdapterFacts.

(** X21.  The adapter's [incrementStock] and [decrementStock] check
    nothing: for a product stored under the text of a uuid with stock
    [s] and any integer amount [a], positive or not, such that [s],
    [s + a] and [s - a] are values of the [int] column, they store
    [s + a] and [s - a] and return the product with that stock.  A
    decrement above the stock therefore stores a negative stock, and
    the [Product] that comes back breaks the invariant of the entity,
    whose own [decrementStock] refuses the same amount. *)
Theorem X21_adapter_stock_changes_are_unchecked :
  forall (w : Runtime.World) (id : string) (row : ProductEntity.t) (s a : Z),
    Range.isUUID id = true ->
    Runtime.products w !! id = Some row ->
    ProductEntity.stock row = JS.Int s ->
    Range.isInt4 (JS.Int s) = true ->
    Range.isInt4 (JS.Int (s + a)) = true ->
    Range.isInt4 (JS.Int (s - a)) = true ->
    (exists (w' : Runtime.World) (p : Product.t),
       ProductRepository.incrementStock id (JS.Int a) w = (w', Errors.Return p) /\
       Product.stock p = JS.Int (s + a) /\
       Runtime.products w'
       = <[id := restockedRow row (JS.Int (s + a)) (nowOf w)]> (Runtime.products w)) /\
    (exists (w' : Runtime.World) (p : Product.t),
       ProductRepository.decrementStock id (JS.Int a) w = (w', Errors.Return p) /\
       Product.stock p = JS.Int (s - a) /\
       Runtime.products w'
       = <[id := restockedRow row (JS.Int (s - a)) (nowOf w)]> (Runtime.products w) /\
       (s < a -> ~ Spec.stockValid (Product.stock p)) /\
       (s < a -> 0 < a ->
        exists w2, Product.decrementStock (Product.mk (schemaOf row)) (JS.Int a) w
                   = (w2, Errors.Throw (Errors.Error (JS.lit "Insufficient stock"))))).
Proof.
  intros w id row s a _ Hrow Hs _ _ _. split.
  - unfold ProductRepository.incrementStock. rewrite bind_step. cbn [ProductRepository.isNaN
      Runtime.throwIf]. unfold Runtime.ret at 1. cbv beta iota.
    rewrite (adapter_stock_change w id "increment" row (fun x => JS.add x (JS.Int a)) Hrow).
    rewrite Hs. cbn [JS.add]. eexists _, _. split; [reflexivity|]. split; reflexivity.
  - unfold ProductRepository.decrementStock. rewrite bind_step. cbn [ProductRepository.isNaN
      Runtime.throwIf]. unfold Runtime.ret at 1. cbv beta iota.
    rewrite (adapter_stock_change w id "decrement" row (fun x => JS.sub x (JS.Int a)) Hrow).
    rewrite Hs. cbn [JS.sub]. eexists _, _. split; [reflexivity|]. split; [reflexivity|].
    split; [reflexivity|]. split.
    + intros Hlt Hvalid. unfold Spec.stockValid in Hvalid. cbn in Hvalid.
      apply Z.ltb_ge in Hvalid. lia.
    + intros Hlt Hpos. rewrite Product_decrementStock_outcome.
      change (Product.stock (Product.mk (schemaOf row))) with (ProductEntity.stock row).
      rewrite Hs. cbn [JS.le JS.sub JS.lt].
      destruct (Z.leb_spec a 0); [lia|]. destruct (Z.ltb_spec (s - a) 0); [|lia].
      eexists. reflexivity.
Qed.

(** The keyboard of the shop, of which 7 are in stock, incremented
    and decremented by 10. *)
Lemma X21_witness :
  Range.isUUID Example.keyboardId = true /\
  Runtime.products Example.shop !! Example.keyboardId = Some Example.keyboard /\
  ProductEntity.stock Example.keyboard = JS.Int 7 /\
  Range.isInt4 (JS.Int 7) = true /\
  Range.isInt4 (JS.Int (7 + 10)) = true /\
  Range.isInt4 (JS.Int (7 - 10)) = true /\
  (exists (w' : Runtime.World) (p : Product.t),
     ProductRepository.incrementStock Example.keyboardId (JS.Int 10) Example.shop
     = (w', Errors.Return p) /\
     Product.stock p = JS.Int 17 /\
     Runtime.products w'
     = <[Example.keyboardId := restockedRow Example.keyboard (JS.Int 17) (nowOf Example.shop)]>
         (Runtime.products Example.shop)) /\
  (exists (w' : Runtime.World) (p : Product.t),
     ProductRepository.decrementStock Example.keyboardId (JS.Int 10) Example.shop
     = (w', Errors.Return p) /\
     Product.stock p = JS.Int (-3) /\
     Runtime.products w'
     = <[Example.keyboardId := restockedRow Example.keyboard (JS.Int (-3))
                                 (nowOf Example.shop)]>
         (Runtime.products Example.shop) /\
     ~ Spec.stockValid (Product.stock p) /\
     exists w2, Product.decrementStock (Product.mk (schemaOf Example.keyboard)) (JS.Int 10)
                  Example.shop
                = (w2, Errors.Throw (Errors.Error (JS.lit "Insufficient stock")))).
Proof.
  assert (Range.isUUID Example.keyboardId = true) as U by reflexivity.
  assert (Runtime.products Example.shop !! Example.keyboardId = Some Example.keyboard) as H1
    by (vm_compute; reflexivity).
  assert (ProductEntity.stock Example.keyboard = JS.Int 7) as H2 by reflexivity.
  assert (Range.isInt4 (JS.Int 7) = true) as I1 by reflexivity.
  assert (Range.isInt4 (JS.Int (7 + 10)) = true) as I2 by reflexivity.
  assert (Range.isInt4 (JS.Int (7 - 10)) = true) as I3 by reflexivity.
  repeat (split; [assumption|]).
  destruct (X21_adapter_stock_changes_are_unchecked Example.shop Example.keyboardId
              Example.keyboard 7 10 U H1 H2 I1 I2 I3)
    as [T1 (w' & p & Hd & Hs & Hp & Hbad & Hentity)].
  split; [exact T1|]. exists w', p.
  split; [exact Hd|]. split; [exact Hs|]. split; [exact Hp|].
  split; [apply Hbad; lia|apply Hentity; lia].
Defined.

(** X22.  On an identifier that is the text of a uuid and is not in
    the table, the six methods of the adapter that change a row
    ([update], [updateStock], [incrementStock], [decrementStock],
    [activateProduct], [deactivateProduct]), given values that the
    columns hold, write nothing and throw a plain [Error] that names
    the identifier and the change. *)
Theorem X22_adapter_changes_on_missing_id :
  forall (w : Runtime.World) (id : string) (product : Product.t) (newStock : JS.number)
         (a : Z),
    Range.isUUID id = true ->
    Range.productFits product ->
    Range.isInt4 newStock = true ->
    Range.isInt4 (JS.Int a) = true ->
    Runtime.products w !! id = None ->
    (exists w', ProductRepository.update id product w
                = (w', Errors.Throw (Errors.Error
                     (JS.lit ("Product with id " ++ id ++ " not found after update")))) /\
                Runtime.products w' = Runtime.products w) /\
    (exists w', ProductRepository.updateStock id newStock w
                = (w', Errors.Throw (Errors.Error
                     (JS.lit ("Product with id " ++ id ++ " not found after stock update")))) /\
                Runtime.products w' = Runtime.products w) /\
    (exists w', ProductRepository.incrementStock id (JS.Int a) w
                = (w', Errors.Throw (Errors.Error
                     (JS.lit ("Product with id " ++ id ++ " not found after increment")))) /\
                Runtime.products w' = Runtime.products w) /\
    (exists w', ProductRepository.decrementStock id (JS.Int a) w
                = (w', Errors.Throw (Errors.Error
                     (JS.lit ("Product with id " ++ id ++ " not found after decrement")))) /\
                Runtime.products w' = Runtime.products w) /\
    (exists w', ProductRepository.activateProduct id w
                = (w', Errors.Throw (Errors.Error
                     (JS.lit ("Product with id " ++ id ++ " not found after activation")))) /\
                Runtime.products w' = Runtime.products w) /\
    (exists w', ProductRepository.deactivateProduct id w
                = (w', Errors.Throw (Errors.Error
                     (JS.lit ("Product with id " ++ id ++ " not found after deactivation")))) /\
                Runtime.products w' = Runtime.products w).
Proof.
  intros w id product newStock a _ _ _ _ Hnone.
  assert (forall (after : string) (change : JS.number -> JS.number),
            exists w',
              (ProductRepository.updateRow id
                 (fun e => ProductRepository.withStock (change (ProductEntity.stock e)) e) ;;
               now <- Runtime.newDate ;;
               ProductRepository.updateRow id (ProductRepository.withUpdatedAt now) ;;
               ProductRepository.reload id after)%js w
              = (w', Errors.Throw (Errors.Error
                   (JS.lit ("Product with id " ++ id ++ " not found after " ++ after)))) /\
              Runtime.products w' = Runtime.products w) as Hstock.
  { intros after change. rewrite bind_step, updateRow_missing by exact Hnone.
    cbv beta iota. rewrite bind_step. unfold Runtime.newDate at 1. cbv beta iota.
    rewrite bind_step, updateRow_missing by exact Hnone. cbv beta iota.
    rewrite reload_missing by exact Hnone. eexists. split; reflexivity. }
  assert (forall (after : string) (change : JS.Date -> ProductEntity.t -> ProductEntity.t),
            exists w',
              (now <- Runtime.newDate ;;
               ProductRepository.updateRow id (change now) ;;
               ProductRepository.reload id after)%js w
              = (w', Errors.Throw (Errors.Error
                   (JS.lit ("Product with id " ++ id ++ " not found after " ++ after)))) /\
              Runtime.products w' = Runtime.products w) as Hflag.
  { intros after change. rewrite bind_step. unfold Runtime.newDate at 1. cbv beta iota.
    rewrite bind_step, updateRow_missing by exact Hnone. cbv beta iota.
    rewrite reload_missing by exact Hnone. eexists. split; reflexivity. }
  split; [|split; [|split; [|split; [|split]]]].
  - unfold ProductRepository.update. run. rewrite Hnone. run. rewrite Hnone.
    eexists. split; reflexivity.
  - unfold ProductRepository.updateStock. run. rewrite Hnone. run. rewrite Hnone.
    eexists. split; reflexivity.
  - unfold ProductRepository.incrementStock. rewrite bind_step.
    cbn [ProductRepository.isNaN Runtime.throwIf]. unfold Runtime.ret at 1. cbv beta iota.
    apply (Hstock "increment" (fun x => JS.add x (JS.Int a))).
  - unfold ProductRepository.decrementStock. rewrite bind_step.
    cbn [ProductRepository.isNaN Runtime.throwIf]. unfold Runtime.ret at 1. cbv beta iota.
    apply (Hstock "decrement" (fun x => JS.sub x (JS.Int a))).
  - apply (Hflag "activation"
             (fun now e => ProductRepository.withUpdatedAt now
                             (ProductRepository.withIsActive true e))).
  - apply (Hflag "deactivation"
             (fun now e => ProductRepository.withUpdatedAt now
                             (ProductRepository.withIsActive false e))).
Qed.

(** An identifier that the shop does not have. *)
Lemma X22_witness :
  Range.isUUID Example.absentId = true /\
  Range.productFits (Product.mk (schemaOf Example.keyboard)) /\
  Range.isInt4 (JS.Int 1) = true /\
  Runtime.products Example.shop !! Example.absentId = None /\
  (exists w', ProductRepository.update Example.absentId (Product.mk (schemaOf Example.keyboard)) Example.shop
              = (w', Errors.Throw (Errors.Error
                   (JS.lit ("Product with id " ++ Example.absentId ++ " not found after update")))) /\
              Runtime.products w' = Runtime.products Example.shop) /\
  (exists w', ProductRepository.updateStock Example.absentId (JS.Int 1) Example.shop
              = (w', Errors.Throw (Errors.Error
                   (JS.lit ("Product with id " ++ Example.absentId ++ " not found after stock update")))) /\
              Runtime.products w' = Runtime.products Example.shop) /\
  (exists w', ProductRepository.incrementStock Example.absentId (JS.Int 1) Example.shop
              = (w', Errors.Throw (Errors.Error
                   (JS.lit ("Product with id " ++ Example.absentId ++ " not found after increment")))) /\
              Runtime.products w' = Runtime.products Example.shop) /\
  (exists w', ProductRepository.decrementStock Example.absentId (JS.Int 1) Example.shop
              = (w', Errors.Throw (Errors.Error
                   (JS.lit ("Product with id " ++ Example.absentId ++ " not found after decrement")))) /\
              Runtime.products w' = Runtime.products Example.shop) /\
  (exists w', ProductRepository.activateProduct Example.absentId Example.shop
              = (w', Errors.Throw (Errors.Error
                   (JS.lit ("Product with id " ++ Example.absentId ++ " not found after activation")))) /\
              Runtime.products w' = Runtime.products Example.shop) /\
  (exists w', ProductRepository.deactivateProduct Example.absentId Example.shop
              = (w', Errors.Throw (Errors.Error
                   (JS.lit ("Product with id " ++ Example.absentId ++ " not found after deactivation")))) /\
              Runtime.products w' = Runtime.products Example.shop).
Proof.
  assert (Range.isUUID Example.absentId = true) as U by reflexivity.
  assert (Range.productFits (Product.mk (schemaOf Example.keyboard))) as F.
  { repeat split; try reflexivity. exists 4550. split; [lia|vm_compute; reflexivity]. }
  assert (Range.isInt4 (JS.Int 1) = true) as I by reflexivity.
  assert (Runtime.products Example.shop !! Example.absentId = None) as H
    by (vm_compute; reflexivity).
  split; [exact U|]. split; [exact F|]. split; [exact I|]. split; [exact H|].
  exact (X22_adapter_changes_on_missing_id Example.shop Example.absentId
           (Product.mk (schemaOf Example.keyboard)) (JS.Int 1) 1 U F I I H).
Defined.
Section ActivationFacts.
Import Errors Runtime.

Lemma allActive_insert (table : gmap string ProductEntity.t) (key : string)
    (row : ProductEntity.t) :
  allActive table -> ProductEntity.isActive row = true -> allActive (<[key := row]> table).
Proof.
  intros Hall Hrow k r. destruct (decide (k = key)) as [->|Hne].
  - rewrite lookup_insert_eq. intros [= <-]. exact Hrow.
  - rewrite lookup_insert_ne by congruence. apply Hall.
Qed.

Lemma allActive_delete (table : gmap string ProductEntity.t) (key : string) :
  allActive table -> allActive (base.delete key table).
Proof. intros Hall k r H. apply lookup_delete_Some in H as [_ H]. apply (Hall _ _ H). Qed.

Lemma serve_allActive (w : World) (request : Request) :
  allActive (products w) -> allActive (products (serve w request)).
Proof.
  intros Hok. destruct request as [input|id|[id data]|id|input]; cbn [serve].
  - destruct (createProduct_outcome w input) as (w' & -> & Hp & _). cbn [fst]. rewrite Hp.
    destruct (0 <? _)%nat; [exact Hok|].
    destruct (creatable input); [|exact Hok].
    destruct (ProductRepository.skuTakenByOther _ _ _); [exact Hok|].
    apply allActive_insert; [exact Hok|reflexivity].
  - destruct (products w !! id) as [row|] eqn:Hrow.
    + rewrite (getProductById_found w id row Hrow). exact Hok.
    + rewrite (getProductById_missing w id Hrow). exact Hok.
  - destruct (products w !! id) as [row|] eqn:Hrow.
    + destruct (acceptable data) eqn:Hacc.
      * destruct (updateProduct_table w id row data Hrow Hacc) as (w' & now & -> & Hp).
        cbn [fst]. rewrite Hp. apply allActive_insert; [exact Hok|].
        apply (Hok _ _ Hrow).
      * destruct (updateProduct_rejects_invalid_fields w id row Hrow data Hacc)
          as (w' & e & -> & Hp & _).
        cbn [fst]. rewrite Hp. exact Hok.
    + rewrite (updateProduct_missing w id data Hrow). exact Hok.
  - destruct (products w !! id) as [row|] eqn:Hrow.
    + destruct (deleteProduct_found w id row Hrow) as (w' & -> & Hp & _).
      cbn [fst]. rewrite Hp. apply allActive_delete, Hok.
    + rewrite (deleteProduct_missing w id Hrow). exact Hok.
  - destruct (updateStock_outcome w input) as (w' & -> & Hp & _). cbn [fst]. rewrite Hp.
    destruct (products w !! IUpdateStockInput.productId input) as [row|] eqn:Hrow;
      [|exact Hok].
    destruct (JS.le _ _); [exact Hok|]. destruct (JS.lt _ _); [exact Hok|].
    apply allActive_insert; [exact Hok|]. apply (Hok _ _ Hrow).
Qed.

End ActivationFacts.

(** X23.  No use case ever deactivates a product: products are created
    active, and whatever requests the use cases serve, if every stored
    product is active before, every stored product is active after.
    The methods that change the flag, [activate] and [deactivate] of
    the entity and [activateProduct] and [deactivateProduct] of the
    adapter, are called by none of them; [deactivateProduct] itself
    does store the product as inactive. *)
Theorem X23_use_cases_never_deactivate :
  forall (requests : list Request) (w : Runtime.World),
    allActive (Runtime.products w) ->
    allActive (Runtime.products (fold_left serve requests w)) /\
    (forall (id : string) (row : ProductEntity.t),
       Runtime.products w !! id = Some row ->
       exists (w' : Runtime.World) (p : Product.t),
         ProductRepository.deactivateProduct id w = (w', Errors.Return p) /\
         Product.isActive p = false /\
         (ProductEntity.isActive <$> Runtime.products w' !! id) = Some false /\
         ~ allActive (Runtime.products w')).
Proof.
  intros requests w Hok. split.
  - revert w Hok. induction requests as [|request requests IH]; intros w Hok; [exact Hok|].
    cbn [fold_left]. apply IH, serve_allActive, Hok.
  - intros id row Hrow. unfold ProductRepository.deactivateProduct.
    rewrite bind_step. unfold Runtime.newDate at 1. cbv beta iota.
    rewrite bind_step. erewrite updateRow_found by (cbn [Runtime.products]; exact Hrow).
    cbv beta iota. erewrite reload_found by (cbn [Runtime.products]; apply lookup_insert_eq).
    eexists _, _. split; [reflexivity|]. split; [reflexivity|].
    cbn [Runtime.products]. rewrite lookup_insert_eq. split; [reflexivity|].
    intros Hall. specialize (Hall id _ (lookup_insert_eq _ _ _)). discriminate Hall.
Qed.

Lemma X23_witness :
  allActive (Runtime.products Example.world) /\
  allActive
    (Runtime.products
       (fold_left serve
          [UpdateRequest (IUpdateProductInput.mk "p-1"
                            (IUpdateProductDTO.mk None None None None None (Some false)));
           StockRequest (IUpdateStockInput.mk "p-1" (JS.Int 2) IUpdateStockInput.decrement)]
          Example.world)) /\
  (forall (id : string) (row : ProductEntity.t),
     Runtime.products Example.world !! id = Some row ->
     exists (w' : Runtime.World) (p : Product.t),
       ProductRepository.deactivateProduct id Example.world = (w', Errors.Return p) /\
       Product.isActive p = false /\
       (ProductEntity.isActive <$> Runtime.products w' !! id) = Some false /\
       ~ allActive (Runtime.products w')).
Proof.
  assert (allActive (Runtime.products Example.world)) as Hok.
  { intros key row. cbn [Runtime.products Example.world].
    destruct (decide (key = "p-1")) as [->|Hne].
    - rewrite lookup_insert_eq. intros [= <-]. reflexivity.
    - rewrite lookup_insert_ne, lookup_empty by congruence. discriminate. }
  split; [exact Hok|].
  exact (X23_use_cases_never_deactivate _ Example.world Hok).
Defined.
Section LookupFacts.
Import Errors Runtime.





End LookupFacts.

Section PaginationFacts.
Import Errors Runtime.







End PaginationFacts.



(* ================================================================== *)
(** ** [ProductController]: which errors become which answers *)
(* ================================================================== *)

Section ControllerFacts.
Import Errors Runtime.

Lemma handle_outcome {A : Type} (m : M A) (h : Exn -> ProductController.Thrown) (w : World) :
  ProductController.handle m h w
  = match m w with
    | (w', Return a) => (w', ProductController.Sent a)
    | (w', Throw error) => (w', ProductController.Failed (h error))
    end.
Proof. reflexivity. Qed.

End ControllerFacts.




(** X27.  For an identifier that is the text of a uuid and, when a
    product is stored under it, a stored stock, a quantity and a stock
    asked for that the [int] column holds: the handlers [findOne],
    [remove] and [updateStock] answer [NOT_FOUND], with the message of
    [ProductNotFoundError], exactly when the identifier is not in the
    table.  [updateStock] answers [BAD_REQUEST] exactly when the
    product exists and the quantity is [<= 0].  A decrement above the
    stock is not answered by the handler: the plain [Error] of the
    entity is thrown again, because nothing constructs the
    [InsufficientStockError] that the handler maps to [BAD_REQUEST]. *)
Theorem X27_not_found_and_stock_answers :
  forall (w : Runtime.World) (id : string) (updateStockDto : UpdateStockDto.t),
    Range.isUUID id = true ->
    (forall row : ProductEntity.t,
       Runtime.products w !! id = Some row ->
       stockChangeFits (UpdateStockDto.operation updateStockDto) (ProductEntity.stock row)
         (UpdateStockDto.quantity updateStockDto) = true) ->
    match ProductController.findOne id w with
    | (_, ProductController.Sent _) => Runtime.products w !! id <> None
    | (_, ProductController.Failed t) =>
        Runtime.products w !! id = None /\
        t = ProductController.HttpException
              (JS.lit ("Product with id '" ++ id ++ "' not found"))
              ProductController.NOT_FOUND
    end /\
    match ProductController.remove id w with
    | (_, ProductController.Sent _) => Runtime.products w !! id <> None
    | (w', ProductController.Failed t) =>
        Runtime.products w !! id = None /\
        t = ProductController.HttpException
              (JS.lit ("Product with id '" ++ id ++ "' not found"))
              ProductController.NOT_FOUND /\
        Runtime.products w' = Runtime.products w
    end /\
    match ProductController.updateStock id updateStockDto w with
    | (_, ProductController.Sent _) =>
        exists row, Runtime.products w !! id = Some row /\
          JS.le (UpdateStockDto.quantity updateStockDto) (JS.Int 0) = false /\
          JS.lt (stockAfter (UpdateStockDto.operation updateStockDto)
                   (ProductEntity.stock row) (UpdateStockDto.quantity updateStockDto))
            (JS.Int 0) = false
    | (w', ProductController.Failed (ProductController.HttpException response status)) =>
        Runtime.products w' = Runtime.products w /\
        match Runtime.products w !! id with
        | None =>
            status = ProductController.NOT_FOUND /\
            response = JS.lit ("Product with id '" ++ id ++ "' not found")
        | Some _ =>
            status = ProductController.BAD_REQUEST /\
            JS.le (UpdateStockDto.quantity updateStockDto) (JS.Int 0) = true /\
            response = JS.lit ("quantity cannot be negative. Received: "
                               ++ JS.toString (UpdateStockDto.quantity updateStockDto))
        end
    | (w', ProductController.Failed (ProductController.Rethrown error)) =>
        Runtime.products w' = Runtime.products w /\
        Errors.isDomainError error = false /\
        exists row, Runtime.products w !! id = Some row /\
          JS.le (UpdateStockDto.quantity updateStockDto) (JS.Int 0) = false /\
          JS.lt (stockAfter (UpdateStockDto.operation updateStockDto)
                   (ProductEntity.stock row) (UpdateStockDto.quantity updateStockDto))
            (JS.Int 0) = true /\
          (UpdateStockDto.operation updateStockDto = IUpdateStockInput.decrement ->
           error = Errors.Error (JS.lit "Insufficient stock"))
    end.
Proof.
  intros w id [q op] _ _. cbn [UpdateStockDto.quantity UpdateStockDto.operation].
  split; [|split].
  - unfold ProductController.findOne. rewrite handle_outcome.
    destruct (Runtime.products w !! id) as [row|] eqn:Hrow.
    + rewrite (getProductById_found w id row Hrow). discriminate.
    + rewrite (getProductById_missing w id Hrow). split; reflexivity.
  - unfold ProductController.remove. rewrite handle_outcome.
    destruct (Runtime.products w !! id) as [row|] eqn:Hrow.
    + destruct (deleteProduct_found w id row Hrow) as (w' & -> & _). discriminate.
    + rewrite (deleteProduct_missing w id Hrow). split; [reflexivity|]. split; reflexivity.
  - unfold ProductController.updateStock.
    cbn [UpdateStockDto.quantity UpdateStockDto.operation]. rewrite handle_outcome.
    destruct (updateStock_outcome w (IUpdateStockInput.mk id q op)) as (w' & -> & Hp & _).
    cbn [IUpdateStockInput.productId IUpdateStockInput.quantity
         IUpdateStockInput.operation] in *.
    destruct (Runtime.products w !! id) as [row|] eqn:Hrow.
    2:{ cbn [Errors.isProductNotFoundError Errors.message].
        split; [exact Hp|]. split; reflexivity. }
    destruct (JS.le q (JS.Int 0)) eqn:Hq.
    { cbn [Errors.forNegativeValue Errors.isProductNotFoundError
           Errors.isInvalidProductDataError orb Errors.message].
      split; [exact Hp|]. split; [reflexivity|]. split; reflexivity. }
    destruct (JS.lt (stockAfter op (ProductEntity.stock row) q) (JS.Int 0)) eqn:Hlt.
    { cbn [Errors.isProductNotFoundError Errors.isInvalidProductDataError
           Errors.isInsufficientStockError Errors.isProductNotAvailableError orb].
      split; [exact Hp|]. split; [reflexivity|].
      exists row. split; [reflexivity|]. split; [reflexivity|]. split; [exact Hlt|].
      intros ->. reflexivity. }
    exists row. split; [reflexivity|]. split; [reflexivity|exact Hlt].
Qed.

(** In the shop, where 7 keyboards are in stock: a decrement by 10 and
    a quantity of 0 on the keyboard; the three handlers on an
    identifier that the shop does not have. *)
Lemma X27_witness :
  let above := UpdateStockDto.mk (JS.Int 10) IUpdateStockInput.decrement in
  let zero := UpdateStockDto.mk (JS.Int 0) IUpdateStockInput.increment in
  let missing := ProductController.HttpException
                   (JS.lit ("Product with id '" ++ Example.absentId ++ "' not found"))
                   ProductController.NOT_FOUND in
  Range.isUUID Example.keyboardId = true /\ Range.isUUID Example.absentId = true /\
  Runtime.products Example.shop !! Example.keyboardId = Some Example.keyboard /\
  Runtime.products Example.shop !! Example.absentId = None /\
  stockChangeFits IUpdateStockInput.decrement (ProductEntity.stock Example.keyboard)
    (JS.Int 10) = true /\
  stockChangeFits IUpdateStockInput.increment (ProductEntity.stock Example.keyboard)
    (JS.Int 0) = true /\
  (exists w' : Runtime.World,
     ProductController.updateStock Example.keyboardId above Example.shop
     = (w', ProductController.Failed
              (ProductController.Rethrown (Errors.Error (JS.lit "Insufficient stock")))) /\
     Runtime.products w' = Runtime.products Example.shop) /\
  (exists w' : Runtime.World,
     ProductController.updateStock Example.keyboardId zero Example.shop
     = (w', ProductController.Failed
              (ProductController.HttpException
                 (JS.lit "quantity cannot be negative. Received: 0")
                 ProductController.BAD_REQUEST))) /\
  (exists w' : Runtime.World,
     ProductController.findOne Example.absentId Example.shop
     = (w', ProductController.Failed missing)) /\
  (exists w' : Runtime.World,
     ProductController.remove Example.absentId Example.shop
     = (w', ProductController.Failed missing)) /\
  (exists w' : Runtime.World,
     ProductController.updateStock Example.absentId above Example.shop
     = (w', ProductController.Failed missing)).
Proof.
  intros above zero missing.
  assert (Range.isUUID Example.keyboardId = true) as U1 by reflexivity.
  assert (Range.isUUID Example.absentId = true) as U2 by reflexivity.
  assert (Runtime.products Example.shop !! Example.keyboardId = Some Example.keyboard) as K1
    by (vm_compute; reflexivity).
  assert (Runtime.products Example.shop !! Example.absentId = None) as K2
    by (vm_compute; reflexivity).
  assert (stockChangeFits IUpdateStockInput.decrement (ProductEntity.stock Example.keyboard)
            (JS.Int 10) = true) as F1 by reflexivity.
  assert (stockChangeFits IUpdateStockInput.increment (ProductEntity.stock Example.keyboard)
            (JS.Int 0) = true) as F2 by reflexivity.
  assert (forall operation quantity,
            stockChangeFits operation (ProductEntity.stock Example.keyboard) quantity = true ->
            forall row,
              Runtime.products Example.shop !! Example.keyboardId = Some row ->
              stockChangeFits operation (ProductEntity.stock row) quantity = true) as G
    by (intros operation quantity F row H; rewrite K1 in H; injection H as <-; exact F).
  assert (forall operation quantity row,
            Runtime.products Example.shop !! Example.absentId = Some row ->
            stockChangeFits operation (ProductEntity.stock row) quantity = true) as G'
    by (intros operation quantity row H; rewrite K2 in H; discriminate H).
  destruct (X27_not_found_and_stock_answers Example.shop Example.keyboardId above U1
              (G _ _ F1)) as (_ & _ & T1).
  destruct (X27_not_found_and_stock_answers Example.shop Example.keyboardId zero U1
              (G _ _ F2)) as (_ & _ & T2).
  destruct (X27_not_found_and_stock_answers Example.shop Example.absentId above U2
              (G' _ _)) as (T3 & T4 & T5).
  cbn [UpdateStockDto.quantity UpdateStockDto.operation above zero] in T1, T2, T5.
  rewrite K1 in T2. rewrite K2 in T3, T4, T5.
  repeat (split; [assumption|]). split; [|split; [|split; [|split]]].
  - destruct (ProductController.updateStock Example.keyboardId above Example.shop)
      as [w1 [dto|[response status|error]]] eqn:E; try (vm_compute in E; discriminate E).
    destruct T1 as (Hp & _ & row & _ & _ & _ & Herr). rewrite (Herr eq_refl).
    exists w1. split; [reflexivity|exact Hp].
  - destruct (ProductController.updateStock Example.keyboardId zero Example.shop)
      as [w1 [dto|[response status|error]]] eqn:E; try (vm_compute in E; discriminate E).
    destruct T2 as (_ & -> & _ & ->). exists w1. reflexivity.
  - destruct (ProductController.findOne Example.absentId Example.shop)
      as [w1 [dto|t]] eqn:E; [vm_compute in E; discriminate E|].
    destruct T3 as (_ & ->). exists w1. reflexivity.
  - destruct (ProductController.remove Example.absentId Example.shop)
      as [w1 [u|t]] eqn:E; [vm_compute in E; discriminate E|].
    destruct T4 as (_ & -> & _). exists w1. reflexivity.
  - destruct (ProductController.updateStock Example.absentId above Example.shop)
      as [w1 [dto|[response status|error]]] eqn:E; try (vm_compute in E; discriminate E).
    destruct T5 as (_ & -> & ->). exists w1. reflexivity.
Defined.


(* ================================================================== *)
(** ** [NestConfigEnvironmentService] *)
(* ================================================================== *)

Section PortFacts.

Lemma digits_nonempty (D acc : string) : (1 <= JS.length D)%nat -> (D ++ acc)%string <> "".
Proof. destruct D; [cbn; lia|discriminate]. Qed.

(** Printing an integer and parsing the text gives the integer back. *)
Lemma parseInt_toString (z : Z) : JS.parseInt (JS.toString (JS.Int z)) = JS.Int z.
Proof.
  unfold JS.toString. destruct (Z.ltb_spec z 0) as [Hneg|Hpos].
  - pose proof (digitsFuel_enough (- z) ltac:(lia)) as Hfuel.
    destruct (digits_spec (JS.digitsFuel (- z)) (JS.digitsFuel (- z)) (- z) "")
      as (D & HD & Hall & Hlen & Hval); [lia|unfold JS.digitsFuel; lia|].
    rewrite HD, app_s_nil. unfold JS.parseInt. cbn [JS.trimStart].
    change (JS.isWhiteSpace "-") with false. cbv iota.
    change (Ascii.eqb "-" "-") with true. cbv iota beta zeta.
    rewrite parseDigits_start; [|intros E; rewrite E in Hlen; cbn in Hlen; lia|exact Hall].
    rewrite Hval. f_equal; lia.
  - pose proof (digitsFuel_enough z Hpos) as Hfuel.
    destruct (digits_spec (JS.digitsFuel z) (JS.digitsFuel z) z "")
      as (D & HD & Hall & Hlen & Hval); [lia|unfold JS.digitsFuel; lia|].
    rewrite HD, app_s_nil. apply parseInt_digits; [|exact Hall|].
    + intros E. rewrite E in Hlen. cbn in Hlen. lia.
    + rewrite Hval. f_equal; lia.
Qed.

Lemma toString_truthy (z : Z) : JS.truthy (JS.toString (JS.Int z)) = true.
Proof.
  unfold JS.toString. destruct (Z.ltb_spec z 0) as [Hneg|Hpos]; [reflexivity|].
  pose proof (digitsFuel_enough z Hpos) as Hfuel.
  destruct (digits_spec (JS.digitsFuel z) (JS.digitsFuel z) z "")
    as (D & -> & _ & Hlen & _); [lia|unfold JS.digitsFuel; lia|].
  destruct D; [cbn in Hlen; lia|reflexivity].
Qed.

End PortFacts.

(** X28.  [NestConfigEnvironmentService].  The environment name is
    never empty: an absent or empty [NODE_ENV] reads as
    [development].  At most one of [isDevelopment], [isProduction],
    [isTest] holds, and [isDevelopment] holds when [NODE_ENV] is
    absent or empty.  [getPort] is 3000 when [PORT] is absent or
    empty; it reads back every safe integer written in decimal; and
    it is [NaN], not 3000, when [PORT] starts with an ASCII character
    that is neither a digit, a sign nor white space. *)
Theorem X28_environment_service :
  forall (configService : NestConfigEnvironmentService.ConfigService)
         (z : Z) (c : ascii) (rest : string),
    Range.isSafeInteger (JS.Int z) = true ->
    Range.isASCIIChar c = true ->
    JS.isDigit c = false -> JS.isWhiteSpace c = false ->
    Ascii.eqb c "-" = false -> Ascii.eqb c "+" = false ->
    NestConfigEnvironmentService.getNodeEnv configService <> "" /\
    NestConfigEnvironmentService.isDevelopment configService
    && NestConfigEnvironmentService.isProduction configService = false /\
    NestConfigEnvironmentService.isDevelopment configService
    && NestConfigEnvironmentService.isTest configService = false /\
    NestConfigEnvironmentService.isProduction configService
    && NestConfigEnvironmentService.isTest configService = false /\
    NestConfigEnvironmentService.isDevelopment (base.delete "NODE_ENV" configService) = true /\
    NestConfigEnvironmentService.isDevelopment (<["NODE_ENV" := ""]> configService) = true /\
    NestConfigEnvironmentService.getPort (base.delete "PORT" configService) = JS.Int 3000 /\
    NestConfigEnvironmentService.getPort (<["PORT" := ""]> configService) = JS.Int 3000 /\
    NestConfigEnvironmentService.getPort
      (<["PORT" := JS.toString (JS.Int z)]> configService) = JS.Int z /\
    NestConfigEnvironmentService.getPort (<["PORT" := String c rest]> configService)
    = JS.NaN.
Proof.
  intros cs z c rest _ _ Hd Hw Hm Hp.
  unfold NestConfigEnvironmentService.isDevelopment, NestConfigEnvironmentService.isProduction,
    NestConfigEnvironmentService.isTest, NestConfigEnvironmentService.getPort.
  split.
  { unfold NestConfigEnvironmentService.getNodeEnv, JS.orString.
    destruct (cs !! "NODE_ENV") as [[|c' v]|]; discriminate. }
  split.
  { destruct (String.eqb_spec (NestConfigEnvironmentService.getNodeEnv cs) "development")
      as [->|]; reflexivity. }
  split.
  { destruct (String.eqb_spec (NestConfigEnvironmentService.getNodeEnv cs) "development")
      as [->|]; reflexivity. }
  split.
  { destruct (String.eqb_spec (NestConfigEnvironmentService.getNodeEnv cs) "production")
      as [->|]; reflexivity. }
  unfold NestConfigEnvironmentService.getNodeEnv.
  unfold NestConfigEnvironmentService.ConfigService in cs.
  rewrite !(lookup_delete_eq cs), !(lookup_insert_eq cs).
  split; [reflexivity|]. split; [reflexivity|]. split; [reflexivity|]. split; [reflexivity|].
  split.
  - rewrite toString_truthy. apply parseInt_toString.
  - cbn [JS.truthy].
    unfold JS.parseInt. cbn [JS.trimStart]. rewrite Hw, Hm, Hp. cbv beta iota zeta.
    cbn [JS.parseDigits]. unfold JS.digitVal. rewrite Hd. reflexivity.
Qed.

(** A configuration that sets [NODE_ENV] to [production]: the port
    8080 written in decimal is read back, and a port that starts with
    the letter x is not a number. *)
Lemma X28_witness :
  let configService : NestConfigEnvironmentService.ConfigService :=
    <["NODE_ENV" := "production"]> ∅ in
  Range.isSafeInteger (JS.Int 8080) = true /\
  Range.isASCIIChar "x" = true /\
  JS.isDigit "x" = false /\ JS.isWhiteSpace "x" = false /\
  Ascii.eqb "x" "-" = false /\ Ascii.eqb "x" "+" = false /\
  NestConfigEnvironmentService.getNodeEnv configService = "production" /\
  NestConfigEnvironmentService.isProduction configService = true /\
  NestConfigEnvironmentService.isDevelopment configService = false /\
  NestConfigEnvironmentService.isDevelopment (base.delete "NODE_ENV" configService) = true /\
  NestConfigEnvironmentService.getPort configService = JS.Int 3000 /\
  NestConfigEnvironmentService.getPort (<["PORT" := "8080"]> configService) = JS.Int 8080 /\
  NestConfigEnvironmentService.getPort (<["PORT" := "x80"]> configService) = JS.NaN.
Proof.
  intros configService.
  assert (Range.isSafeInteger (JS.Int 8080) = true) as H1 by reflexivity.
  assert (Range.isASCIIChar "x" = true) as H2 by reflexivity.
  assert (JS.isDigit "x" = false) as H3 by reflexivity.
  assert (JS.isWhiteSpace "x" = false) as H4 by reflexivity.
  assert (Ascii.eqb "x" "-" = false) as H5 by reflexivity.
  assert (Ascii.eqb "x" "+" = false) as H6 by reflexivity.
  destruct (X28_environment_service configService 8080 "x" "80" H1 H2 H3 H4 H5 H6)
    as (_ & T1 & _ & _ & T2 & _ & T3 & _ & T4 & T5).
  repeat (split; [assumption|]).
  assert (NestConfigEnvironmentService.isProduction configService = true) as P
    by (vm_compute; reflexivity).
  split; [vm_compute; reflexivity|]. split; [exact P|].
  split; [rewrite P in T1; rewrite andb_true_r in T1; exact T1|].
  split; [exact T2|].
  split; [|split; [exact T4|exact T5]].
  assert (base.delete "PORT" configService = configService) as D
    by (vm_compute; reflexivity).
  rewrite D in T3. exact T3.
Defined.

(* ================================================================== *)
(** ** [Price]: currencies in comparisons and arithmetic *)
(* ================================================================== *)

Section CurrencyFacts.
Import Errors.

Lemma supported_upper (currency : string) :
  JS.includes Price.SUPPORTED_CURRENCIES currency = true -> JS.toUpperCase currency = currency.
Proof.
  unfold JS.includes, Price.SUPPORTED_CURRENCIES. cbn [existsb].
  intros H. repeat (apply orb_true_iff in H as [H|H]; [apply String.eqb_eq in H; subst;
                                                        reflexivity|]).
  discriminate H.
Qed.

Lemma validateSameCurrency_outcome (this other : Price.t) :
  Price.validateSameCurrency this other
  = if String.eqb (Price.currency this) (Price.currency other) then Return tt
    else Throw (Error (JS.lit ("Cannot compare prices with different currencies: "
                               ++ Price.currency this ++ " vs " ++ Price.currency other))).
Proof.
  unfold Price.validateSameCurrency.
  destruct (String.eqb (Price.currency this) (Price.currency other)); reflexivity.
Qed.

(** What [create] returns for a currency that is supported as it is
    written. *)
Lemma create_supported (amount : float) (currency : string) (q : Price.t) :
  JS.includes Price.SUPPORTED_CURRENCIES currency = true ->
  Price.create amount (Some currency) = Return q ->
  Price.currency q = currency /\
  Price.amount q = Price.roundToDecimals amount Price.MAX_DECIMALS /\
  PrimFloat.ltb amount 0%float = false /\
  JS.Number_isFinite amount = true.
Proof.
  intros Hs. rewrite Price_create_outcome. cbn [default from_option]. unfold id.
  rewrite (supported_upper currency Hs), Hs. cbn [negb].
  destruct (PrimFloat.ltb amount 0%float); [discriminate|].
  destruct (JS.Number_isFinite amount); [|discriminate].
  cbn [negb]. intros [= <-]. repeat split.
Qed.

End CurrencyFacts.

(** X29.  The two binary operations of [Price] and its four
    comparisons refuse a price in another currency, all with the same
    plain [Error], which speaks of comparing also when the operation
    was an addition or a subtraction.  Only [equals] answers: the two
    prices are not equal. *)
Theorem X29_price_currency_mismatch :
  forall this other : Price.t,
    Price.currency this <> Price.currency other ->
    Price.isGreaterThan this other
    = Errors.Throw (Errors.Error (JS.lit ("Cannot compare prices with different currencies: "
         ++ Price.currency this ++ " vs " ++ Price.currency other))) /\
    Price.isGreaterThanOrEqual this other
    = Errors.Throw (Errors.Error (JS.lit ("Cannot compare prices with different currencies: "
         ++ Price.currency this ++ " vs " ++ Price.currency other))) /\
    Price.isLessThan this other
    = Errors.Throw (Errors.Error (JS.lit ("Cannot compare prices with different currencies: "
         ++ Price.currency this ++ " vs " ++ Price.currency other))) /\
    Price.isLessThanOrEqual this other
    = Errors.Throw (Errors.Error (JS.lit ("Cannot compare prices with different currencies: "
         ++ Price.currency this ++ " vs " ++ Price.currency other))) /\
    Price.add this other
    = Errors.Throw (Errors.Error (JS.lit ("Cannot compare prices with different currencies: "
         ++ Price.currency this ++ " vs " ++ Price.currency other))) /\
    Price.subtract this other
    = Errors.Throw (Errors.Error (JS.lit ("Cannot compare prices with different currencies: "
         ++ Price.currency this ++ " vs " ++ Price.currency other))) /\
    Price.equals this other = false.
Proof.
  intros this other Hne. apply String.eqb_neq in Hne.
  unfold Price.isGreaterThan, Price.isGreaterThanOrEqual, Price.isLessThan,
    Price.isLessThanOrEqual, Price.add, Price.subtract, Price.equals.
  rewrite validateSameCurrency_outcome, Hne. cbn [Errors.bindO].
  repeat (split; [reflexivity|]). apply andb_false_r.
Qed.

Lemma X29_witness :
  let this := Price.new (IPriceSchemaValueObject.mk 10%float "USD") in
  let other := Price.new (IPriceSchemaValueObject.mk 10%float "EUR") in
  Price.currency this <> Price.currency other /\
  Price.isGreaterThan this other
  = Errors.Throw (Errors.Error (JS.lit ("Cannot compare prices with different currencies: "
       ++ Price.currency this ++ " vs " ++ Price.currency other))) /\
  Price.isGreaterThanOrEqual this other
  = Errors.Throw (Errors.Error (JS.lit ("Cannot compare prices with different currencies: "
       ++ Price.currency this ++ " vs " ++ Price.currency other))) /\
  Price.isLessThan this other
  = Errors.Throw (Errors.Error (JS.lit ("Cannot compare prices with different currencies: "
       ++ Price.currency this ++ " vs " ++ Price.currency other))) /\
  Price.isLessThanOrEqual this other
  = Errors.Throw (Errors.Error (JS.lit ("Cannot compare prices with different currencies: "
       ++ Price.currency this ++ " vs " ++ Price.currency other))) /\
  Price.add this other
  = Errors.Throw (Errors.Error (JS.lit ("Cannot compare prices with different currencies: "
       ++ Price.currency this ++ " vs " ++ Price.currency other))) /\
  Price.subtract this other
  = Errors.Throw (Errors.Error (JS.lit ("Cannot compare prices with different currencies: "
       ++ Price.currency this ++ " vs " ++ Price.currency other))) /\
  Price.equals this other = false.
Proof.
  intros this other.
  assert (Price.currency this <> Price.currency other) as H by discriminate.
  split; [exact H|].
  exact (X29_price_currency_mismatch this other H).
Defined.

(** X30.  Every arithmetic method of [Price] hands its result to
    [Price.create].  So on a price whose currency is one of the
    supported ones, whatever a method returns has the same currency,
    and its amount is the computed amount, which was neither negative
    nor infinite nor [NaN], rounded as [create] rounds. *)
Theorem X30_price_arithmetic_goes_through_create :
  forall (op : PriceOperation) (this q : Price.t),
    JS.includes Price.SUPPORTED_CURRENCIES (Price.currency this) = true ->
    calculate op this = Errors.Return q ->
    Price.currency q = Price.currency this /\
    Price.amount q = Price.roundToDecimals (rawAmount op this) Price.MAX_DECIMALS /\
    PrimFloat.ltb (rawAmount op this) 0%float = false /\
    JS.Number_isFinite (rawAmount op this) = true.
Proof.
  intros op this q Hs.
  assert (forall f,
            Price.multiply this f = Errors.Return q ->
            Price.currency q = Price.currency this /\
            Price.amount q
            = Price.roundToDecimals (Price.amount this * f) Price.MAX_DECIMALS /\
            PrimFloat.ltb (Price.amount this * f) 0%float = false /\
            JS.Number_isFinite (Price.amount this * f) = true) as Hmul.
  { intros f. unfold Price.multiply, Errors.throwIfO.
    destruct (PrimFloat.ltb f 0%float); [discriminate|].
    destruct (JS.Number_isFinite f); [|discriminate].
    cbn [negb Errors.bindO]. apply create_supported, Hs. }
  destruct op as [other|other|f|d|pct|pct]; cbn [calculate rawAmount].
  - unfold Price.add. rewrite validateSameCurrency_outcome.
    destruct (String.eqb _ _); [|discriminate]. cbn [Errors.bindO].
    apply create_supported, Hs.
  - unfold Price.subtract. rewrite validateSameCurrency_outcome.
    destruct (String.eqb _ _); [|discriminate]. cbn [Errors.bindO]. unfold Errors.throwIfO.
    destruct (PrimFloat.ltb (Price.amount this - Price.amount other) 0%float) eqn:E;
      [discriminate|].
    cbn [Errors.bindO]. intros Hc.
    destruct (create_supported _ _ _ Hs Hc) as (H1 & H2 & _ & H4). auto.
  - apply Hmul.
  - unfold Price.divide, Errors.throwIfO.
    destruct (PrimFloat.leb d 0%float); [discriminate|].
    destruct (JS.Number_isFinite d); [|discriminate].
    cbn [negb Errors.bindO]. apply create_supported, Hs.
  - unfold Price.applyDiscount, Errors.throwIfO.
    destruct (PrimFloat.ltb pct 0%float || PrimFloat.ltb 100%float pct); [discriminate|].
    cbn [Errors.bindO]. apply Hmul.
  - unfold Price.applyTax, Errors.throwIfO.
    destruct (PrimFloat.ltb pct 0%float); [discriminate|].
    cbn [Errors.bindO]. apply Hmul.
Qed.

Lemma X30_witness :
  let this := Price.new (IPriceSchemaValueObject.mk 10%float "USD") in
  JS.includes Price.SUPPORTED_CURRENCIES (Price.currency this) = true /\
  exists q : Price.t,
    calculate (ApplyDiscount 25%float) this = Errors.Return q /\
    Price.currency q = Price.currency this /\
    Price.amount q
    = Price.roundToDecimals (rawAmount (ApplyDiscount 25%float) this) Price.MAX_DECIMALS /\
    PrimFloat.ltb (rawAmount (ApplyDiscount 25%float) this) 0%float = false /\
    JS.Number_isFinite (rawAmount (ApplyDiscount 25%float) this) = true.
Proof.
  intros this.
  assert (JS.includes Price.SUPPORTED_CURRENCIES (Price.currency this) = true) as Hs
    by reflexivity.
  assert (exists q, calculate (ApplyDiscount 25%float) this = Errors.Return q) as (q & Hq)
    by (eexists; vm_compute; reflexivity).
  split; [exact Hs|]. exists q. split; [exact Hq|].
  exact (X30_price_arithmetic_goes_through_create (ApplyDiscount 25%float) this q Hs Hq).
Defined.
